(** * Template-aware layout resolution and content placement (app.py)

    A shallow embedding of the [PPTGenerator] class of [src/app.py]:
    layout classification, layout selection, the placeholder fallback
    chain, the body writer and the deck assembler; of [LLMOrchestrator];
    and of the routes [/generate] and [/test-template]; followed by the
    properties established about them.

    Conventions of the embedding.
    - A Python [str] is the Rocq [string] of its UTF-8 bytes; [len]
      counts code points; [lower] and [strip] are the ASCII ones, which
      is exact on ASCII text.
    - The presentation library (python-pptx) is not part of the
      repository.  Its objects are modelled by the records below, with
      the behaviour the calls of [app.py] rely on.  A library call that
      creates, removes or writes may raise, as the [try]/[except] blocks
      of [app.py] provide for: the record [Env] says which calls do.  A
      call that raises changes nothing; reading an object never raises.
    - [self] is the record [PPTGenerator], threaded through a state and
      exception monad; a raised exception keeps the state reached so far,
      as in Python.
    - The clients of the language-model providers, [json.loads], the
      request Flask hands to a route and the file system are not part of
      the repository either: the records [Services], [Route.Request] and
      [Route.Host] hold what the code reads from them. *)

From Stdlib Require Import String Ascii DecimalString List Arith ZArith Bool Lia Permutation
  Sorted.
From stdpp Require Import base option list.
Import ListNotations.
Local Open Scope string_scope.
Local Open Scope list_scope.
Local Open Scope nat_scope.

(** ** Python strings *)

Module PyStr.

Definition lower_ascii (c : ascii) : ascii :=
  let n := nat_of_ascii c in
  if (65 <=? n) && (n <=? 90) then ascii_of_nat (n + 32) else c.

(** [s.lower()] *)
Fixpoint lower (s : string) : string :=
  match s with
  | EmptyString => EmptyString
  | String c s' => String (lower_ascii c) (lower s')
  end.

(** [needle in hay] *)
Fixpoint contains (needle hay : string) : bool :=
  String.prefix needle hay ||
  match hay with
  | EmptyString => false
  | String _ hay' => contains needle hay'
  end.

(** [any(keyword in s for keyword in keywords)] *)
Definition any_in (keywords : list string) (s : string) : bool :=
  existsb (fun keyword => contains keyword s) keywords.

(** The characters removed by [str.strip()]: tab, line feed, vertical tab,
    form feed, carriage return, the four separators 28-31 and the space. *)
Definition is_space (c : ascii) : bool :=
  let n := nat_of_ascii c in
  ((9 <=? n) && (n <=? 13)) || ((28 <=? n) && (n <=? 32)).

Fixpoint lstrip (s : string) : string :=
  match s with
  | EmptyString => EmptyString
  | String c s' => if is_space c then lstrip s' else s
  end.

Fixpoint rstrip (s : string) : string :=
  match s with
  | EmptyString => EmptyString
  | String c s' =>
      match rstrip s' with
      | EmptyString => if is_space c then EmptyString else String c EmptyString
      | r => String c r
      end
  end.

(** [s.strip()] *)
Definition strip (s : string) : string := rstrip (lstrip s).

Definition newline : ascii := ascii_of_nat 10.
Definition vertical_tab : ascii := ascii_of_nat 11.

(** [len(s)]: the number of code points, that is of the bytes that are
    not continuation bytes. *)
Definition is_continuation (c : ascii) : bool :=
  let n := nat_of_ascii c in
  (128 <=? n) && (n <=? 191).

Fixpoint len (s : string) : nat :=
  match s with
  | EmptyString => 0
  | String c s' => (if is_continuation c then 0 else 1) + len s'
  end.

(** [s.split("\n")] *)
Fixpoint split_lines (s : string) : list string :=
  match s with
  | EmptyString => [EmptyString]
  | String c s' =>
      if Ascii.eqb c newline then EmptyString :: split_lines s'
      else match split_lines s' with
           | h :: t => String c h :: t
           | [] => [String c EmptyString]
           end
  end.

(** ["\n".join(ps)] *)
Fixpoint join_lines (ps : list string) : string :=
  match ps with
  | [] => EmptyString
  | [p] => p
  | p :: rest => String.append p (String newline (join_lines rest))
  end.

(** [s.startswith(p)] and [s.endswith(q)] *)
Definition startswith (p s : string) : bool := String.prefix p s.

Definition endswith (q s : string) : bool :=
  (String.length q <=? String.length s)
  && String.eqb (substring (String.length s - String.length q) (String.length q) s) q.

(** The slices [s[n:]] and [s[:-n]], for [n > 0]. *)
Definition slice_from (n : nat) (s : string) : string :=
  substring n (String.length s - n) s.

Definition slice_to_minus (n : nat) (s : string) : string :=
  substring 0 (String.length s - n) s.

End PyStr.

(** ** The document model (python-pptx objects as [app.py] sees them) *)

(** A shape of a slide.  [ph_idx] is [placeholder_format.idx], [None] when
    [is_placeholder] is false; [text_frame] holds the paragraphs of the
    shape's text frame, [None] when the shape has no [text_frame]
    attribute (pictures, charts, tables); [box] is the shape's own
    [(left, top, width, height)] in EMU, [None] when it is inherited. *)
Record Shape := mkShape {
  ph_idx : option nat;
  shape_name : string;
  text_frame : option (list string);
  box : option (Z * Z * Z * Z)
}.

(** A slide layout: its name and the shapes a slide instantiated from it
    starts with (the placeholders [add_slide] clones). *)
Record Layout := mkLayout {
  layout_name : string;
  layout_shapes : list Shape
}.

Record Slide := mkSlide {
  slide_layout : Layout;
  shapes : list Shape;
  notes : option string
}.

Record Presentation := mkPresentation {
  slide_layouts : list Layout;
  slides : list Slide
}.

(** One entry of [outline_data["slides"]].  A missing ["title"] key is
    [None] (its default differs between the readers); a missing
    ["points"] is the empty list and a missing ["notes"] the empty
    string, their [.get] defaults. *)
Record SlideSpec := mkSlideSpec {
  title : option string;
  points : list string;
  spec_notes : string
}.

Record Outline := mkOutline {
  outline_title : option string;
  outline_slides : list SlideSpec
}.

(** What the code cannot know in advance about the library and the clock:
    which library calls raise ([text_frame_raises] says whether the
    writes into the text frame of a shape raise, from the first one on),
    whether the statement
    [from pptx.shapes.textbox import TextBox] of "Method 4" raises (it
    does when the installed library has no module of that name), the name
    the library gives a text box added to a slide (it numbers the box by
    the shape ids in use on the slide), the layouts of the library's
    built-in template (the presentation [Presentation()] returns has these
    layouts and no slide), and the date string. *)
Record Env := mkEnv {
  add_slide_raises : Layout -> bool;
  drop_rel_raises : Slide -> bool;
  text_frame_raises : Shape -> bool;
  textbox_import_raises : bool;
  add_textbox_raises : Slide -> bool;
  textbox_name : Slide -> string;
  notes_slide_raises : Slide -> bool;
  builtin_layouts : list Layout;
  today : string
}.

Definition is_placeholder (s : Shape) : bool :=
  match ph_idx s with Some _ => true | None => false end.

(** [hasattr(shape, 'text_frame')]; shapes that have a [text] attribute are
    the ones that have a text frame. *)
Definition has_text_frame (s : Shape) : bool :=
  match text_frame s with Some _ => true | None => false end.
Definition has_text (s : Shape) : bool := has_text_frame s.

(** [shape.is_placeholder and P(shape.placeholder_format.idx)] *)
Definition ph_idx_is (P : nat -> bool) (s : Shape) : bool :=
  match ph_idx s with Some i => P i | None => false end.

(** ** Text frames *)

Inductive exn := IndexError | KeyError | AttributeError | ImportError | LibraryError.

Inductive result (A : Type) :=
| Ok (a : A)
| Raise (e : exn).
Arguments Ok {A} a.
Arguments Raise {A} e.

Module TextFrame.

(** [text_frame.text] *)
Definition text (ps : list string) : string := PyStr.join_lines ps.

(** The characters the library writes escaped into a run: the control
    characters other than tab, line feed and vertical tab. *)
Definition is_escaped (c : ascii) : bool :=
  let n := nat_of_ascii c in
  (n <=? 8) || ((12 <=? n) && (n <=? 31)).

Definition hex_digit (n : nat) : ascii :=
  if n <? 10 then ascii_of_nat (48 + n) else ascii_of_nat (55 + n).

(** The escape of a control character: ["_x%04X_" % ord(c)]. *)
Definition escape (c : ascii) : string :=
  let n := nat_of_ascii c in
  String.concat ""
    ["_x00"; String (hex_digit (n / 16)) (String (hex_digit (n mod 16)) EmptyString); "_"].

(** What a paragraph reads back after [p.text = s]: a line feed or a
    vertical tab of [s] becomes a line break, which reads back as a
    vertical tab, and an escaped character reads back as its escape. *)
Fixpoint stored (s : string) : string :=
  match s with
  | EmptyString => EmptyString
  | String c s' =>
      if Ascii.eqb c PyStr.newline || Ascii.eqb c PyStr.vertical_tab
      then String PyStr.vertical_tab (stored s')
      else if is_escaped c then String.append (escape c) (stored s')
      else String c (stored s')
  end.

(** [s] has no escaped character: a text frame reads it back as it was
    assigned. *)
Fixpoint unescaped (s : string) : bool :=
  match s with
  | EmptyString => true
  | String c s' => negb (is_escaped c) && unescaped s'
  end.

(** [s] has no escaped character and no line feed: a paragraph reads it
    back as it was assigned. *)
Fixpoint one_line (s : string) : bool :=
  match s with
  | EmptyString => true
  | String c s' => negb (Ascii.eqb c PyStr.newline) && negb (is_escaped c) && one_line s'
  end.

(** [text_frame.text = s]: one paragraph per line of [s], each stored as
    a paragraph stores its text. *)
Definition set_text (s : string) : list string := map stored (PyStr.split_lines s).

(** [text_frame.clear()]: all paragraphs but the first are removed and the
    first is emptied; reading [paragraphs[0]] of a frame without
    paragraphs raises. *)
Definition clear (ps : list string) : result (list string) :=
  match ps with
  | [] => Raise IndexError
  | _ :: _ => Ok [EmptyString]
  end.

(** [text_frame.add_paragraph()]: the new paragraph is the last one. *)
Definition add_paragraph (ps : list string) : list string := ps ++ [EmptyString].

End TextFrame.

(** ** The generator object and its monad *)

(** The fields of [PPTGenerator] that the methods read and write.
    [content_layouts] holds the pairs [(i, layout)] appended by the
    classifier, [current_layout_index] is the rotation cursor. *)
Record PPTGenerator := mkGen {
  presentation : Presentation;
  content_layouts : list (nat * Layout);
  current_layout_index : nat
}.

Definition M (A : Type) : Type := PPTGenerator -> result A * PPTGenerator.

Definition ret {A} (a : A) : M A := fun g => (Ok a, g).

Definition bind {A B} (c : M A) (k : A -> M B) : M B :=
  fun g => match c g with
           | (Ok a, g') => k a g'
           | (Raise e, g') => (Raise e, g')
           end.

Definition raise {A} (e : exn) : M A := fun g => (Raise e, g).

(** [try: c except: h] *)
Definition try_except {A} (c : M A) (h : exn -> M A) : M A :=
  fun g => match c g with
           | (Ok a, g') => (Ok a, g')
           | (Raise e, g') => h e g'
           end.

Definition get : M PPTGenerator := fun g => (Ok g, g).
Definition modify (f : PPTGenerator -> PPTGenerator) : M unit := fun g => (Ok tt, f g).

Declare Scope py_scope.
Delimit Scope py_scope with py.
Notation "x <- c ;; k" := (bind c (fun x => k))
  (at level 100, c at next level, right associativity) : py_scope.
Notation "c ;; k" := (bind c (fun _ => k))
  (at level 100, right associativity) : py_scope.
Local Open Scope py_scope.

Definition set_slides (ss : list Slide) (g : PPTGenerator) : PPTGenerator :=
  mkGen (mkPresentation (slide_layouts (presentation g)) ss)
        (content_layouts g) (current_layout_index g).

Definition set_content_layouts (cl : list (nat * Layout)) (g : PPTGenerator) : PPTGenerator :=
  mkGen (presentation g) cl (current_layout_index g).

Definition set_current_layout_index (i : nat) (g : PPTGenerator) : PPTGenerator :=
  mkGen (presentation g) (content_layouts g) i.

(** ** Library calls on the presentation *)

(** The slide [add_slide(layout)] creates: the layout's placeholders, no
    notes. *)
Definition new_slide (layout : Layout) : Slide :=
  mkSlide layout (layout_shapes layout) None.

(** [self.presentation.slides.add_slide(layout)]: the new slide becomes
    the last slide of the presentation. *)
Definition add_slide (env : Env) (layout : Layout) : M Slide :=
  if add_slide_raises env layout then raise LibraryError
  else (modify (fun g => set_slides (slides (presentation g) ++ [new_slide layout]) g) ;;
        ret (new_slide layout)).

(** The slide object is mutated in place after [add_slide]; here the
    mutated slide replaces the last slide of the sequence. *)
Definition store_last_slide (s : Slide) : M unit :=
  modify (fun g => set_slides (removelast (slides (presentation g)) ++ [s]) g).

(** [rId = slides._sldIdLst[-1].rId; part.drop_rel(rId); del slides._sldIdLst[-1]] *)
Definition drop_last_slide (env : Env) : M unit :=
  g <- get ;;
  match list.last (slides (presentation g)) with
  | None => raise IndexError
  | Some s =>
      if drop_rel_raises env s then raise LibraryError
      else modify (set_slides (removelast (slides (presentation g))))
  end.

(** The loop [while len(slides) > 0] that drops slide 0: each round
    removes the head, so the loop is a recursion on the slide sequence.
    The result is the outcome and the slides left. *)
Fixpoint clear_slides (env : Env) (ss : list Slide) : result unit * list Slide :=
  match ss with
  | [] => (Ok tt, [])
  | s :: rest =>
      if drop_rel_raises env s then (Raise LibraryError, s :: rest)
      else clear_slides env rest
  end.

Definition clear_existing_slides (env : Env) : M unit :=
  fun g => let '(r, ss) := clear_slides env (slides (presentation g)) in
           (r, set_slides ss g).

(** ** Layout classifier *)

Definition content_keywords : list string :=
  ["content"; "bullet"; "text"; "two content"; "comparison";
   "title and content"; "section header"; "picture with caption";
   "content with caption"; "blank"].

Definition title_keywords : list string := ["title"; "section"].

Definition title_only_keywords : list string := ["title slide"; "title only"].

(** What the probe reads off the temporary slide. *)
Definition probe_shapes (temp_shapes : list Shape) : bool :=
  let has_content :=
    existsb (fun placeholder =>
               ph_idx_is (fun i => 0 <? i) placeholder && has_text_frame placeholder)
            temp_shapes in
  if negb has_content
  then existsb (fun shape => has_text_frame shape && negb (is_placeholder shape)) temp_shapes
  else has_content.

Definition _has_content_placeholders (env : Env) (layout : Layout) : M bool :=
  try_except
    (temp_slide <- add_slide env layout ;;
     let has_content := probe_shapes (shapes temp_slide) in
     try_except (drop_last_slide env) (fun _ => ret tt) ;;
     ret has_content)
    (fun _ => ret true).

Definition append_content_layout (entry : nat * Layout) : M unit :=
  modify (fun g => set_content_layouts (content_layouts g ++ [entry]) g).

(** The body of [for i, layout in enumerate(slide_layouts)]. *)
Definition classify_layout (env : Env) (i : nat) (layout : Layout) : M unit :=
  let layout_name := PyStr.lower (layout_name layout) in
  if PyStr.any_in title_only_keywords layout_name then ret tt
  else
    is_content_layout <-
      (if PyStr.any_in content_keywords layout_name then ret true
       else
         probe <- _has_content_placeholders env layout ;;
         if probe then ret true
         else if negb (PyStr.any_in title_keywords layout_name) then ret true
         else ret false) ;;
    if is_content_layout then append_content_layout (i, layout) else ret tt.

Fixpoint classify_from (env : Env) (i : nat) (layouts : list Layout) : M unit :=
  match layouts with
  | [] => ret tt
  | layout :: rest => classify_layout env i layout ;; classify_from env (S i) rest
  end.

(** [for i in range(min(len(layouts), 3)): if i > 0: append (i, layouts[i])] *)
Definition default_layouts (layouts : list Layout) : list (nat * Layout) :=
  omap (fun i => if 0 <? i then (fun layout => (i, layout)) <$> layouts !! i else None)
       (seq 0 (Nat.min (length layouts) 3)).

Definition _identify_content_layouts (env : Env) : M unit :=
  modify (set_content_layouts []) ;;
  g <- get ;;
  classify_from env 0 (slide_layouts (presentation g)) ;;
  g' <- get ;;
  match content_layouts g' with
  | [] => modify (set_content_layouts (default_layouts (slide_layouts (presentation g'))))
  | _ :: _ => ret tt
  end.

(** ** Layout selector *)

(** [l[i]] *)
Definition index {A} (l : list A) (i : nat) : M A :=
  match l !! i with
  | Some x => ret x
  | None => raise IndexError
  end.

Definition _get_next_content_layout : M Layout :=
  g <- get ;;
  match content_layouts g with
  | [] =>
      let layouts := slide_layouts (presentation g) in
      if 1 <? length layouts then index layouts 1 else index layouts 0
  | _ :: _ =>
      entry <- index (content_layouts g) (current_layout_index g) ;;
      modify (set_current_layout_index
                ((current_layout_index g + 1) mod length (content_layouts g))) ;;
      ret (snd entry)
  end.

(** The priority the [if]/[elif] chain of [_get_smart_layout] gives a
    layout; [slide_title] and [layout_name] are already lower-cased. *)
Definition priority (slide_title : string) (num_points : nat) (layout_name : string) : nat :=
  if (num_points <=? 2) && PyStr.contains "two content" layout_name then 3
  else if (4 <? num_points) && PyStr.contains "bullet" layout_name then 3
  else if PyStr.contains "comparison" layout_name
          && (PyStr.contains "vs" slide_title || PyStr.contains "comparison" slide_title) then 4
  else if PyStr.contains "section" layout_name
          && (PyStr.contains "introduction" slide_title
              || PyStr.contains "conclusion" slide_title) then 2
  else 1.

Definition Candidate : Type := nat * Layout * nat.

Definition cand_priority (c : Candidate) : nat := snd c.
Definition cand_layout (c : Candidate) : Layout := snd (fst c).

(** [l.sort(key=lambda x: x[2], reverse=True)]: Python's sort is stable,
    also with [reverse=True]; an insertion sort that puts an element in
    front of the first one whose priority is not larger is the same
    function. *)
Fixpoint insert_desc (c : Candidate) (l : list Candidate) : list Candidate :=
  match l with
  | [] => [c]
  | d :: l' =>
      if cand_priority c <? cand_priority d then d :: insert_desc c l'
      else c :: d :: l'
  end.

Fixpoint sort_desc (l : list Candidate) : list Candidate :=
  match l with
  | [] => []
  | c :: l' => insert_desc c (sort_desc l')
  end.

(** [slide_data.get("title", "")] *)
Definition title_or_empty (slide_data : SlideSpec) : string :=
  default EmptyString (title slide_data).

Definition suitable_layouts (slide_data : SlideSpec) (cl : list (nat * Layout)) : list Candidate :=
  let slide_title := PyStr.lower (title_or_empty slide_data) in
  let num_points := length (points slide_data) in
  map (fun '(layout_index, layout) =>
         (layout_index, layout,
          priority slide_title num_points (PyStr.lower (layout_name layout))))
      cl.

Definition _get_smart_layout (slide_data : SlideSpec) : M Layout :=
  g <- get ;;
  match content_layouts g with
  | [] => _get_next_content_layout
  | _ :: _ =>
      match suitable_layouts slide_data (content_layouts g) with
      | (_ :: _) as suitable =>
          best <- index (sort_desc suitable) 0 ;;
          ret (cand_layout best)
      | [] => _get_next_content_layout
      end
  end.

(** ** Placeholder resolver and content writer *)

(** The first element satisfying [p], with its position. *)
Fixpoint find_first {A} (p : A -> bool) (l : list A) : option (nat * A) :=
  match l with
  | [] => None
  | x :: l' => if p x then Some (0, x) else prod_map S id <$> find_first p l'
  end.

Definition with_text_frame (ps : list string) (s : Shape) : Shape :=
  mkShape (ph_idx s) (shape_name s) (Some ps) (box s).

(** [if hasattr(shape, 'text_frame'): shape.text_frame.text = t
     elif hasattr(shape, 'text'): shape.text = t] *)
Definition write_text (env : Env) (t : string) (s : Shape) : result Shape :=
  if has_text_frame s then
    if text_frame_raises env s then Raise LibraryError
    else Ok (with_text_frame (TextFrame.set_text t) s)
  else if has_text s then
    if text_frame_raises env s then Raise LibraryError
    else Ok (with_text_frame (TextFrame.set_text t) s)
  else Ok s.

(** [slide_data.get("title", "Slide Title")] *)
Definition title_or_default (slide_data : SlideSpec) : string :=
  default "Slide Title" (title slide_data).

Definition is_title_placeholder (s : Shape) : bool := ph_idx_is (Nat.eqb 0) s.

(** Title, method 1: [slide.placeholders[0]], a lookup by [idx] that
    raises [KeyError] when no placeholder has [idx == 0]. *)
Definition title_method1 (env : Env) (t : string) (shs : list Shape) : result (list Shape) :=
  match find_first is_title_placeholder shs with
  | None => Raise KeyError
  | Some (k, title_placeholder) =>
      match write_text env t title_placeholder with
      | Ok s' => Ok (<[k := s']> shs)
      | Raise e => Raise e
      end
  end.

(** Title, method 2: [slide.shapes.title], the first placeholder with
    [idx == 0] or [None]; [title.text = t] needs the [text] attribute.
    [None] stands for "the guard was false". *)
Definition title_method2 (env : Env) (t : string) (shs : list Shape) : result (option (list Shape)) :=
  match find_first is_title_placeholder shs with
  | None => Ok None
  | Some (k, title_shape) =>
      if has_text title_shape then
        if text_frame_raises env title_shape then Raise LibraryError
        else Ok (Some (<[k := with_text_frame (TextFrame.set_text t) title_shape]> shs))
      else Raise AttributeError
  end.

(** Title, method 3: the manual scan; a shape whose write raises is
    skipped ([continue]), the first success ends the scan ([break]). *)
Fixpoint title_method3 (env : Env) (t : string) (shs : list Shape) : option (list Shape) :=
  match shs with
  | [] => None
  | shape :: rest =>
      if is_title_placeholder shape then
        match write_text env t shape with
        | Ok s' => Some (s' :: rest)
        | Raise _ => cons shape <$> title_method3 env t rest
        end
      else cons shape <$> title_method3 env t rest
  end.

(** The three title methods in order; the result is the shapes and
    [title_set]. *)
Definition set_title (env : Env) (slide_data : SlideSpec) (shs : list Shape) : list Shape * bool :=
  let t := title_or_default slide_data in
  match title_method1 env t shs with
  | Ok shs' => (shs', true)
  | Raise _ =>
      match title_method2 env t shs with
      | Ok (Some shs') => (shs', true)
      | _ =>
          match title_method3 env t shs with
          | Some shs' => (shs', true)
          | None => (shs, false)
          end
      end
  end.

(** [f"• {point}"] *)
Definition bullet (point : string) : string := String.append "• " point.

(** [p.text = t] on paragraph [k] of a text frame. *)
Definition set_paragraph_text (k : nat) (t : string) (ps : list string) : list string :=
  <[k := TextFrame.stored t]> ps.

(** The loop [for i, point in enumerate(points)]: the first point goes to
    paragraph [start], every later one to a paragraph added at the end.
    [fmt] is the identity or [bullet].  (The level and font-size hints
    do not change the text and are left out.) *)
Fixpoint write_points (fmt : string -> string) (start i : nat)
    (pts : list string) (ps : list string) : list string :=
  match pts with
  | [] => ps
  | point :: rest =>
      let ps' :=
        if i =? 0 then set_paragraph_text start (fmt point) ps
        else set_paragraph_text (length ps) (fmt point) (TextFrame.add_paragraph ps) in
      write_points fmt start (S i) rest ps'
  end.

Definition idx_positive (s : Shape) : bool := ph_idx_is (fun i => 0 <? i) s.

Definition strategy1 (shs : list Shape) : option (nat * Shape) :=
  find_first (fun shape => ph_idx_is (fun i => i =? 1) shape && has_text_frame shape) shs.

Definition strategy2 (shs : list Shape) : option (nat * Shape) :=
  find_first (fun shape =>
                idx_positive shape && has_text_frame shape &&
                (let shape_name := PyStr.lower (shape_name shape) in
                 PyStr.contains "content" shape_name
                 && negb (PyStr.contains "picture" shape_name))) shs.

Definition strategy3 (shs : list Shape) : option (nat * Shape) :=
  find_first (fun shape =>
                idx_positive shape && has_text_frame shape &&
                (let shape_name := PyStr.lower (shape_name shape) in
                 negb (PyStr.any_in ["picture"; "image"; "photo"; "chart"; "table"]
                                    shape_name))) shs.

Definition strategy4 (shs : list Shape) : option (nat * Shape) :=
  find_first (fun shape => idx_positive shape && has_text_frame shape) shs.

(** Which step of the chain received the body. *)
Inductive BodyRegion :=
| ViaPlaceholder (strategy pos : nat)
| ViaClearedTextFrame (pos : nat)
| ViaAppendedTextFrame (pos : nat)
| ViaNewTextBox
| NoRegion.

(** Strategies 1 to 4 in order: the strategy number, the position of the
    placeholder among the shapes, and the placeholder. *)
Definition find_content_placeholder (shs : list Shape) : option (nat * (nat * Shape)) :=
  match strategy1 shs with
  | Some r => Some (1, r)
  | None =>
      match strategy2 shs with
      | Some r => Some (2, r)
      | None =>
          match strategy3 shs with
          | Some r => Some (3, r)
          | None => pair 4 <$> strategy4 shs
          end
      end
  end.

(** The [try] body of "Method 2": clear the placeholder's text frame and
    write the points, unprefixed. *)
Definition write_placeholder (env : Env) (pts : list string) (shape : Shape) : result Shape :=
  match text_frame shape with
  | None => Raise AttributeError
  | Some ps =>
      if text_frame_raises env shape then Raise LibraryError
      else match TextFrame.clear ps with
           | Ok ps0 => Ok (with_text_frame (write_points id 0 0 pts ps0) shape)
           | Raise e => Raise e
           end
  end.

(** The [try] body of "Method 3" once the title guard has let the shape
    through: a short text is cleared, a longer one is kept and the points
    follow it; the points are bullet-prefixed in both cases.  The boolean
    says whether the frame was cleared. *)
Definition write_alternative (env : Env) (pts : list string) (shape : Shape)
    (ps : list string) (current_text : string) : result (Shape * bool) :=
  if text_frame_raises env shape then Raise LibraryError
  else if PyStr.len current_text <? 10 then
    match TextFrame.clear ps with
    | Ok ps0 => Ok (with_text_frame (write_points bullet 0 0 pts ps0) shape, true)
    | Raise e => Raise e
    end
  else
    Ok (with_text_frame
          (write_points bullet (length ps) 0 pts (TextFrame.add_paragraph ps)) shape,
        false).

(** "Method 3": scan all shapes for a text frame whose stripped text
    differs from the stripped slide title; a shape that raises is skipped.
    The result is the new shapes, the position used and whether the frame
    was cleared. *)
Fixpoint alternative_text_frame (env : Env) (slide_title : string) (pts : list string)
    (shs : list Shape) : option (list Shape * nat * bool) :=
  match shs with
  | [] => None
  | shape :: rest =>
      let continue :=
        (fun '(rest', pos, cleared) => (shape :: rest', S pos, cleared))
          <$> alternative_text_frame env slide_title pts rest in
      match text_frame shape with
      | None => continue
      | Some ps =>
          let current_text := PyStr.strip (TextFrame.text ps) in
          if String.eqb current_text slide_title then continue
          else match write_alternative env pts shape ps current_text with
               | Ok (shape', cleared) => Some (shape' :: rest, 0, cleared)
               | Raise _ => continue
               end
      end
  end.

(** [Inches(n)] in EMU. *)
Definition Inches (n : Z) : Z := (n * 914400)%Z.

(** The shape [add_textbox(Inches(1), Inches(2), Inches(8), Inches(4))]
    creates on the slide: not a placeholder, the name the library gives
    it, one empty paragraph, the given box. *)
Definition new_textbox (env : Env) (slide : Slide) : Shape :=
  mkShape None (textbox_name env slide) (Some [EmptyString])
          (Some (Inches 1, Inches 2, Inches 8, Inches 4)).

(** The [try] body of "Method 4": the two imports, then a new text box,
    cleared, with the bullet-prefixed points.  The result is the shapes
    of the slide and whether the points were written: once the text box
    is created it stays on the slide, also when a write into it raises. *)
Definition add_textbox_with_points (env : Env) (pts : list string) (slide : Slide)
    : list Shape * bool :=
  if textbox_import_raises env then (shapes slide, false)
  else if add_textbox_raises env slide then (shapes slide, false)
  else
    let textbox := new_textbox env slide in
    if text_frame_raises env textbox then (shapes slide ++ [textbox], false)
    else match TextFrame.clear [EmptyString] with
         | Ok ps0 =>
             (shapes slide ++ [with_text_frame (write_points bullet 0 0 pts ps0) textbox],
              true)
         | Raise _ => (shapes slide ++ [textbox], false)
         end.

(** The block under [if points:] with [points] non-empty: the shapes after
    the write, [content_added], and the region that took the body. *)
Definition add_content (env : Env) (slide_data : SlideSpec) (slide : Slide)
    : list Shape * bool * BodyRegion :=
  let shs := shapes slide in
  let pts := points slide_data in
  let method2 :=
    match find_content_placeholder shs with
    | Some (strategy, (k, content_placeholder)) =>
        match write_placeholder env pts content_placeholder with
        | Ok shape' => Some (<[k := shape']> shs, ViaPlaceholder strategy k)
        | Raise _ => None
        end
    | None => None
    end in
  match method2 with
  | Some (shs', region) => (shs', true, region)
  | None =>
      match alternative_text_frame env (PyStr.strip (title_or_empty slide_data)) pts shs with
      | Some (shs', pos, cleared) =>
          (shs', true, if cleared then ViaClearedTextFrame pos else ViaAppendedTextFrame pos)
      | None =>
          match add_textbox_with_points env pts slide with
          | (shs', true) => (shs', true, ViaNewTextBox)
          | (shs', false) => (shs', false, NoRegion)
          end
      end
  end.

(** The line logged under "Log the result". *)
Inductive BodyLog := ContentAddedInfo | TitleOnlyWarning | NoPointsInfo.

Definition body_log (content_added : bool) (pts : list string) : BodyLog :=
  if content_added then ContentAddedInfo
  else match pts with
       | _ :: _ => TitleOnlyWarning
       | [] => NoPointsInfo
       end.

Record SlideReport := mkReport {
  title_set : bool;
  content_added : bool;
  body_region : BodyRegion;
  logged : BodyLog
}.

(** Speaker notes: written when the notes string is non-empty, a failure
    is swallowed. *)
Definition add_notes (env : Env) (slide_data : SlideSpec) (slide : Slide) : Slide :=
  match spec_notes slide_data with
  | EmptyString => slide
  | String _ _ =>
      if notes_slide_raises env slide then slide
      else mkSlide (slide_layout slide) (shapes slide) (Some (spec_notes slide_data))
  end.

(** Everything [_create_content_slide] does to the slide once it exists. *)
Definition fill_slide (env : Env) (slide_data : SlideSpec) (slide : Slide)
    : Slide * SlideReport :=
  let '(shs1, title_set) := set_title env slide_data (shapes slide) in
  let slide1 := mkSlide (slide_layout slide) shs1 (notes slide) in
  let '(shs2, content_added, region) :=
    match points slide_data with
    | _ :: _ => add_content env slide_data slide1
    | [] => (shs1, false, NoRegion)
    end in
  let slide2 := mkSlide (slide_layout slide) shs2 (notes slide) in
  (add_notes env slide_data slide2,
   mkReport title_set content_added region (body_log content_added (points slide_data))).

(** Between [add_slide] and [return slide] every library call is guarded,
    so the filled slide can be stored in one step. *)
Definition _create_content_slide (env : Env) (slide_data : SlideSpec) : M Slide :=
  content_layout <- _get_smart_layout slide_data ;;
  slide <- add_slide env content_layout ;;
  let slide' := fst (fill_slide env slide_data slide) in
  store_last_slide slide' ;;
  ret slide'.

(** ** Deck assembler *)

(** The last element satisfying [p], with its position: what a [for] loop
    that assigns without [break] ends with. *)
Fixpoint find_last {A} (p : A -> bool) (l : list A) : option (nat * A) :=
  match l with
  | [] => None
  | x :: l' =>
      match find_last p l' with
      | Some (k, y) => Some (S k, y)
      | None => if p x then Some (0, x) else None
      end
  end.

Definition lift {A} (r : result A) : M A :=
  match r with
  | Ok a => ret a
  | Raise e => raise e
  end.

(** [if shape: write the text], unguarded: a failure propagates. *)
Definition write_optional (env : Env) (t : string) (target : option (nat * Shape))
    (slide : Slide) : M Slide :=
  match target with
  | None => ret slide
  | Some (k, shape) =>
      shape' <- lift (write_text env t shape) ;;
      let slide' := mkSlide (slide_layout slide) (<[k := shape']> (shapes slide)) (notes slide) in
      store_last_slide slide' ;;
      ret slide'
  end.

(** [outline_data.get("title", "Generated Presentation")] *)
Definition outline_title_or_default (outline_data : Outline) : string :=
  default "Generated Presentation" (outline_title outline_data).

Definition create_title_slide (env : Env) (outline_data : Outline) : M Slide :=
  g <- get ;;
  title_layout <- index (slide_layouts (presentation g)) 0 ;;
  title_slide <- add_slide env title_layout ;;
  let shs := shapes title_slide in
  let title_shape := find_last is_title_placeholder shs in
  let subtitle_shape := find_last (ph_idx_is (fun i => i =? 1)) shs in
  let title_shape :=
    match title_shape with
    | Some s => Some s
    | None => find_first is_title_placeholder shs
    end in
  slide1 <- write_optional env (outline_title_or_default outline_data) title_shape title_slide ;;
  write_optional env (String.append "Generated on " (today env)) subtitle_shape slide1.

Fixpoint create_content_slides (env : Env) (specs : list SlideSpec) : M unit :=
  match specs with
  | [] => ret tt
  | slide_data :: rest =>
      _create_content_slide env slide_data ;; create_content_slides env rest
  end.

Definition set_presentation (p : Presentation) (g : PPTGenerator) : PPTGenerator :=
  mkGen p (content_layouts g) (current_layout_index g).

(** The [if]/[else] that opens the presentation.  [template] is [None]
    when no template path is given or the file does not exist, otherwise
    the outcome of [Presentation(template_path)]. *)
Definition open_presentation (env : Env) (template : option (result Presentation)) : M unit :=
  match template with
  | Some loaded =>
      p <- lift loaded ;;
      modify (set_presentation p) ;;
      _identify_content_layouts env ;;
      clear_existing_slides env
  | None => modify (set_presentation (mkPresentation (builtin_layouts env) []))
  end.

(** The [try] block of [create_presentation]. *)
Definition assemble (env : Env) (template : option (result Presentation))
    (outline_data : Outline) : M bool :=
  open_presentation env template ;;
  create_title_slide env outline_data ;;
  create_content_slides env (outline_slides outline_data) ;;
  ret true.

Definition create_presentation (env : Env) (template : option (result Presentation))
    (outline_data : Outline) : M bool :=
  try_except (assemble env template outline_data) (fun _ => ret false).

(** [PPTGenerator.__init__]: no presentation yet (modelled by an empty
    one, which no method reads), no content layouts, cursor 0. *)
Definition new_generator : PPTGenerator := mkGen (mkPresentation [] []) [] 0.

(** The name of a text box added to a slide whose shapes are numbered as
    [add_slide] numbers them, from 2 on: "TextBox" and the number of
    shapes plus one. *)
Definition numbered_textbox (slide : Slide) : string :=
  String.append "TextBox "
    (NilEmpty.string_of_uint (Nat.to_uint (length (shapes slide) + 1))).

(** A library in which nothing raises. *)
Definition quiet (builtin : list Layout) (date : string) : Env :=
  mkEnv (fun _ => false) (fun _ => false) (fun _ => false) false (fun _ => false)
        numbered_textbox (fun _ => false) builtin date.

(** ** Classification as the classifier's loop decides it *)

Inductive Classification := Title | Content | Unsuitable.

(** The class the loop body of [_identify_content_layouts] gives a layout,
    given what the structural probe answered. *)
Definition classify (probe : bool) (layout : Layout) : Classification :=
  let layout_name := PyStr.lower (layout_name layout) in
  if PyStr.any_in title_only_keywords layout_name then Title
  else if PyStr.any_in content_keywords layout_name then Content
  else if probe then Content
  else if negb (PyStr.any_in title_keywords layout_name) then Content
  else Unsuitable.

(** ** Vocabulary of the statements *)

(** Order of the sorted candidates: the priority never increases. *)
Definition no_smaller (c d : Candidate) : Prop := cand_priority d <= cand_priority c.

(** Whether the classifier's loop body reaches the structural probe for
    this layout: its name is neither title-only nor a content name. *)
Definition probed (layout : Layout) : bool :=
  let layout_name := PyStr.lower (layout_name layout) in
  negb (PyStr.any_in title_only_keywords layout_name)
  && negb (PyStr.any_in content_keywords layout_name).

(** The answer of the probe: [True] when instantiating the layout raises,
    otherwise what the temporary slide shows. *)
Definition probe_answer (env : Env) (layout : Layout) : bool :=
  if add_slide_raises env layout then true else probe_shapes (layout_shapes layout).

(** The temporary slide a probe leaves behind: none when the slide could
    not be created or was removed, the slide itself when its removal
    raised. *)
Definition leftover (env : Env) (layout : Layout) : list Slide :=
  if add_slide_raises env layout then []
  else if drop_rel_raises env (new_slide layout) then [new_slide layout]
  else [].

Definition residue (env : Env) (layout : Layout) : list Slide :=
  if probed layout then leftover env layout else [].

(** The entry the loop body appends for layout [i], if any. *)
Definition content_entry (env : Env) (i : nat) (layout : Layout) : list (nat * Layout) :=
  match classify (probe_answer env layout) layout with
  | Content => [(i, layout)]
  | _ => []
  end.

Fixpoint content_entries (env : Env) (i : nat) (layouts : list Layout) : list (nat * Layout) :=
  match layouts with
  | [] => []
  | layout :: rest => content_entry env i layout ++ content_entries env (S i) rest
  end.

(** The generator after one round of the classification loop. *)
Definition after_classify (env : Env) (i : nat) (layout : Layout) (g : PPTGenerator)
    : PPTGenerator :=
  mkGen (mkPresentation (slide_layouts (presentation g))
                        (slides (presentation g) ++ residue env layout))
        (content_layouts g ++ content_entry env i layout)
        (current_layout_index g).

(** The generator after [_identify_content_layouts]. *)
Definition identified (env : Env) (g : PPTGenerator) : PPTGenerator :=
  let layouts := slide_layouts (presentation g) in
  mkGen (mkPresentation layouts (slides (presentation g) ++ flat_map (residue env) layouts))
        (match content_entries env 0 layouts with
         | [] => default_layouts layouts
         | entry :: entries => entry :: entries
         end)
        (current_layout_index g).

(** The highest priority among the candidates. *)
Definition top_priority (cands : list Candidate) : nat :=
  list_max (map cand_priority cands).

(** Several candidates share the highest priority. *)
Definition tied_at_top (cands : list Candidate) : bool :=
  2 <=? length (List.filter (fun c => cand_priority c =? top_priority cands) cands).

(** The paragraphs the points leave in a text frame: each point,
    formatted, as a paragraph stores it. *)
Definition written (fmt : string -> string) (pts : list string) : list string :=
  map (fun point => TextFrame.stored (fmt point)) pts.

(** The paragraphs read back from the region that took the body. *)
Definition read_back (region : BodyRegion) (shs : list Shape) : option (list string) :=
  match region with
  | ViaPlaceholder _ k | ViaClearedTextFrame k | ViaAppendedTextFrame k =>
      shs !! k ≫= text_frame
  | ViaNewTextBox => list.last shs ≫= text_frame
  | NoRegion => None
  end.

(** How the title methods may change a shape: not at all, or, for a
    placeholder with [idx == 0], by replacing its text with [t]. *)
Definition retitled (t : string) (before after : Shape) : Prop :=
  after = before
  \/ (is_title_placeholder before = true
      /\ after = with_text_frame (TextFrame.set_text t) before).

(** The guarded and unguarded library calls the assembler depends on do
    not raise. *)
Definition no_raise (env : Env) : Prop :=
  (forall layout, add_slide_raises env layout = false)
  /\ (forall slide, drop_rel_raises env slide = false)
  /\ (forall shape, text_frame_raises env shape = false).

(** Every content layout is a layout of the presentation. *)
Definition layouts_known (g : PPTGenerator) : Prop :=
  Forall (fun entry => In (snd entry) (slide_layouts (presentation g))) (content_layouts g).

(** A content slide made for [slide_data] from one of [layouts]. *)
Definition made_from (env : Env) (layouts : list Layout) (slide_data : SlideSpec)
    (slide : Slide) : Prop :=
  exists layout,
    In layout layouts /\ slide = fst (fill_slide env slide_data (new_slide layout)).

(** The layout the spec names for the title slide: the first layout
    classified Title, layout 0 when there is none. *)
Definition is_title_class (layout : Layout) : bool :=
  match classify false layout with Title => true | _ => false end.

Definition first_title_layout_or_first (layouts : list Layout) : option Layout :=
  match List.find is_title_class layouts with
  | Some layout => Some layout
  | None => layouts !! 0
  end.

(** The layout catalog [create_presentation] works with. *)
Definition catalog (env : Env) (template : option (result Presentation)) : list Layout :=
  match template with
  | Some (Ok p) => slide_layouts p
  | Some (Raise _) => []
  | None => builtin_layouts env
  end.

(** ** Sample inputs *)

Module Sample.

(** A text placeholder with one empty paragraph. *)
Definition placeholder (i : nat) (name : string) : Shape :=
  mkShape (Some i) name (Some [EmptyString]) None.

Definition title_slide : Layout :=
  mkLayout "Title Slide" [placeholder 0 "Title 1"; placeholder 1 "Subtitle 2"].
Definition title_and_content : Layout :=
  mkLayout "Title and Content" [placeholder 0 "Title 1"; placeholder 1 "Content Placeholder 2"].
Definition comparison : Layout :=
  mkLayout "Comparison"
           [placeholder 0 "Title 1"; placeholder 1 "Text Placeholder 2";
            placeholder 2 "Content Placeholder 3"; placeholder 3 "Text Placeholder 4";
            placeholder 4 "Content Placeholder 5"].
Definition content_with_caption : Layout :=
  mkLayout "Content with Caption"
           [placeholder 0 "Title 1"; placeholder 1 "Content Placeholder 2";
            placeholder 2 "Text Placeholder 3"].
Definition two_content : Layout :=
  mkLayout "Two Content"
           [placeholder 0 "Title 1"; placeholder 1 "Content Placeholder 2";
            placeholder 2 "Content Placeholder 3"].
Definition two_content_wide : Layout :=
  mkLayout "Two Content Wide"
           [placeholder 0 "Title 1"; placeholder 1 "Content Placeholder 2";
            placeholder 2 "Content Placeholder 3"].
Definition blank : Layout := mkLayout "Blank" [].
Definition title_only : Layout := mkLayout "Title Only" [placeholder 0 "Title 1"].
(** A layout whose name says nothing: only the probe can classify it. *)
Definition custom : Layout :=
  mkLayout "Custom Layout" [placeholder 0 "Title 1"; placeholder 1 "Text Placeholder 2"].
(** A layout with a title placeholder only and a name without keyword:
    the classifier takes it as a content layout. *)
Definition quote : Layout := mkLayout "Quote" [placeholder 0 "Title 1"].
(** A title-like layout without body placeholder. *)
Definition title_banner : Layout := mkLayout "Title Banner" [placeholder 0 "Title 1"].

Definition section_header : Layout :=
  mkLayout "Section Header" [placeholder 0 "Title 1"; placeholder 1 "Text Placeholder 2"].
Definition picture_with_caption : Layout :=
  mkLayout "Picture with Caption"
           [placeholder 0 "Title 1"; placeholder 1 "Picture Placeholder 2";
            placeholder 2 "Text Placeholder 3"].
Definition title_and_vertical_text : Layout :=
  mkLayout "Title and Vertical Text"
           [placeholder 0 "Title 1"; placeholder 1 "Vertical Text Placeholder 2"].
Definition vertical_title_and_text : Layout :=
  mkLayout "Vertical Title and Text"
           [placeholder 0 "Vertical Title 1"; placeholder 1 "Vertical Text Placeholder 2"].

(** The eleven layouts of the library's built-in template. *)
Definition builtin : list Layout :=
  [title_slide; title_and_content; section_header; two_content; comparison; title_only;
   blank; content_with_caption; picture_with_caption; title_and_vertical_text;
   vertical_title_and_text].

(** Nothing raises: a library that has the module "Method 4" imports. *)
Definition calm : Env := quiet builtin "January 01, 2026".

(** python-pptx as published: its package [pptx.shapes] has the modules
    autoshape, base, connector, freeform, graphfrm, group, picture,
    placeholder and shapetree, and no module [textbox], so the import of
    "Method 4" raises; no other call raises. *)
Definition published : Env :=
  mkEnv (fun _ => false) (fun _ => false) (fun _ => false) true (fun _ => false)
        numbered_textbox (fun _ => false) builtin "January 01, 2026".

(** As published, and removing a slide raises. *)
Definition sticky : Env :=
  mkEnv (fun _ => false) (fun _ => true) (fun _ => false) true (fun _ => false)
        numbered_textbox (fun _ => false) builtin "January 01, 2026".

(** As published, and instantiating a layout raises. *)
Definition brittle : Env :=
  mkEnv (fun _ => true) (fun _ => false) (fun _ => false) true (fun _ => false)
        numbered_textbox (fun _ => false) builtin "January 01, 2026".

Definition generator_for (p : Presentation) : PPTGenerator := mkGen p [] 0.

End Sample.

(** ** The outline generator ([LLMOrchestrator]) *)

(** The client libraries of the three providers and [json.loads] are not
    part of the repository.  A chat call takes the API key, the model name
    and the prompt and gives the text of the provider's answer, [None]
    when the call raises or the answer has no text.  [json_loads] gives
    the parsed answer as [create_presentation] reads it (the title, the
    slides, and for each slide its title, points and notes), [None] when
    [json.loads] raises; an answer that parses to something else than an
    outline is outside the model. *)
Record Services := mkServices {
  openai_chat : string -> string -> string -> option string;
  anthropic_messages : string -> string -> string -> option string;
  groq_chat : string -> string -> string -> option string;
  json_loads : string -> option Outline
}.

Module LLM.

Record Orchestrator := mkOrchestrator {
  provider : string;
  api_key : string
}.

(** [LLMOrchestrator.__init__] *)
Definition init (provider api_key : string) : Orchestrator :=
  mkOrchestrator (PyStr.lower provider) api_key.

(** The double quote, and a text between double quotes. *)
Definition dq : string := String (ascii_of_nat 34) EmptyString.
Definition quoted (s : string) : string := String.concat "" [dq; s; dq].

Definition notes_instruction (include_notes : bool) : string :=
  if include_notes
  then PyStr.join_lines
         [""; "        Also generate speaker notes for each slide. Include detailed explanations, examples, and talking points.";
          "        "]
  else "".

Definition points_format (include_notes : bool) : string :=
  let points :=
    String.concat "" [quoted "points"; ": ["; quoted "Point 1"; ", "; quoted "Point 2"; "]"] in
  if include_notes
  then String.concat ""
         [points; ", "; quoted "notes"; ": "; quoted "Detailed speaker notes for this slide"]
  else points.

(** The f-string [prompt], line by line. *)
Definition prompt (text guidance : string) (include_notes : bool) : string :=
  PyStr.join_lines
    [""; "        Convert the following text into a PowerPoint presentation outline. ";
     "        ,heading should not have slide numbers etc,.";
     "        Create a JSON structure with slides containing titles and bullet points.";
     String.append "        " (notes_instruction include_notes);
     "        ";
     String.append "        Guidelines: "
       (match guidance with
        | EmptyString => "Create a professional presentation with clear structure "
        | String _ _ => guidance
        end);
     "        ";
     "        Text to convert:";
     String.append "        " text;
     "        ";
     "        Return ONLY a JSON object in this format:";
     "        {";
     String.concat "" ["            "; quoted "title"; ": "; quoted "Presentation Title"; ","];
     String.concat "" ["            "; quoted "slides"; ": ["];
     String.concat ""
       ["                {"; quoted "title"; ": "; quoted "Slide Title"; ", ";
        points_format include_notes; "},"];
     String.concat ""
       ["                {"; quoted "title"; ": "; quoted "Next Slide"; ", ";
        points_format include_notes; "}"];
     "            ]";
     "        }";
     "        "].

(** What the [try] block can raise: the [ValueError] of the last branch,
    a failure of the provider call (or an answer without text, whose
    [strip] fails), and a failure of [json.loads]. *)
Inductive llm_exn := ValueError (message : string) | CallError | JSONDecodeError.

Inductive attempt (A : Type) :=
| Got (a : A)
| Threw (e : llm_exn).
Arguments Got {A} a.
Arguments Threw {A} e.

Definition called (answer : option string) : attempt string :=
  match answer with
  | Some content => Got content
  | None => Threw CallError
  end.

(** The [if]/[elif] chain on [self.provider]. *)
Definition completion (svc : Services) (self : Orchestrator) (prompt : string)
    : attempt string :=
  if String.eqb (provider self) "openai"
  then called (openai_chat svc (api_key self) "gpt-3.5-turbo" prompt)
  else if String.eqb (provider self) "anthropic"
  then called (anthropic_messages svc (api_key self) "claude-3-sonnet-20240229" prompt)
  else if String.eqb (provider self) "groq"
  then called (groq_chat svc (api_key self) "llama-3.1-8b-instant" prompt)
  else Threw (ValueError (String.append "Unsupported provider: " (provider self))).

(** "Clean and parse JSON": the text handed to [json.loads]. *)
Definition clean_content (content : string) : string :=
  let content := PyStr.strip content in
  let content :=
    if PyStr.startswith "```json" content then PyStr.slice_from 7 content else content in
  if PyStr.endswith "```" content then PyStr.slice_to_minus 3 content else content.

(** The [try] block. *)
Definition requested_outline (svc : Services) (self : Orchestrator)
    (text guidance : string) (include_notes : bool) : attempt Outline :=
  match completion svc self (prompt text guidance include_notes) with
  | Got content =>
      match json_loads svc (clean_content content) with
      | Some outline => Got outline
      | None => Threw JSONDecodeError
      end
  | Threw e => Threw e
  end.

(** The fallback slides; with [include_notes] each gets its notes. *)
Definition fallback_slides (include_notes : bool) : list SlideSpec :=
  map (fun '(slide_title, slide_points) =>
         mkSlideSpec (Some slide_title) slide_points
           (if include_notes
            then String.concat ""
                   ["Speaker notes for "; slide_title;
                    ": Expand on the key points and provide examples."]
            else EmptyString))
      [("Introduction", ["Overview of the topic"; "Key objectives"]);
       ("Main Content", ["Key point 1"; "Key point 2"; "Key point 3"]);
       ("Conclusion", ["Summary"; "Next steps"])].

Definition fallback_outline (include_notes : bool) : Outline :=
  mkOutline (Some "Generated Presentation") (fallback_slides include_notes).

Definition generate_outline_with_notes (svc : Services) (self : Orchestrator)
    (text guidance : string) (include_notes : bool) : Outline :=
  match requested_outline svc self text guidance include_notes with
  | Got outline => outline
  | Threw _ => fallback_outline include_notes
  end.

End LLM.

(** ** The route [/generate] *)

Module Route.

(** A JSON value as [request.get_json()] returns it.  A dict is the list
    of its items, each key once.  A number is an integer: in every use
    [app.py] makes of a value, a float behaves as the integer 0 when it is
    zero and as a non-zero integer otherwise. *)
#[warnings="-register-all"]
Inductive Json :=
| JNull
| JBool (b : bool)
| JNumber (n : Z)
| JString (s : string)
| JList (items : list Json)
| JDict (items : list (string * Json)).

(** [bool(value)] *)
Definition truthy (value : Json) : bool :=
  match value with
  | JNull => false
  | JBool b => b
  | JNumber n => negb (n =? 0)%Z
  | JString s => negb (String.eqb s EmptyString)
  | JList items => match items with [] => false | _ :: _ => true end
  | JDict items => match items with [] => false | _ :: _ => true end
  end.

(** [d.get(key)] on a dict or a Flask multi-dict: the first value. *)
Definition lookup_key {A} (key : string) (items : list (string * A)) : option A :=
  snd <$> List.find (fun item => String.eqb (fst item) key) items.

(** An uploaded file: its name, and what [Presentation(path)] gives once
    the file is stored. *)
Record FileStorage := mkFileStorage {
  filename : string;
  opened : result Presentation
}.

(** What the route reads of the request.  [json] is [None] when
    [request.get_json()] raises. *)
Record Request := mkRequest {
  content_type : option string;
  form : list (string * string);
  files : list (string * FileStorage);
  json : option Json
}.

(** The host of the server: the services of the outline generator, which
    of the file operations raise ([tempfile.mkdtemp] and
    [template_file.save] for an upload; [tempfile.mkdtemp],
    [presentation.save] and [send_file] for the deck), and the clock as
    [strftime('%Y%m%d_%H%M%S')] prints it. *)
Record Host := mkHost {
  services : Services;
  store_upload_raises : FileStorage -> bool;
  send_deck_raises : Presentation -> bool;
  timestamp : string
}.

Inductive Response :=
| JsonError (status : nat) (error : string)
| Attachment (download_name : string) (deck : Presentation).

(** The local variables of the route once the request is read. *)
Record Inputs := mkInputs {
  text : string;
  provider : string;
  api_key : string;
  guidance : string;
  include_notes : bool;
  template : option (result Presentation)
}.

(** Where a block of the route ends: it goes on, it returns a response,
    or it raises. *)
Inductive step (A : Type) :=
| Continue (a : A)
| Return (response : Response)
| Raised.
Arguments Continue {A} a.
Arguments Return {A} response.
Arguments Raised {A}.

(** [request.form.get(key, default)] *)
Definition form_get (request : Request) (key default_value : string) : string :=
  default default_value (lookup_key key (form request)).

(** [data.get(key, '').strip()], which raises when the value is not a
    string. *)
Definition stripped_field (items : list (string * Json)) (key : string) : option string :=
  match lookup_key key items with
  | None => Some (PyStr.strip EmptyString)
  | Some (JString s) => Some (PyStr.strip s)
  | Some _ => None
  end.

(** The branch for form data with a possible upload. *)
Definition read_form (host : Host) (request : Request) : step Inputs :=
  let text := PyStr.strip (form_get request "text" "") in
  let provider := PyStr.lower (PyStr.strip (form_get request "provider" "")) in
  let api_key := PyStr.strip (form_get request "api_key" "") in
  let guidance := PyStr.strip (form_get request "guidance" "") in
  let include_notes :=
    String.eqb (PyStr.lower (form_get request "include_notes" "false")) "true" in
  let inputs := mkInputs text provider api_key guidance include_notes in
  match lookup_key "template" (files request) with
  | None => Continue (inputs None)
  | Some template_file =>
      match filename template_file with
      | EmptyString => Continue (inputs None)
      | String _ _ =>
          let name := PyStr.lower (filename template_file) in
          if negb (PyStr.endswith ".pptx" name || PyStr.endswith ".potx" name)
          then Return (JsonError 400 "Template must be a .pptx or .potx file")
          else if store_upload_raises host template_file then Raised
          else Continue (inputs (Some (opened template_file)))
      end
  end.

(** The branch for JSON data. *)
Definition read_json (request : Request) : step Inputs :=
  match json request with
  | None => Raised
  | Some data =>
      if negb (truthy data) then Return (JsonError 400 "No data provided")
      else
        match data with
        | JDict items =>
            match stripped_field items "text", stripped_field items "provider",
                  stripped_field items "api_key", stripped_field items "guidance" with
            | Some text, Some provider, Some api_key, Some guidance =>
                Continue (mkInputs text (PyStr.lower provider) api_key guidance
                            (truthy (default (JBool false)
                                             (lookup_key "include_notes" items)))
                            None)
            | _, _, _, _ => Raised
            end
        | _ => Raised
        end
  end.

Definition read_request (host : Host) (request : Request) : step Inputs :=
  match content_type request with
  | Some value =>
      if PyStr.contains "multipart/form-data" value then read_form host request
      else read_json request
  | None => read_json request
  end.

Definition providers : list string := ["openai"; "anthropic"; "groq"].

(** The block under "Validation". *)
Definition validate (inputs : Inputs) : step Inputs :=
  if String.eqb (text inputs) EmptyString
  then Return (JsonError 400 "Text content is required")
  else if String.eqb (provider inputs) EmptyString
          || negb (existsb (String.eqb (provider inputs)) providers)
  then Return (JsonError 400 "Valid provider (openai, anthropic, groq) is required")
  else if String.eqb (api_key inputs) EmptyString
  then Return (JsonError 400 "API key is required")
  else Continue inputs.

(** The outline, the deck and the response for validated inputs. *)
Definition respond (host : Host) (env : Env) (inputs : Inputs) : step Response :=
  let orchestrator := LLM.init (provider inputs) (api_key inputs) in
  let outline :=
    LLM.generate_outline_with_notes (services host) orchestrator
      (text inputs) (guidance inputs) (include_notes inputs) in
  match create_presentation env (template inputs) outline new_generator with
  | (Ok success, ppt_generator) =>
      if negb success then Return (JsonError 500 "Failed to create presentation")
      else if send_deck_raises host (presentation ppt_generator) then Raised
      else Continue (Attachment
                       (String.concat "" ["presentation_"; timestamp host; ".pptx"])
                       (presentation ppt_generator))
  | (Raise _, _) => Raised
  end.

Definition generate_presentation (host : Host) (env : Env) (request : Request) : Response :=
  let outcome :=
    match read_request host request with
    | Continue inputs =>
        match validate inputs with
        | Continue inputs => respond host env inputs
        | Return response => Return response
        | Raised => Raised
        end
    | Return response => Return response
    | Raised => Raised
    end in
  match outcome with
  | Continue response | Return response => response
  | Raised => JsonError 500 "Internal server error occurred"
  end.

(** *** The route [/test-template] *)

Record PlaceholderInfo := mkPlaceholderInfo {
  info_idx : nat;
  info_name : string;
  info_type : string
}.

Record LayoutInfo := mkLayoutInfo {
  info_index : nat;
  info_layout_name : string;
  info_placeholders : list PlaceholderInfo
}.

(** The responses of the route: a refusal with its message, the failure
    response, whose message is the text of the exception, and the report
    with its four fields. *)
Inductive Analysis :=
| Refused (status : nat) (error : string)
| Failed (e : exn)
| Report (template_name : string) (total_layouts existing_slides : nat)
         (layouts : list LayoutInfo).

(** [slide.placeholders]: the placeholders among the shapes, each with
    its [idx], sorted by [idx]; the library sorts with [sorted], which is
    stable, so that placeholders of equal [idx] stay in the order of the
    shapes. *)
Definition indexed_placeholder (shape : Shape) : option (nat * Shape) :=
  (fun i => (i, shape)) <$> ph_idx shape.

Fixpoint insert_by_idx (placeholder : nat * Shape) (l : list (nat * Shape))
    : list (nat * Shape) :=
  match l with
  | [] => [placeholder]
  | other :: l' =>
      if fst other <? fst placeholder then other :: insert_by_idx placeholder l'
      else placeholder :: other :: l'
  end.

Fixpoint sort_by_idx (l : list (nat * Shape)) : list (nat * Shape) :=
  match l with
  | [] => []
  | placeholder :: l' => insert_by_idx placeholder (sort_by_idx l')
  end.

Definition placeholders (shs : list Shape) : list (nat * Shape) :=
  sort_by_idx (omap indexed_placeholder shs).

(** The entry for one placeholder of the temporary slide;
    [placeholder_type] is what the library prints for its type. *)
Definition placeholder_info (placeholder_type : Shape -> string)
    (placeholder : nat * Shape) : PlaceholderInfo :=
  mkPlaceholderInfo (fst placeholder) (shape_name (snd placeholder))
                    (placeholder_type (snd placeholder)).

(** The body of the loop over the layouts: the removal of the temporary
    slide is not guarded here. *)
Definition analyse_layout (placeholder_type : Shape -> string) (env : Env)
    (i : nat) (layout : Layout) : M LayoutInfo :=
  temp_slide <- add_slide env layout ;;
  let placeholders_info :=
    map (placeholder_info placeholder_type) (placeholders (shapes temp_slide)) in
  drop_last_slide env ;;
  ret (mkLayoutInfo i (layout_name layout) placeholders_info).

Fixpoint analyse_from (placeholder_type : Shape -> string) (env : Env)
    (i : nat) (layouts : list Layout) : M (list LayoutInfo) :=
  match layouts with
  | [] => ret []
  | layout :: rest =>
      info <- analyse_layout placeholder_type env i layout ;;
      infos <- analyse_from placeholder_type env (S i) rest ;;
      ret (info :: infos)
  end.

(** The presentation of the route is carried in a generator record, whose
    other fields are not used. *)
Definition test_template (host : Host) (placeholder_type : Shape -> string) (env : Env)
    (request : Request) : Analysis :=
  match lookup_key "template" (files request) with
  | None => Refused 400 "No template file provided"
  | Some template_file =>
      match filename template_file with
      | EmptyString => Refused 400 "No file selected"
      | String _ _ =>
          if store_upload_raises host template_file then Failed LibraryError
          else
            match opened template_file with
            | Raise e => Failed e
            | Ok loaded =>
                match analyse_from placeholder_type env 0 (slide_layouts loaded)
                                   (mkGen loaded [] 0) with
                | (Ok layouts_info, g) =>
                    Report (filename template_file)
                           (length (slide_layouts (presentation g)))
                           (length (slides (presentation g)))
                           layouts_info
                | (Raise e, _) => Failed e
                end
            end
      end
  end.

End Route.

(** ** Further vocabulary *)

(** [n] calls of [_get_next_content_layout] in a row, with the layouts
    they return. *)
Fixpoint rotations (n : nat) : M (list Layout) :=
  match n with
  | 0 => ret []
  | S n' =>
      layout <- _get_next_content_layout ;;
      layouts <- rotations n' ;;
      ret (layout :: layouts)
  end.

(** What identifies a shape apart from its text: placeholder index, name
    and box. *)
Definition same_identity (before after : Shape) : Prop :=
  ph_idx after = ph_idx before
  /\ shape_name after = shape_name before
  /\ box after = box before.

(** The layout [_get_next_content_layout] falls back to when no content
    layout is catalogued: layout 1, or layout 0 when there is only one. *)
Definition standard_layout (layouts : list Layout) : option Layout :=
  if 1 <? length layouts then layouts !! 1 else layouts !! 0.

(** The entries name layouts of the catalog by their position, in
    increasing order of position. *)
Definition indexed_in (layouts : list Layout) (entries : list (nat * Layout)) : Prop :=
  Forall (fun entry => layouts !! fst entry = Some (snd entry)) entries
  /\ StronglySorted lt (map fst entries).

(** What [/test-template] reports for the layouts from position [i] on:
    position, name, and the placeholders the layout gives a slide, in the
    order of [slide.placeholders]. *)
Fixpoint reported_layouts (placeholder_type : Shape -> string) (i : nat)
    (layouts : list Layout) : list Route.LayoutInfo :=
  match layouts with
  | [] => []
  | layout :: rest =>
      Route.mkLayoutInfo i (layout_name layout)
        (map (Route.placeholder_info placeholder_type)
             (Route.placeholders (layout_shapes layout)))
      :: reported_layouts placeholder_type (S i) rest
  end.

(** A slide of the layout can be created and removed again. *)
Definition instantiable (env : Env) (layout : Layout) : bool :=
  negb (add_slide_raises env layout) && negb (drop_rel_raises env (new_slide layout)).

(** * Properties *)

(** ** Strings and text frames *)

Example lower_example : PyStr.lower "Title AND Content 2" = "title and content 2".
Proof. reflexivity. Qed.

Example contains_example :
  PyStr.contains "vs" "x vs y" = true /\ PyStr.contains "two content" "title and content" = false.
Proof. split; reflexivity. Qed.

Example strip_example : PyStr.strip "  Key point 1 " = "Key point 1".
Proof. reflexivity. Qed.

Lemma split_lines_not_nil s : PyStr.split_lines s <> [].
Proof.
  destruct s as [|c s]; cbn; [discriminate|].
  destruct (Ascii.eqb c PyStr.newline); [discriminate|].
  destruct (PyStr.split_lines s); discriminate.
Qed.

Lemma join_split_lines s : PyStr.join_lines (PyStr.split_lines s) = s.
Proof.
  induction s as [|c s IH]; [reflexivity|]. cbn [PyStr.split_lines].
  pose proof (split_lines_not_nil s) as Hne.
  destruct (Ascii.eqb_spec c PyStr.newline) as [->|Hc].
  - destruct (PyStr.split_lines s) as [|h t]; [congruence|].
    cbn [PyStr.join_lines String.append] in *. now rewrite IH.
  - destruct (PyStr.split_lines s) as [|h t]; [congruence|].
    destruct t as [|h' t]; cbn [PyStr.join_lines String.append] in *; now rewrite IH.
Qed.

Lemma newline_not_escaped : TextFrame.is_escaped PyStr.newline = false.
Proof. reflexivity. Qed.

Lemma vertical_tab_not_newline : Ascii.eqb PyStr.vertical_tab PyStr.newline = false.
Proof. reflexivity. Qed.

(** A paragraph reads back a text without line feed and escaped character
    as it was assigned; a vertical tab is read back as itself. *)
Lemma stored_one_line s : TextFrame.one_line s = true -> TextFrame.stored s = s.
Proof.
  induction s as [|c s IH]; [reflexivity|]. cbn [TextFrame.one_line TextFrame.stored].
  intros H. apply andb_prop in H as [H Hs]. apply andb_prop in H as [Hn He].
  apply negb_true_iff in Hn, He. rewrite Hn, He, (IH Hs). cbn [orb].
  destruct (Ascii.eqb_spec c PyStr.vertical_tab) as [->|_]; reflexivity.
Qed.

Lemma split_lines_one_line s :
  TextFrame.unescaped s = true ->
  Forall (fun line => TextFrame.one_line line = true) (PyStr.split_lines s).
Proof.
  induction s as [|c s IH]; [repeat constructor|].
  cbn [TextFrame.unescaped PyStr.split_lines]. intros H.
  apply andb_prop in H as [He Hs]. specialize (IH Hs).
  destruct (Ascii.eqb c PyStr.newline) eqn:Hn; [now constructor|].
  destruct (PyStr.split_lines s) as [|h t]; [repeat constructor; cbn; now rewrite Hn, He|].
  inversion IH as [|? ? Hh Ht]; subst. constructor; [|assumption].
  cbn [TextFrame.one_line]. now rewrite Hn, He, Hh.
Qed.

Lemma set_text_unescaped s :
  TextFrame.unescaped s = true -> TextFrame.set_text s = PyStr.split_lines s.
Proof.
  intros H. unfold TextFrame.set_text.
  pose proof (split_lines_one_line s H) as Hall.
  induction Hall as [|line lines Hline _ IH]; [reflexivity|].
  cbn [map]. now rewrite (stored_one_line line Hline), IH.
Qed.

(** Reading back a text that was just assigned gives the text, when the
    text has no escaped character. *)
Lemma text_set_text s :
  TextFrame.unescaped s = true -> TextFrame.text (TextFrame.set_text s) = s.
Proof.
  intros H. rewrite (set_text_unescaped s H). apply join_split_lines.
Qed.

(** ** Indexing *)

Lemma lookup_In {A} (l : list A) i x : l !! i = Some x -> In x l.
Proof. intros H. apply list_elem_of_In. eapply list_elem_of_lookup_2, H. Qed.

Lemma index_run {A} (l : list A) i g :
  index l i g = match l !! i with
                | Some x => (Ok x, g)
                | None => (Raise IndexError, g)
                end.
Proof. unfold index. now destruct (l !! i). Qed.

(** ** The sort of [_get_smart_layout] *)

Section SortDesc.

Implicit Types (c d : Candidate) (l : list Candidate).

Lemma insert_desc_perm c l : Permutation (insert_desc c l) (c :: l).
Proof.
  induction l as [|d l IH]; simpl; [reflexivity|].
  destruct (cand_priority c <? cand_priority d); [|reflexivity].
  rewrite IH. apply perm_swap.
Qed.

Lemma sort_desc_perm l : Permutation (sort_desc l) l.
Proof.
  induction l as [|c l IH]; simpl; [reflexivity|].
  rewrite insert_desc_perm. now constructor.
Qed.

Lemma insert_desc_sorted c l :
  Sorted no_smaller l -> Sorted no_smaller (insert_desc c l).
Proof.
  induction l as [|d l IH]; simpl; intros Hs.
  - repeat constructor.
  - destruct (Nat.ltb_spec (cand_priority c) (cand_priority d)) as [Hlt|Hge].
    + inversion Hs as [|? ? Hs' Hhd]; subst.
      constructor; [now apply IH|].
      destruct l as [|e l]; simpl.
      * constructor. unfold no_smaller. lia.
      * destruct (cand_priority c <? cand_priority e);
          constructor; inversion Hhd; subst; unfold no_smaller in *; lia.
    + constructor; [assumption|]. constructor. exact Hge.
Qed.

Lemma sort_desc_sorted l : Sorted no_smaller (sort_desc l).
Proof.
  induction l as [|c l IH]; simpl; [constructor|].
  now apply insert_desc_sorted.
Qed.

(** Stability: candidates of equal priority keep their catalog order. *)
Lemma insert_desc_filter k c l :
  List.filter (fun d => cand_priority d =? k) (insert_desc c l)
  = List.filter (fun d => cand_priority d =? k) (c :: l).
Proof.
  induction l as [|d l IH]; [reflexivity|].
  cbn [insert_desc].
  destruct (Nat.ltb_spec (cand_priority c) (cand_priority d)) as [Hlt|Hge];
    [|reflexivity].
  cbn [List.filter] in *. rewrite IH.
  destruct (Nat.eqb_spec (cand_priority c) k), (Nat.eqb_spec (cand_priority d) k);
    try reflexivity; lia.
Qed.

Lemma sort_desc_stable k l :
  List.filter (fun d => cand_priority d =? k) (sort_desc l)
  = List.filter (fun d => cand_priority d =? k) l.
Proof.
  induction l as [|c l IH]; [reflexivity|].
  cbn [sort_desc]. rewrite insert_desc_filter. cbn [List.filter]. now rewrite IH.
Qed.

Lemma insert_desc_head c l :
  Forall (fun d => cand_priority d <= cand_priority c) l ->
  insert_desc c l = c :: l.
Proof.
  destruct 1 as [|d l Hd _]; [reflexivity|]. simpl.
  destruct (Nat.ltb_spec (cand_priority c) (cand_priority d)); [lia|reflexivity].
Qed.

(** The head of the sorted list is the first candidate of maximal priority. *)
Lemma sort_desc_first_max pre c post :
  Forall (fun d => cand_priority d < cand_priority c) pre ->
  Forall (fun d => cand_priority d <= cand_priority c) post ->
  exists tl, sort_desc (pre ++ c :: post) = c :: tl.
Proof.
  intros Hpre Hpost. induction Hpre as [|d pre Hd _ IH]; simpl.
  - exists (sort_desc post). apply insert_desc_head.
    eapply Permutation_Forall; [|exact Hpost].
    symmetry. apply sort_desc_perm.
  - destruct IH as [tl ->]. simpl.
    destruct (Nat.ltb_spec (cand_priority d) (cand_priority c)); [|lia].
    eauto.
Qed.

(** Every non-empty list has a first candidate of maximal priority. *)
Lemma first_max_exists l :
  l <> [] ->
  exists pre c post,
    l = pre ++ c :: post
    /\ Forall (fun d => cand_priority d < cand_priority c) pre
    /\ Forall (fun d => cand_priority d <= cand_priority c) post.
Proof.
  induction l as [|d l IH]; [congruence|]. intros _.
  destruct l as [|e l].
  - exists [], d, []. repeat split; constructor.
  - destruct IH as (pre & c & post & Heq & Hpre & Hpost); [discriminate|].
    destruct (Nat.ltb_spec (cand_priority d) (cand_priority c)) as [Hlt|Hge].
    + exists (d :: pre), c, post. rewrite Heq. repeat split; [|assumption].
      now constructor.
    + exists [], d, (e :: l). repeat split; [constructor|].
      rewrite Heq. apply Forall_app. split.
      * eapply List.Forall_impl; [|exact Hpre]. simpl. intros; lia.
      * constructor; [exact Hge|].
        eapply List.Forall_impl; [|exact Hpost]. simpl. intros; lia.
Qed.

End SortDesc.

(** ** The classifier *)

Section Classifier.

Variable env : Env.

Lemma set_slides_same g : set_slides (slides (presentation g) ++ []) g = g.
Proof. destruct g as [[ls ss] cl ci]. unfold set_slides. simpl. now rewrite app_nil_r. Qed.

(** The probe always returns, with [probe_answer], and changes nothing but
    the slide sequence, to which it adds [leftover]. *)
Lemma has_content_placeholders_run layout g :
  _has_content_placeholders env layout g
  = (Ok (probe_answer env layout),
     set_slides (slides (presentation g) ++ leftover env layout) g).
Proof.
  unfold _has_content_placeholders, try_except, bind, add_slide, probe_answer, leftover.
  destruct (add_slide_raises env layout); simpl.
  - now rewrite set_slides_same.
  - unfold drop_last_slide, bind, get, modify, ret. simpl.
    rewrite last_snoc.
    destruct (drop_rel_raises env (new_slide layout)); simpl; [reflexivity|].
    rewrite removelast_last.
    destruct g as [[ls ss] cl ci]. unfold set_slides. simpl. now rewrite app_nil_r.
Qed.

Lemma classify_layout_run i layout g :
  classify_layout env i layout g = (Ok tt, after_classify env i layout g).
Proof.
  unfold classify_layout, after_classify, residue, content_entry, classify, probed.
  generalize (PyStr.any_in title_only_keywords (PyStr.lower (layout_name layout)))
             (PyStr.any_in content_keywords (PyStr.lower (layout_name layout)))
             (PyStr.any_in title_keywords (PyStr.lower (layout_name layout))).
  intros title_only by_name title_like.
  destruct title_only; cbn [negb andb].
  { destruct g as [[ls ss] cl ci]. unfold ret. cbn. now rewrite !app_nil_r. }
  destruct by_name; cbn [negb andb].
  { destruct g as [[ls ss] cl ci].
    unfold bind, ret, append_content_layout, modify, set_content_layouts. cbn.
    now rewrite app_nil_r. }
  unfold bind at 1. unfold bind at 1.
  rewrite has_content_placeholders_run.
  destruct (probe_answer env layout).
  { reflexivity. }
  destruct title_like; cbn [negb]; [|reflexivity].
  unfold ret. cbn. now rewrite app_nil_r.
Qed.

Lemma classify_from_run layouts : forall i g,
  classify_from env i layouts g
  = (Ok tt,
     mkGen (mkPresentation (slide_layouts (presentation g))
                           (slides (presentation g) ++ flat_map (residue env) layouts))
           (content_layouts g ++ content_entries env i layouts)
           (current_layout_index g)).
Proof.
  induction layouts as [|layout rest IH]; intros i g.
  - destruct g as [[ls ss] cl ci]. simpl. unfold ret. now rewrite !app_nil_r.
  - cbn [classify_from]. unfold bind. rewrite classify_layout_run, IH.
    unfold after_classify. simpl. now rewrite <- !app_assoc.
Qed.

End Classifier.

Lemma identify_content_layouts_run env g :
  _identify_content_layouts env g = (Ok tt, identified env g).
Proof.
  unfold _identify_content_layouts, identified.
  unfold bind at 1. unfold modify at 1.
  unfold bind at 1. unfold get at 1.
  unfold bind at 1. rewrite classify_from_run.
  unfold bind, get. cbn.
  destruct (content_entries env 0 (slide_layouts (presentation g))); reflexivity.
Qed.

Lemma content_entries_nil env layouts : forall i,
  Forall (fun layout => classify (probe_answer env layout) layout <> Content) layouts ->
  content_entries env i layouts = [].
Proof.
  induction layouts as [|layout rest IH]; intros i Hall; [reflexivity|].
  inversion Hall as [|? ? Hl Hrest]; subst. cbn [content_entries].
  rewrite IH by assumption. unfold content_entry.
  destruct (classify (probe_answer env layout) layout); try reflexivity.
  now elim Hl.
Qed.

Lemma default_layouts_two (l0 l1 : Layout) : default_layouts [l0; l1] = [(1, l1)].
Proof. reflexivity. Qed.

Lemma default_layouts_three (l0 l1 l2 : Layout) rest :
  default_layouts (l0 :: l1 :: l2 :: rest) = [(1, l1); (2, l2)].
Proof.
  unfold default_layouts.
  replace (Nat.min (length (l0 :: l1 :: l2 :: rest)) 3) with 3 by (simpl; lia).
  reflexivity.
Qed.

(** C8.  The library removes a slide it has just added without raising.
    Under that condition, whatever else the library does (a probe whose
    [add_slide] raises creates no slide), classification returns, the
    slide sequence after it is the slide sequence before it, the layout
    catalog is unchanged, and the same holds for every single probe. *)
Theorem probe_leaves_no_slide env g :
  (forall layout, In layout (slide_layouts (presentation g)) ->
                  drop_rel_raises env (new_slide layout) = false) ->
  fst (_identify_content_layouts env g) = Ok tt
  /\ slides (presentation (snd (_identify_content_layouts env g)))
     = slides (presentation g)
  /\ slide_layouts (presentation (snd (_identify_content_layouts env g)))
     = slide_layouts (presentation g)
  /\ forall layout,
       In layout (slide_layouts (presentation g)) ->
       slides (presentation (snd (_has_content_placeholders env layout g)))
       = slides (presentation g).
Proof.
  intros Hdrop. rewrite identify_content_layouts_run. cbn.
  repeat split.
  - assert (Hnil : forall ls, (forall l, In l ls -> In l (slide_layouts (presentation g))) ->
                              flat_map (residue env) ls = []).
    { induction ls as [|l ls IH]; intros Hin; [reflexivity|]. cbn [flat_map].
      rewrite IH by (intros; apply Hin; now right).
      unfold residue, leftover. rewrite (Hdrop l) by (apply Hin; now left).
      now destruct (probed l), (add_slide_raises env l). }
    rewrite Hnil by auto. apply app_nil_r.
  - intros layout Hin. rewrite has_content_placeholders_run. cbn.
    unfold leftover. rewrite (Hdrop layout Hin).
    destruct (add_slide_raises env layout); apply app_nil_r.
Qed.

(** C10.  When instantiating the layout for the probe raises, the probe
    returns [True] and leaves the generator as it was; the layout is then
    never Unsuitable, and a layout that reaches the probe is appended to
    the content layouts. *)
Theorem probe_failure_counts_as_content env layout i g :
  add_slide_raises env layout = true ->
  _has_content_placeholders env layout g = (Ok true, g)
  /\ classify (probe_answer env layout) layout <> Unsuitable
  /\ (probed layout = true ->
      classify_layout env i layout g
      = (Ok tt, set_content_layouts (content_layouts g ++ [(i, layout)]) g)).
Proof.
  intros Hraise.
  assert (Hans : probe_answer env layout = true) by (unfold probe_answer; now rewrite Hraise).
  split; [|split].
  - rewrite has_content_placeholders_run, Hans. unfold leftover. rewrite Hraise.
    now rewrite set_slides_same.
  - rewrite Hans. unfold classify.
    destruct (PyStr.any_in title_only_keywords _); [discriminate|].
    destruct (PyStr.any_in content_keywords _); discriminate.
  - intros Hprobed. rewrite classify_layout_run.
    unfold after_classify, residue, leftover, content_entry, classify.
    rewrite Hprobed, Hraise, Hans.
    unfold probed in Hprobed.
    destruct (PyStr.any_in title_only_keywords _); [discriminate|].
    destruct (PyStr.any_in content_keywords _); [discriminate|].
    destruct g as [[ls ss] cl ci]. unfold set_content_layouts. cbn.
    now rewrite app_nil_r.
Qed.

Lemma probe_leaves_no_slide_witness :
  (forall layout,
     In layout [Sample.custom; Sample.title_banner] ->
     drop_rel_raises Sample.published (new_slide layout) = false)
  /\ slides (presentation
               (snd (_identify_content_layouts Sample.published
                       (Sample.generator_for
                          (mkPresentation [Sample.custom; Sample.title_banner]
                                          [new_slide Sample.blank])))))
     = [new_slide Sample.blank].
Proof.
  split; [reflexivity|].
  destruct (probe_leaves_no_slide Sample.published
              (Sample.generator_for
                 (mkPresentation [Sample.custom; Sample.title_banner]
                                 [new_slide Sample.blank])))
    as (_ & Hslides & _); [reflexivity|exact Hslides].
Defined.

Lemma probe_failure_counts_as_content_witness :
  add_slide_raises Sample.brittle Sample.title_banner = true
  /\ _has_content_placeholders Sample.brittle Sample.title_banner
       (Sample.generator_for (mkPresentation [Sample.title_banner] []))
     = (Ok true, Sample.generator_for (mkPresentation [Sample.title_banner] [])).
Proof.
  split; [reflexivity|].
  destruct (probe_failure_counts_as_content Sample.brittle Sample.title_banner 0
              (Sample.generator_for (mkPresentation [Sample.title_banner] [])))
    as (Hprobe & _); [reflexivity|exact Hprobe].
Defined.

(** Without the failure the same layout is Unsuitable: the failure is what
    puts it among the content layouts. *)
Example title_banner_unsuitable_when_probed :
  classify (probe_answer Sample.published Sample.title_banner) Sample.title_banner = Unsuitable
  /\ classify (probe_answer Sample.brittle Sample.title_banner) Sample.title_banner = Content.
Proof. split; reflexivity. Qed.

(** C7.  With the layouts "Title Slide", "Title and Content" and
    "Comparison" (whatever their placeholders, the slides already there
    and the library's failures), the content layouts are the last two,
    "Title Slide" is not among them, the slide "X vs Y" with two points
    gives "Comparison" priority 4 and "Title and Content" priority 1, and
    the selector returns "Comparison". *)
Theorem comparison_beats_title_and_content :
  forall env shapes1 shapes2 shapes3 existing a b notes,
    let l1 := mkLayout "Title Slide" shapes1 in
    let l2 := mkLayout "Title and Content" shapes2 in
    let l3 := mkLayout "Comparison" shapes3 in
    let slide_data := mkSlideSpec (Some "X vs Y") [a; b] notes in
    let g := snd (_identify_content_layouts env
                    (mkGen (mkPresentation [l1; l2; l3] existing) [] 0)) in
    content_layouts g = [(1, l2); (2, l3)]
    /\ classify (probe_answer env l1) l1 = Title
    /\ suitable_layouts slide_data (content_layouts g) = [(1, l2, 1); (2, l3, 4)]
    /\ _get_smart_layout slide_data g = (Ok l3, g).
Proof.
  intros. subst g. rewrite identify_content_layouts_run.
  repeat split.
Qed.

(** ** The selector *)

Lemma top_priority_first_max pre best post :
  Forall (fun c => cand_priority c < cand_priority best) pre ->
  Forall (fun c => cand_priority c <= cand_priority best) post ->
  top_priority (pre ++ best :: post) = cand_priority best.
Proof.
  intros Hpre Hpost. unfold top_priority.
  rewrite map_app, list_max_app. cbn [map list_max fold_right].
  assert (H1 : list_max (map cand_priority pre) <= cand_priority best).
  { apply list_max_le. apply List.Forall_map.
    eapply List.Forall_impl; [|exact Hpre]. cbn. intros; lia. }
  assert (H2 : list_max (map cand_priority post) <= cand_priority best).
  { apply list_max_le. apply List.Forall_map. exact Hpost. }
  unfold list_max in *. lia.
Qed.

(** With a non-empty catalog the selector returns the first layout, in
    catalog order, among those of highest priority, and leaves the
    generator as it is: the rotation is never reached. *)
Lemma smart_layout_run slide_data g :
  content_layouts g <> [] ->
  exists pre best post,
    suitable_layouts slide_data (content_layouts g) = pre ++ best :: post
    /\ Forall (fun c => cand_priority c < cand_priority best) pre
    /\ Forall (fun c => cand_priority c <= cand_priority best) post
    /\ _get_smart_layout slide_data g = (Ok (cand_layout best), g).
Proof.
  intros Hne.
  destruct (first_max_exists (suitable_layouts slide_data (content_layouts g)))
    as (pre & best & post & Heq & Hpre & Hpost).
  { unfold suitable_layouts. destruct (content_layouts g); [congruence|discriminate]. }
  exists pre, best, post. repeat split; try assumption.
  destruct (sort_desc_first_max pre best post Hpre Hpost) as [tl Hsort].
  unfold _get_smart_layout. unfold bind at 1. unfold get.
  destruct (content_layouts g) as [|entry entries] eqn:Hcl; [congruence|].
  revert Hsort. rewrite Heq. generalize (pre ++ best :: post).
  intros [|c cs] Hsort; [discriminate|].
  unfold bind. now rewrite index_run, Hsort.
Qed.

(** C2 (as the code has it).  When a content rule fired, so that the
    highest priority is above the default 1, and several layouts share
    it, the selector returns the first of them in catalog order and
    leaves the generator unchanged: the rotation cursor is not advanced. *)
Theorem strong_tie_returns_first_of_the_best slide_data g :
  content_layouts g <> [] ->
  tied_at_top (suitable_layouts slide_data (content_layouts g)) = true ->
  1 < top_priority (suitable_layouts slide_data (content_layouts g)) ->
  exists pre best post,
    suitable_layouts slide_data (content_layouts g) = pre ++ best :: post
    /\ cand_priority best = top_priority (suitable_layouts slide_data (content_layouts g))
    /\ Forall (fun c => cand_priority c < cand_priority best) pre
    /\ Forall (fun c => cand_priority c <= cand_priority best) post
    /\ _get_smart_layout slide_data g = (Ok (cand_layout best), g).
Proof.
  intros Hne _ _.
  destruct (smart_layout_run slide_data g Hne) as (pre & best & post & Heq & Hpre & Hpost & Hrun).
  exists pre, best, post. repeat split; try assumption.
  rewrite Heq. symmetry. now apply top_priority_first_max.
Qed.

Lemma strong_tie_returns_first_of_the_best_witness :
  let g := mkGen (mkPresentation
                    [Sample.title_slide; Sample.title_and_content; Sample.two_content;
                     Sample.two_content_wide] [])
                 [(1, Sample.title_and_content); (2, Sample.two_content);
                  (3, Sample.two_content_wide)] 0 in
  let slide_data := mkSlideSpec (Some "Pros and cons") ["pro"; "con"] "" in
  content_layouts g <> []
  /\ tied_at_top (suitable_layouts slide_data (content_layouts g)) = true
  /\ 1 < top_priority (suitable_layouts slide_data (content_layouts g))
  /\ exists pre best post,
       suitable_layouts slide_data (content_layouts g) = pre ++ best :: post
       /\ cand_priority best = top_priority (suitable_layouts slide_data (content_layouts g))
       /\ Forall (fun c => cand_priority c < cand_priority best) pre
       /\ Forall (fun c => cand_priority c <= cand_priority best) post
       /\ _get_smart_layout slide_data g = (Ok (cand_layout best), g).
Proof.
  cbv zeta. split; [discriminate|]. split; [reflexivity|].
  split; [vm_compute; lia|].
  apply (strong_tie_returns_first_of_the_best
           (mkSlideSpec (Some "Pros and cons") ["pro"; "con"] "")
           (mkGen (mkPresentation
                     [Sample.title_slide; Sample.title_and_content; Sample.two_content;
                      Sample.two_content_wide] [])
                  [(1, Sample.title_and_content); (2, Sample.two_content);
                   (3, Sample.two_content_wide)] 0)).
  - discriminate.
  - reflexivity.
  - vm_compute; lia.
Defined.

(** C2 as stated fails.  After classification of the layouts "Title
    Slide", "Title and Content", "Two Content", "Two Content Wide", a
    slide with two points gives the two "Two Content" layouts priority 3
    and "Title and Content" priority 1.  The selector returns "Two
    Content", the first of the tied layouts, and leaves the cursor at 0;
    the rotation returns the layout at the cursor, "Title and Content",
    and moves the cursor to 1. *)
Lemma tie_does_not_rotate :
  let g := snd (_identify_content_layouts Sample.published
                  (Sample.generator_for
                     (mkPresentation
                        [Sample.title_slide; Sample.title_and_content;
                         Sample.two_content; Sample.two_content_wide] []))) in
  let slide_data := mkSlideSpec (Some "Pros and cons") ["pro"; "con"] "" in
  suitable_layouts slide_data (content_layouts g)
  = [(1, Sample.title_and_content, 1); (2, Sample.two_content, 3);
     (3, Sample.two_content_wide, 3)]
  /\ tied_at_top (suitable_layouts slide_data (content_layouts g)) = true
  /\ _get_smart_layout slide_data g = (Ok Sample.two_content, g)
  /\ _get_next_content_layout g
     = (Ok Sample.title_and_content, set_current_layout_index 1 g)
  /\ _get_smart_layout slide_data g <> _get_next_content_layout g.
Proof. vm_compute. repeat split; discriminate. Qed.

(** The same without any rule firing: all priorities are 1, the first
    content layout is returned for every slide, and the cursor stays 0. *)
Example default_tie_returns_first :
  let g := snd (_identify_content_layouts Sample.published
                  (Sample.generator_for
                     (mkPresentation
                        [Sample.title_slide; Sample.title_and_content;
                         Sample.content_with_caption] []))) in
  let slide_data := mkSlideSpec (Some "Overview") ["a"; "b"; "c"] "" in
  suitable_layouts slide_data (content_layouts g)
  = [(1, Sample.title_and_content, 1); (2, Sample.content_with_caption, 1)]
  /\ _get_smart_layout slide_data g = (Ok Sample.title_and_content, g)
  /\ _get_smart_layout slide_data (snd (_get_smart_layout slide_data g))
     = (Ok Sample.title_and_content, g).
Proof. vm_compute. repeat split. Qed.

(** ** The content writer *)

Section Writer.

Variable fmt : string -> string.

Lemma write_points_later pts : forall ps start i,
  write_points fmt start (S i) pts ps = ps ++ written fmt pts.
Proof.
  unfold written.
  induction pts as [|point rest IH]; intros ps start i; cbn [write_points map].
  - now rewrite app_nil_r.
  - cbn [Nat.eqb]. rewrite IH.
    unfold set_paragraph_text, TextFrame.add_paragraph.
    rewrite insert_app_r_alt by lia. rewrite Nat.sub_diag. cbn.
    now rewrite <- app_assoc.
Qed.

Lemma write_points_first point rest ps start :
  write_points fmt start 0 (point :: rest) ps
  = <[start := TextFrame.stored (fmt point)]> ps ++ written fmt rest.
Proof. cbn [write_points Nat.eqb]. apply write_points_later. Qed.

(** Into a cleared frame: exactly the formatted points, as stored. *)
Lemma write_points_cleared pts :
  pts <> [] -> write_points fmt 0 0 pts [EmptyString] = written fmt pts.
Proof.
  destruct pts as [|point rest]; [congruence|]. intros _.
  now rewrite write_points_first.
Qed.

(** After an added paragraph: the old paragraphs, then the formatted
    points, as stored. *)
Lemma write_points_appended pts ps :
  pts <> [] ->
  write_points fmt (length ps) 0 pts (TextFrame.add_paragraph ps) = ps ++ written fmt pts.
Proof.
  destruct pts as [|point rest]; [congruence|]. intros _.
  rewrite write_points_first. unfold TextFrame.add_paragraph.
  rewrite insert_app_r_alt by lia. rewrite Nat.sub_diag. cbn.
  now rewrite <- app_assoc.
Qed.

End Writer.

Lemma find_first_Some {A} (p : A -> bool) l k x :
  find_first p l = Some (k, x) -> l !! k = Some x /\ p x = true.
Proof.
  revert k. induction l as [|y l IH]; intros k; cbn [find_first]; [discriminate|].
  destruct (p y) eqn:Hp.
  - intros [= <- <-]. now split.
  - destruct (find_first p l) as [[k' x']|]; cbn; [|discriminate].
    intros [= <- <-]. now apply IH.
Qed.

Lemma clear_Ok ps ps0 : TextFrame.clear ps = Ok ps0 -> ps0 = [EmptyString] /\ ps <> [].
Proof. destruct ps; cbn; [discriminate|]. intros [= <-]. now split. Qed.

Section Resolver.

Variable env : Env.

Lemma write_placeholder_Ok pts shape shape' :
  pts <> [] ->
  write_placeholder env pts shape = Ok shape' ->
  has_text_frame shape = true /\ shape' = with_text_frame (written id pts) shape.
Proof.
  intros Hpts. unfold write_placeholder, has_text_frame.
  destruct (text_frame shape) as [ps|]; [|discriminate].
  destruct (text_frame_raises env shape); [discriminate|].
  destruct (TextFrame.clear ps) as [ps0|] eqn:Hclear; [|discriminate].
  apply clear_Ok in Hclear as [-> _]. intros [= <-].
  now rewrite write_points_cleared by assumption.
Qed.

Lemma write_alternative_Ok pts shape ps current_text shape' cleared :
  pts <> [] ->
  write_alternative env pts shape ps current_text = Ok (shape', cleared) ->
  if cleared
  then PyStr.len current_text < 10
       /\ shape' = with_text_frame (written bullet pts) shape
  else 10 <= PyStr.len current_text
       /\ shape' = with_text_frame (ps ++ written bullet pts) shape.
Proof.
  intros Hpts. unfold write_alternative.
  destruct (text_frame_raises env shape); [discriminate|].
  destruct (Nat.ltb_spec (PyStr.len current_text) 10) as [Hlt|Hge].
  - destruct (TextFrame.clear ps) as [ps0|] eqn:Hclear; [|discriminate].
    apply clear_Ok in Hclear as [-> _]. intros [= <- <-].
    now rewrite write_points_cleared.
  - intros [= <- <-]. now rewrite write_points_appended.
Qed.

(** What "Method 3" did when it found a frame. *)
Lemma alternative_text_frame_Some slide_title pts shs : forall shs' pos cleared,
  pts <> [] ->
  alternative_text_frame env slide_title pts shs = Some (shs', pos, cleared) ->
  exists shape ps,
    shs !! pos = Some shape
    /\ text_frame shape = Some ps
    /\ PyStr.strip (TextFrame.text ps) <> slide_title
    /\ (if cleared
        then PyStr.len (PyStr.strip (TextFrame.text ps)) < 10
             /\ shs' = <[pos := with_text_frame (written bullet pts) shape]> shs
        else 10 <= PyStr.len (PyStr.strip (TextFrame.text ps))
             /\ shs' = <[pos := with_text_frame (ps ++ written bullet pts) shape]> shs).
Proof.
  induction shs as [|shape rest IH]; intros shs' pos cleared Hpts;
    cbn [alternative_text_frame]; [discriminate|].
  set (continue := _ <$> alternative_text_frame env slide_title pts rest).
  assert (Hcontinue : continue = Some (shs', pos, cleared) ->
    exists shape0 ps,
      (shape :: rest) !! pos = Some shape0
      /\ text_frame shape0 = Some ps
      /\ PyStr.strip (TextFrame.text ps) <> slide_title
      /\ (if cleared
          then PyStr.len (PyStr.strip (TextFrame.text ps)) < 10
               /\ shs' = <[pos := with_text_frame (written bullet pts) shape0]> (shape :: rest)
          else 10 <= PyStr.len (PyStr.strip (TextFrame.text ps))
               /\ shs' = <[pos := with_text_frame (ps ++ written bullet pts) shape0]>
                           (shape :: rest))).
  { subst continue.
    destruct (alternative_text_frame env slide_title pts rest) as [[[rest' pos'] cleared']|];
      cbn; [|discriminate].
    intros [= <- <- <-].
    destruct (IH rest' pos' cleared' Hpts eq_refl) as (shape0 & ps & Hl & Htf & Hne & Hw).
    exists shape0, ps. repeat split; try assumption.
    destruct cleared'; destruct Hw as [Hlen ->]; now split. }
  destruct (text_frame shape) as [ps|] eqn:Htf; [|exact Hcontinue].
  destruct (String.eqb_spec (PyStr.strip (TextFrame.text ps)) slide_title) as [Heq|Hne];
    [exact Hcontinue|].
  destruct (write_alternative env pts shape ps (PyStr.strip (TextFrame.text ps)))
    as [[shape' cleared']|] eqn:Hw; [|exact Hcontinue].
  intros [= <- <- <-].
  apply write_alternative_Ok in Hw; [|assumption].
  exists shape, ps. repeat split; try assumption.
  destruct cleared'; destruct Hw as [Hlen ->]; now split.
Qed.

End Resolver.

Lemma find_content_placeholder_Some shs strategy k shape :
  find_content_placeholder shs = Some (strategy, (k, shape)) ->
  1 <= strategy <= 4
  /\ shs !! k = Some shape
  /\ idx_positive shape = true
  /\ has_text_frame shape = true.
Proof.
  unfold find_content_placeholder.
  destruct (strategy1 shs) as [[k1 s1]|] eqn:H1.
  { intros [= <- <- <-]. apply find_first_Some in H1 as [Hl Hp].
    apply andb_prop in Hp as [Hidx Htf]. repeat split; try assumption; try lia.
    unfold idx_positive, ph_idx_is in *. destruct (ph_idx s1) as [i|]; [|discriminate].
    apply Nat.eqb_eq in Hidx as ->. reflexivity. }
  destruct (strategy2 shs) as [[k2 s2]|] eqn:H2.
  { intros [= <- <- <-]. apply find_first_Some in H2 as [Hl Hp].
    apply andb_prop in Hp as [Hp _]. apply andb_prop in Hp as [Hidx Htf].
    repeat split; try assumption; lia. }
  destruct (strategy3 shs) as [[k3 s3]|] eqn:H3.
  { intros [= <- <- <-]. apply find_first_Some in H3 as [Hl Hp].
    apply andb_prop in Hp as [Hp _]. apply andb_prop in Hp as [Hidx Htf].
    repeat split; try assumption; lia. }
  destruct (strategy4 shs) as [[k4 s4]|] eqn:H4; cbn; [|discriminate].
  intros [= <- <- <-]. apply find_first_Some in H4 as [Hl Hp].
  apply andb_prop in Hp as [Hidx Htf]. repeat split; try assumption; lia.
Qed.

(** What the chain under [if points:] did, region by region. *)
Lemma add_content_regions env slide_data slide shs' added region :
  points slide_data <> [] ->
  add_content env slide_data slide = (shs', added, region) ->
  match region with
  | ViaPlaceholder strategy k =>
      added = true /\ 1 <= strategy <= 4
      /\ exists shape,
           shapes slide !! k = Some shape
           /\ idx_positive shape = true
           /\ shs' = <[k := with_text_frame (written id (points slide_data)) shape]> (shapes slide)
  | ViaClearedTextFrame k =>
      added = true
      /\ exists shape ps,
           shapes slide !! k = Some shape /\ text_frame shape = Some ps
           /\ PyStr.len (PyStr.strip (TextFrame.text ps)) < 10
           /\ shs' = <[k := with_text_frame (written bullet (points slide_data)) shape]>
                       (shapes slide)
  | ViaAppendedTextFrame k =>
      added = true
      /\ exists shape ps,
           shapes slide !! k = Some shape /\ text_frame shape = Some ps
           /\ 10 <= PyStr.len (PyStr.strip (TextFrame.text ps))
           /\ shs' = <[k := with_text_frame (ps ++ written bullet (points slide_data)) shape]>
                       (shapes slide)
  | ViaNewTextBox =>
      added = true
      /\ textbox_import_raises env = false
      /\ add_textbox_raises env slide = false
      /\ text_frame_raises env (new_textbox env slide) = false
      /\ shs' = shapes slide
                ++ [with_text_frame (written bullet (points slide_data))
                                    (new_textbox env slide)]
  | NoRegion =>
      added = false
      /\ ((shs' = shapes slide
           /\ (textbox_import_raises env = true \/ add_textbox_raises env slide = true))
          \/ (shs' = shapes slide ++ [new_textbox env slide]
              /\ textbox_import_raises env = false
              /\ add_textbox_raises env slide = false
              /\ text_frame_raises env (new_textbox env slide) = true))
  end.
Proof.
  intros Hpts. unfold add_content.
  set (method2 := match find_content_placeholder (shapes slide) with
                  | Some _ => _ | None => _ end).
  assert (Hm2 : forall shs2 region2, method2 = Some (shs2, region2) ->
            exists strategy k shape,
              region2 = ViaPlaceholder strategy k /\ 1 <= strategy <= 4
              /\ shapes slide !! k = Some shape /\ idx_positive shape = true
              /\ shs2 = <[k := with_text_frame (written id (points slide_data)) shape]> (shapes slide)).
  { subst method2. intros shs2 region2.
    destruct (find_content_placeholder (shapes slide)) as [[strategy [k shape]]|] eqn:Hfind;
      [|discriminate].
    destruct (write_placeholder env (points slide_data) shape) as [shape'|] eqn:Hw;
      [|discriminate].
    intros [= <- <-].
    apply find_content_placeholder_Some in Hfind as (Hs & Hl & Hidx & _).
    apply write_placeholder_Ok in Hw as [_ ->]; [|assumption].
    exists strategy, k, shape. repeat split; try assumption; lia. }
  destruct method2 as [[shs2 region2]|].
  { destruct (Hm2 shs2 region2 eq_refl) as (strategy & k & shape & -> & Hs & Hl & Hidx & ->).
    intros [= <- <- <-]. repeat split; try lia. now exists shape. }
  clear Hm2.
  destruct (alternative_text_frame env _ (points slide_data) (shapes slide))
    as [[[shs3 pos] cleared]|] eqn:Halt.
  { apply alternative_text_frame_Some in Halt as (shape & ps & Hl & Htf & _ & Hw);
      [|assumption].
    intros [= <- <- <-].
    destruct cleared; destruct Hw as [Hlen ->]; (split; [reflexivity|]);
      exists shape, ps; repeat split; assumption. }
  unfold add_textbox_with_points.
  destruct (textbox_import_raises env) eqn:Himport.
  { intros [= <- <- <-]. split; [reflexivity|]. left. split; [reflexivity|now left]. }
  destruct (add_textbox_raises env slide) eqn:Hbox.
  { intros [= <- <- <-]. split; [reflexivity|]. left. split; [reflexivity|now right]. }
  cbv zeta. destruct (text_frame_raises env (new_textbox env slide)) eqn:Hwrite.
  { intros [= <- <- <-]. split; [reflexivity|]. right. now repeat split. }
  cbn [TextFrame.clear]. intros [= <- <- <-].
  rewrite write_points_cleared by assumption. now repeat split.
Qed.

Lemma add_notes_shapes env slide_data slide :
  shapes (add_notes env slide_data slide) = shapes slide.
Proof.
  unfold add_notes. destruct (spec_notes slide_data); [reflexivity|].
  now destruct (notes_slide_raises env slide).
Qed.

(** [fill_slide] in terms of its three steps. *)
Lemma fill_slide_unfold env slide_data slide :
  let titled := set_title env slide_data (shapes slide) in
  let slide1 := mkSlide (slide_layout slide) (fst titled) (notes slide) in
  let body :=
    match points slide_data with
    | _ :: _ => add_content env slide_data slide1
    | [] => (fst titled, false, NoRegion)
    end in
  fill_slide env slide_data slide
  = (add_notes env slide_data
       (mkSlide (slide_layout slide) (fst (fst body)) (notes slide)),
     mkReport (snd titled) (snd (fst body)) (snd body)
              (body_log (snd (fst body)) (points slide_data))).
Proof.
  cbv zeta. unfold fill_slide.
  destruct (set_title env slide_data (shapes slide)) as [shs1 ts]. cbn [fst snd].
  destruct (points slide_data).
  - reflexivity.
  - now destruct (add_content env slide_data _) as [[shs2 added] region].
Qed.

(** ** The title methods touch title placeholders only *)

Section TitleFrame.

Variables (env : Env) (t : string).

Lemma write_text_retitled shape shape' :
  is_title_placeholder shape = true ->
  write_text env t shape = Ok shape' -> retitled t shape shape'.
Proof.
  intros Htitle. unfold write_text, has_text.
  destruct (has_text_frame shape).
  - destruct (text_frame_raises env shape); [discriminate|].
    intros [= <-]. right. now split.
  - intros [= <-]. now left.
Qed.

Lemma Forall2_retitled_refl shs : Forall2 (retitled t) shs shs.
Proof. induction shs; constructor; [now left|assumption]. Qed.

Lemma Forall2_retitled_insert shs : forall k shape shape',
  shs !! k = Some shape -> retitled t shape shape' ->
  Forall2 (retitled t) shs (<[k := shape']> shs).
Proof.
  induction shs as [|s shs IH]; intros k shape shape' Hl Hr; [discriminate|].
  destruct k as [|k]; cbn in *.
  - injection Hl as ->. constructor; [assumption|apply Forall2_retitled_refl].
  - constructor; [now left|]. now apply (IH k shape).
Qed.

Lemma title_method1_retitled shs shs' :
  title_method1 env t shs = Ok shs' -> Forall2 (retitled t) shs shs'.
Proof.
  unfold title_method1.
  destruct (find_first is_title_placeholder shs) as [[k shape]|] eqn:Hfind; [|discriminate].
  apply find_first_Some in Hfind as [Hl Htitle].
  destruct (write_text env t shape) as [shape'|] eqn:Hw; [|discriminate].
  intros [= <-]. apply (Forall2_retitled_insert shs k shape); [assumption|].
  now apply write_text_retitled.
Qed.

Lemma title_method2_retitled shs shs' :
  title_method2 env t shs = Ok (Some shs') -> Forall2 (retitled t) shs shs'.
Proof.
  unfold title_method2.
  destruct (find_first is_title_placeholder shs) as [[k shape]|] eqn:Hfind; [|discriminate].
  apply find_first_Some in Hfind as [Hl Htitle].
  destruct (has_text shape); [|discriminate].
  destruct (text_frame_raises env shape); [discriminate|].
  intros [= <-]. apply (Forall2_retitled_insert shs k shape); [assumption|].
  right. now split.
Qed.

Lemma title_method3_retitled shs : forall shs',
  title_method3 env t shs = Some shs' -> Forall2 (retitled t) shs shs'.
Proof.
  induction shs as [|shape rest IH]; intros shs'; cbn [title_method3]; [discriminate|].
  assert (Hrest : cons shape <$> title_method3 env t rest = Some shs' ->
                  Forall2 (retitled t) (shape :: rest) shs').
  { destruct (title_method3 env t rest) as [rest'|]; cbn; [|discriminate].
    intros [= <-]. constructor; [now left|now apply IH]. }
  destruct (is_title_placeholder shape) eqn:Htitle; [|exact Hrest].
  destruct (write_text env t shape) as [shape'|] eqn:Hw; [|exact Hrest].
  intros [= <-]. constructor; [|apply Forall2_retitled_refl].
  now apply write_text_retitled.
Qed.

End TitleFrame.

Lemma set_title_retitled env slide_data shs :
  Forall2 (retitled (title_or_default slide_data)) shs (fst (set_title env slide_data shs)).
Proof.
  unfold set_title.
  destruct (title_method1 env _ shs) as [shs1|] eqn:H1.
  { now apply title_method1_retitled in H1. }
  destruct (title_method2 env _ shs) as [[shs2|]|] eqn:H2.
  { now apply title_method2_retitled in H2. }
  all: destruct (title_method3 env _ shs) as [shs3|] eqn:H3;
    [now apply title_method3_retitled in H3|apply Forall2_retitled_refl].
Qed.

(** ** The body of a content slide *)

(** C9.  With an empty points sequence the body chain is not entered: the
    shapes of the slide are the shapes the title methods left, so their
    number is unchanged and every shape that is not a title placeholder
    is as the layout created it; nothing is reported as added, no region
    is used; the notes are written when present and possible. *)
Theorem no_points_no_body_write env slide_data slide :
  points slide_data = [] ->
  let result := fill_slide env slide_data slide in
  shapes (fst result) = fst (set_title env slide_data (shapes slide))
  /\ content_added (snd result) = false
  /\ body_region (snd result) = NoRegion
  /\ logged (snd result) = NoPointsInfo
  /\ length (shapes (fst result)) = length (shapes slide)
  /\ (forall k shape,
        shapes slide !! k = Some shape -> is_title_placeholder shape = false ->
        shapes (fst result) !! k = Some shape)
  /\ (notes (fst result) = notes slide
      \/ (spec_notes slide_data <> EmptyString
          /\ notes (fst result) = Some (spec_notes slide_data))).
Proof.
  intros Hpts result. subst result. rewrite fill_slide_unfold. cbv zeta.
  rewrite Hpts. cbn [fst snd content_added body_region logged body_log].
  rewrite add_notes_shapes. cbn [shapes].
  pose proof (set_title_retitled env slide_data (shapes slide)) as Hret.
  repeat split.
  - symmetry. eapply Forall2_length, Hret.
  - intros k shape Hl Hnot.
    destruct (Forall2_lookup_l _ _ _ _ _ Hret Hl) as (shape' & Hl' & [->|[Htitle _]]);
      [assumption|congruence].
  - unfold add_notes. destruct (spec_notes slide_data) eqn:Hn; [now left|].
    destruct (notes_slide_raises env _); [now left|]. right. split; [discriminate|reflexivity].
Qed.

Lemma no_points_no_body_write_witness :
  points (mkSlideSpec (Some "Agenda") [] "remember the agenda") = []
  /\ shapes (fst (fill_slide Sample.published (mkSlideSpec (Some "Agenda") [] "remember the agenda")
                    (new_slide Sample.title_and_content)))
     = [mkShape (Some 0) "Title 1" (Some ["Agenda"]) None;
        Sample.placeholder 1 "Content Placeholder 2"].
Proof.
  split; [reflexivity|].
  destruct (no_points_no_body_write Sample.published
              (mkSlideSpec (Some "Agenda") [] "remember the agenda")
              (new_slide Sample.title_and_content) eq_refl) as (Hshapes & _).
  rewrite Hshapes. reflexivity.
Defined.

Lemma read_back_insert k shape ps shs :
  shs !! k = Some shape ->
  read_back (ViaPlaceholder 0 k) (<[k := with_text_frame ps shape]> shs) = Some ps.
Proof.
  intros Hl. cbn. rewrite list_lookup_insert_eq by (eapply lookup_lt_Some, Hl).
  reflexivity.
Qed.

(** X9.  When neither the import nor the creation of the text box of
    "Method 4" raises, nor the writes into the new text box, a slide with
    at least one point gets its body: it is reported as added, to a
    region that reads back as the points or the bullet-prefixed points as
    the library stores them, possibly after older paragraphs; and when
    the region is the new text box, that box is the last shape, it is not
    a placeholder, it has the name the library gave it, it lies at
    [(Inches(1), Inches(2), Inches(8), Inches(4))] and it holds the
    bullet-prefixed points. *)
Lemma body_resolved_when_textbox_succeeds env slide_data slide :
  points slide_data <> [] ->
  textbox_import_raises env = false ->
  (forall s, add_textbox_raises env s = false) ->
  (forall s, text_frame_raises env (new_textbox env s) = false) ->
  let titled := fst (set_title env slide_data (shapes slide)) in
  let result := fill_slide env slide_data slide in
  content_added (snd result) = true
  /\ logged (snd result) = ContentAddedInfo
  /\ body_region (snd result) <> NoRegion
  /\ (exists before,
        read_back (body_region (snd result)) (shapes (fst result))
        = Some (before ++ written id (points slide_data))
        \/ read_back (body_region (snd result)) (shapes (fst result))
           = Some (before ++ written bullet (points slide_data)))
  /\ (body_region (snd result) = ViaNewTextBox ->
      exists textbox,
        shapes (fst result) = titled ++ [textbox]
        /\ ph_idx textbox = None
        /\ shape_name textbox
           = textbox_name env (mkSlide (slide_layout slide) titled (notes slide))
        /\ box textbox = Some (Inches 1, Inches 2, Inches 8, Inches 4)
        /\ text_frame textbox = Some (written bullet (points slide_data))).
Proof.
  intros Hpts Himport Hbox Hwrite titled result. subst result.
  rewrite fill_slide_unfold. cbv zeta. fold titled.
  destruct (points slide_data) as [|point rest] eqn:Hp; [congruence|].
  destruct (add_content env slide_data _) as [[shs' added] region] eqn:Hadd.
  apply add_content_regions in Hadd; [|rewrite Hp; discriminate].
  rewrite Hp in Hadd.
  cbn [fst snd content_added body_region logged]. rewrite add_notes_shapes.
  cbn [shapes] in *.
  destruct region as [strategy k|k|k| |].
  - destruct Hadd as (-> & _ & shape & Hl & _ & ->).
    repeat split; try discriminate.
    exists []. left. exact (read_back_insert k shape _ _ Hl).
  - destruct Hadd as (-> & shape & ps & Hl & _ & _ & ->).
    repeat split; try discriminate.
    exists []. right. exact (read_back_insert k shape _ _ Hl).
  - destruct Hadd as (-> & shape & ps & Hl & _ & _ & ->).
    repeat split; try discriminate.
    exists ps. right. exact (read_back_insert k shape _ _ Hl).
  - destruct Hadd as (-> & _ & _ & _ & ->).
    split; [reflexivity|]. split; [reflexivity|]. split; [discriminate|]. split.
    + exists []. right. cbn. now rewrite last_snoc.
    + intros _. eexists. split; [reflexivity|]. now repeat split.
  - destruct Hadd as (_ & [[_ [Hi|Hb]]|(_ & _ & _ & Hw)]).
    + congruence.
    + rewrite Hbox in Hb. discriminate.
    + rewrite Hwrite in Hw. discriminate.
Qed.

Example textbox_with_module :
  fill_slide Sample.calm (mkSlideSpec (Some "Photo") ["A"; "B"] "") (new_slide Sample.blank)
  = (mkSlide Sample.blank
             [mkShape None "TextBox 1" (Some ["• A"; "• B"])
                      (Some (914400, 1828800, 7315200, 3657600)%Z)]
             None,
     mkReport false true ViaNewTextBox ContentAddedInfo).
Proof. reflexivity. Qed.

Lemma find_first_None {A} (p : A -> bool) l :
  Forall (fun x => p x = false) l -> find_first p l = None.
Proof.
  induction 1 as [|x l Hx _ IH]; cbn [find_first]; [reflexivity|]. now rewrite Hx, IH.
Qed.

Lemma write_text_no_frame env t shape :
  has_text_frame shape = false -> write_text env t shape = Ok shape.
Proof. intros H. unfold write_text, has_text. now rewrite H. Qed.

Lemma title_method3_no_frame env t shs :
  Forall (fun shape => has_text_frame shape = false) shs ->
  forall shs', title_method3 env t shs = Some shs' -> shs' = shs.
Proof.
  induction 1 as [|shape rest Hshape _ IH]; intros shs'; cbn [title_method3];
    [discriminate|].
  rewrite (write_text_no_frame env t shape Hshape).
  destruct (is_title_placeholder shape); [now intros [= <-]|].
  destruct (title_method3 env t rest) as [rest'|]; cbn; [|discriminate].
  intros [= <-]. f_equal. now apply IH.
Qed.

Lemma set_title_no_frame env slide_data shs :
  Forall (fun shape => has_text_frame shape = false) shs ->
  fst (set_title env slide_data shs) = shs.
Proof.
  intros Hnone. unfold set_title, title_method1, title_method2.
  destruct (find_first is_title_placeholder shs) as [[k shape]|] eqn:Hfind.
  - apply find_first_Some in Hfind as [Hl _].
    assert (Hshape : has_text_frame shape = false).
    { rewrite List.Forall_forall in Hnone. apply Hnone. eapply lookup_In, Hl. }
    rewrite (write_text_no_frame env _ shape Hshape). cbn. now apply list_insert_id.
  - destruct (title_method3 env _ shs) as [shs'|] eqn:H3; [|reflexivity].
    cbn. now apply title_method3_no_frame in H3.
Qed.

Lemma find_content_placeholder_no_frame shs :
  Forall (fun shape => has_text_frame shape = false) shs ->
  find_content_placeholder shs = None.
Proof.
  intros Hnone.
  unfold find_content_placeholder, strategy1, strategy2, strategy3, strategy4.
  rewrite !find_first_None; [reflexivity|..];
    (eapply List.Forall_impl; [|exact Hnone]); cbn; intros shape ->;
    now rewrite ?andb_false_r.
Qed.

Lemma alternative_text_frame_no_frame env slide_title pts shs :
  Forall (fun shape => has_text_frame shape = false) shs ->
  alternative_text_frame env slide_title pts shs = None.
Proof.
  induction 1 as [|shape rest Hshape _ IH]; cbn [alternative_text_frame];
    [reflexivity|].
  rewrite IH. unfold has_text_frame in Hshape.
  now destruct (text_frame shape).
Qed.

(** C1 (where the code departs from it).  "Method 4" starts with
    [from pptx.shapes.textbox import TextBox] inside its [try] block.
    When that import raises, the text box is never created: no slide has
    the new text box as its body region, and a slide with points whose
    shapes have no text frame (a slide of a blank layout, a slide with
    only picture placeholders) keeps its shapes as they are, gets no body
    and is reported with the title-only warning. *)
Theorem textbox_fallback_lost_when_import_raises env slide_data slide :
  textbox_import_raises env = true ->
  points slide_data <> [] ->
  let result := fill_slide env slide_data slide in
  body_region (snd result) <> ViaNewTextBox
  /\ (Forall (fun shape => has_text_frame shape = false) (shapes slide) ->
      shapes (fst result) = shapes slide
      /\ content_added (snd result) = false
      /\ body_region (snd result) = NoRegion
      /\ logged (snd result) = TitleOnlyWarning).
Proof.
  intros Himport Hpts result. subst result. rewrite fill_slide_unfold. cbv zeta.
  destruct (points slide_data) as [|point rest] eqn:Hp; [congruence|].
  cbn [fst snd content_added body_region logged]. rewrite add_notes_shapes. cbn [shapes].
  split.
  - destruct (add_content env slide_data _) as [[shs' added] region] eqn:Hadd.
    apply add_content_regions in Hadd; [|rewrite Hp; discriminate].
    cbn [snd]. intros ->. destruct Hadd as (_ & Hi & _). congruence.
  - intros Hnone. rewrite (set_title_no_frame env _ _ Hnone).
    unfold add_content. cbn [shapes].
    rewrite (find_content_placeholder_no_frame _ Hnone).
    rewrite (alternative_text_frame_no_frame env _ _ _ Hnone).
    unfold add_textbox_with_points. rewrite Himport. now cbn.
Qed.

Lemma textbox_fallback_lost_witness :
  textbox_import_raises Sample.published = true
  /\ points (mkSlideSpec (Some "Intro") ["A"] "") <> []
  /\ Forall (fun shape => has_text_frame shape = false) (shapes (new_slide Sample.blank))
  /\ content_added
       (snd (fill_slide Sample.published (mkSlideSpec (Some "Intro") ["A"] "")
               (new_slide Sample.blank))) = false.
Proof.
  split; [reflexivity|]. split; [discriminate|]. split; [constructor|].
  destruct (textbox_fallback_lost_when_import_raises Sample.published
              (mkSlideSpec (Some "Intro") ["A"] "") (new_slide Sample.blank))
    as (_ & Hlost); [reflexivity|discriminate|].
  destruct Hlost as (_ & Hadded & _); [constructor|exact Hadded].
Defined.

(** The whole run on a template with the layouts "Title Slide" and
    "Blank": the only content layout is "Blank", and the slide made for
    the spec "Intro" with the point "A" has no shape at all. *)
Example blank_layout_body_lost :
  create_presentation Sample.published
    (Some (Ok (mkPresentation [Sample.title_slide; Sample.blank] [])))
    (mkOutline (Some "Report") [mkSlideSpec (Some "Intro") ["A"] ""])
    new_generator
  = (Ok true,
     mkGen (mkPresentation
              [Sample.title_slide; Sample.blank]
              [mkSlide Sample.title_slide
                 [mkShape (Some 0) "Title 1" (Some ["Report"]) None;
                  mkShape (Some 1) "Subtitle 2" (Some ["Generated on January 01, 2026"]) None]
                 None;
               mkSlide Sample.blank [] None])
           [(1, Sample.blank)] 0).
Proof. reflexivity. Qed.

(** A content layout with a title placeholder only: the title is set, the
    title guard of "Method 3" skips it, and the points are lost. *)
Example title_only_layout_body_lost :
  classify (probe_answer Sample.published Sample.quote) Sample.quote = Content
  /\ fill_slide Sample.published (mkSlideSpec (Some "Motto") ["A"; "B"] "")
                (new_slide Sample.quote)
     = (mkSlide Sample.quote [mkShape (Some 0) "Title 1" (Some ["Motto"]) None] None,
        mkReport true false NoRegion TitleOnlyWarning).
Proof. split; reflexivity. Qed.

(** C4 (as the code has it).  With the points "A", "B", "C": a
    placeholder found by strategies 1 to 4 reads back as exactly "A", "B",
    "C"; a cleared text frame of "Method 3" and the new text box read
    back as exactly "• A", "• B", "• C"; a longer text frame of "Method 3"
    keeps its paragraphs, at least one, and the three bullet-prefixed
    paragraphs follow them. *)
Theorem body_read_back env slide_data slide :
  points slide_data = ["A"; "B"; "C"] ->
  let titled := fst (set_title env slide_data (shapes slide)) in
  let result := fill_slide env slide_data slide in
  match body_region (snd result) with
  | ViaPlaceholder strategy k =>
      1 <= strategy <= 4
      /\ read_back (body_region (snd result)) (shapes (fst result)) = Some ["A"; "B"; "C"]
  | ViaClearedTextFrame _ | ViaNewTextBox =>
      read_back (body_region (snd result)) (shapes (fst result))
      = Some ["• A"; "• B"; "• C"]
  | ViaAppendedTextFrame k =>
      exists before,
        titled !! k ≫= text_frame = Some before
        /\ before <> []
        /\ read_back (body_region (snd result)) (shapes (fst result))
           = Some (before ++ ["• A"; "• B"; "• C"])
  | NoRegion => content_added (snd result) = false
  end.
Proof.
  intros Hp titled result. subst result. rewrite fill_slide_unfold. cbv zeta.
  fold titled. rewrite Hp.
  destruct (add_content env slide_data _) as [[shs' added] region] eqn:Hadd.
  apply add_content_regions in Hadd; [|rewrite Hp; discriminate].
  rewrite Hp in Hadd.
  cbn [fst snd content_added body_region]. rewrite add_notes_shapes. cbn [shapes] in *.
  destruct region as [strategy k|k|k| |].
  - destruct Hadd as (_ & Hs & shape & Hl & _ & ->).
    split; [assumption|]. exact (read_back_insert k shape _ _ Hl).
  - destruct Hadd as (_ & shape & ps & Hl & _ & _ & ->).
    exact (read_back_insert k shape _ _ Hl).
  - destruct Hadd as (_ & shape & ps & Hl & Htf & Hlen & ->).
    exists ps. split; [|split].
    + rewrite Hl. exact Htf.
    + intros ->. cbn in Hlen. lia.
    + exact (read_back_insert k shape _ _ Hl).
  - destruct Hadd as (_ & _ & _ & _ & ->). cbn. now rewrite last_snoc.
  - now destruct Hadd as (-> & _).
Qed.

Lemma body_read_back_witness :
  points (mkSlideSpec (Some "Intro") ["A"; "B"; "C"] "") = ["A"; "B"; "C"]
  /\ read_back (ViaPlaceholder 1 1)
       (shapes (fst (fill_slide Sample.published (mkSlideSpec (Some "Intro") ["A"; "B"; "C"] "")
                       (new_slide Sample.title_and_content))))
     = Some ["A"; "B"; "C"].
Proof.
  split; [reflexivity|].
  exact (proj2 (body_read_back Sample.published (mkSlideSpec (Some "Intro") ["A"; "B"; "C"] "")
                  (new_slide Sample.title_and_content) eq_refl)).
Defined.

(** C4 as stated fails on both branches of "Method 3".  A short text
    frame is cleared and reads back bullet-prefixed, not as "A", "B", "C";
    and on a slide with a title placeholder only whose spec has no title
    key, the title placeholder, holding "Slide Title", takes the body
    after its own paragraph: four paragraphs, not three. *)
Lemma alternative_frame_read_back :
  (let slide := mkSlide Sample.blank
                  [Sample.placeholder 0 "Title 1";
                   mkShape None "Footer" (Some ["Draft"]) None] None in
   let result := fill_slide Sample.published (mkSlideSpec (Some "Intro") ["A"; "B"; "C"] "")
                            slide in
   body_region (snd result) = ViaClearedTextFrame 1
   /\ read_back (body_region (snd result)) (shapes (fst result))
      = Some ["• A"; "• B"; "• C"]
   /\ read_back (body_region (snd result)) (shapes (fst result)) <> Some ["A"; "B"; "C"])
  /\ (let slide := new_slide Sample.quote in
      let result := fill_slide Sample.published (mkSlideSpec None ["A"; "B"; "C"] "") slide in
      body_region (snd result) = ViaAppendedTextFrame 0
      /\ read_back (body_region (snd result)) (shapes (fst result))
         = Some ["Slide Title"; "• A"; "• B"; "• C"]).
Proof. repeat split. discriminate. Qed.

(** ** The assembler *)

(** The rotation changes the cursor only and returns a known layout. *)
Lemma next_content_layout_spec g r g' :
  _get_next_content_layout g = (r, g') ->
  presentation g' = presentation g
  /\ content_layouts g' = content_layouts g
  /\ forall layout, r = Ok layout -> layouts_known g ->
                    In layout (slide_layouts (presentation g)).
Proof.
  unfold _get_next_content_layout, bind, get.
  destruct (content_layouts g) as [|entry entries] eqn:Hcl.
  - destruct (1 <? length (slide_layouts (presentation g))); rewrite index_run;
      match goal with |- context [?l !! ?i] => destruct (l !! i) as [x|] eqn:Hl end;
      intros [= <- <-]; repeat split; try assumption;
      intros layout [= <-] _; eapply lookup_In, Hl.
  - rewrite index_run.
    destruct ((entry :: entries) !! current_layout_index g) as [e|] eqn:Hl;
      intros [= <- <-]; cbn; repeat split; try assumption; try discriminate.
    intros layout [= <-] Hknown. unfold layouts_known in Hknown. rewrite Hcl in Hknown.
    rewrite List.Forall_forall in Hknown. apply Hknown. eapply lookup_In, Hl.
Qed.

Lemma smart_layout_spec slide_data g r g' :
  _get_smart_layout slide_data g = (r, g') ->
  presentation g' = presentation g
  /\ content_layouts g' = content_layouts g
  /\ forall layout, r = Ok layout -> layouts_known g ->
                    In layout (slide_layouts (presentation g)).
Proof.
  unfold _get_smart_layout, bind, get.
  destruct (content_layouts g) as [|entry entries] eqn:Hcl.
  { intros Hrun. rewrite <- Hcl. revert Hrun. apply next_content_layout_spec. }
  destruct (suitable_layouts slide_data (entry :: entries)) as [|c cs] eqn:Hsuit.
  { intros Hrun. rewrite <- Hcl. revert Hrun. apply next_content_layout_spec. }
  unfold bind. rewrite index_run.
  destruct (sort_desc (c :: cs) !! 0) as [best|] eqn:Hsort; intros [= <- <-];
    rewrite Hcl; repeat split; try discriminate.
  intros layout [= <-] Hknown. unfold layouts_known in Hknown. rewrite Hcl in Hknown.
  assert (Hin : In best (suitable_layouts slide_data (entry :: entries))).
  { rewrite Hsuit. eapply Permutation_in; [apply sort_desc_perm|].
    eapply lookup_In, Hsort. }
  unfold suitable_layouts in Hin. apply in_map_iff in Hin as ([i layout] & <- & Hin).
  rewrite List.Forall_forall in Hknown. exact (Hknown _ Hin).
Qed.

Lemma fill_slide_layout env slide_data slide :
  slide_layout (fst (fill_slide env slide_data slide)) = slide_layout slide.
Proof.
  rewrite fill_slide_unfold. cbv zeta. cbn [fst]. unfold add_notes.
  destruct (spec_notes slide_data); [reflexivity|].
  now destruct (notes_slide_raises env _).
Qed.

(** One content slide: the catalog and the content layouts stay, and
    either a slide made from a known layout is appended or, when a call
    raised, no slide is. *)
Lemma create_content_slide_spec env slide_data g r g' :
  _create_content_slide env slide_data g = (r, g') ->
  layouts_known g ->
  slide_layouts (presentation g') = slide_layouts (presentation g)
  /\ content_layouts g' = content_layouts g
  /\ match r with
     | Ok slide =>
         slides (presentation g') = slides (presentation g) ++ [slide]
         /\ made_from env (slide_layouts (presentation g)) slide_data slide
     | Raise _ => slides (presentation g') = slides (presentation g)
     end.
Proof.
  unfold _create_content_slide. unfold bind at 1.
  destruct (_get_smart_layout slide_data g) as [r1 g1] eqn:Hsmart.
  apply smart_layout_spec in Hsmart as (Hp & Hcl & Hin).
  destruct r1 as [layout|e].
  2:{ intros [= <- <-] _. now rewrite Hp, Hcl. }
  unfold add_slide, bind, raise, modify, ret, store_last_slide.
  destruct (add_slide_raises env layout).
  { intros [= <- <-] _. now rewrite Hp, Hcl. }
  intros [= <- <-] Hknown. cbn. rewrite removelast_last, Hp, Hcl.
  repeat split. exists layout. split; [now apply Hin|reflexivity].
Qed.

Lemma create_content_slides_spec env specs : forall g r g',
  create_content_slides env specs g = (r, g') ->
  layouts_known g ->
  slide_layouts (presentation g') = slide_layouts (presentation g)
  /\ content_layouts g' = content_layouts g
  /\ exists created,
       slides (presentation g') = slides (presentation g) ++ created
       /\ Forall (fun slide => In (slide_layout slide) (slide_layouts (presentation g)))
                 created
       /\ (r = Ok tt ->
           Forall2 (made_from env (slide_layouts (presentation g))) specs created).
Proof.
  induction specs as [|slide_data rest IH]; intros g r g'; cbn [create_content_slides].
  - intros [= <- <-] _. repeat split. exists []. rewrite app_nil_r.
    repeat split; constructor.
  - unfold bind at 1.
    destruct (_create_content_slide env slide_data g) as [r1 g1] eqn:Hone.
    intros Hrun Hknown.
    apply create_content_slide_spec in Hone as (Hl1 & Hcl1 & Hs1); [|assumption].
    destruct r1 as [slide|e].
    + destruct Hs1 as [Hs1 Hmade].
      apply IH in Hrun as (Hl & Hcl & created & Hs & Hall & Hok).
      2:{ unfold layouts_known. rewrite Hl1, Hcl1. exact Hknown. }
      rewrite Hl, Hcl, Hl1, Hcl1. repeat split.
      exists (slide :: created). rewrite Hs, Hs1, <- app_assoc. repeat split.
      * constructor; [|now rewrite <- Hl1].
        destruct Hmade as (layout & Hin & ->). now rewrite fill_slide_layout.
      * intros Hr. constructor; [assumption|]. rewrite <- Hl1. now apply Hok.
    + injection Hrun as <- <-. repeat split; try assumption.
      exists []. rewrite app_nil_r. repeat split; [assumption|constructor|discriminate].
Qed.

Lemma write_text_total env t shape :
  text_frame_raises env shape = false -> exists shape', write_text env t shape = Ok shape'.
Proof.
  intros Hquiet. unfold write_text. rewrite Hquiet.
  destruct (has_text_frame shape); [eauto|]. destruct (has_text shape); eauto.
Qed.

(** An unguarded write on the last slide: the slide is replaced by the
    written one, or, when the write raises, stays as it was. *)
Lemma write_optional_spec env t target slide g before r g' :
  slides (presentation g) = before ++ [slide] ->
  write_optional env t target slide g = (r, g') ->
  slide_layouts (presentation g') = slide_layouts (presentation g)
  /\ content_layouts g' = content_layouts g
  /\ current_layout_index g' = current_layout_index g
  /\ match r with
     | Ok slide' =>
         slides (presentation g') = before ++ [slide']
         /\ slide_layout slide' = slide_layout slide
     | Raise _ => slides (presentation g') = before ++ [slide]
     end
  /\ ((forall shape, text_frame_raises env shape = false) -> exists slide', r = Ok slide').
Proof.
  intros Hlast. unfold write_optional.
  destruct target as [[k shape]|].
  2:{ intros [= <- <-]. repeat split; eauto. }
  unfold bind at 1. unfold lift.
  destruct (write_text env t shape) as [shape'|e] eqn:Hw.
  - unfold ret, bind, store_last_slide, modify. intros [= <- <-]. cbn.
    rewrite Hlast, removelast_last. repeat split; eauto.
  - unfold raise. intros [= <- <-]. repeat split; try assumption.
    intros Hquiet. destruct (write_text_total env t shape (Hquiet shape)) as [shape' Hok].
    congruence.
Qed.

(** The title slide is made from layout 0. *)
Lemma create_title_slide_spec env outline_data g r g' :
  create_title_slide env outline_data g = (r, g') ->
  slide_layouts (presentation g') = slide_layouts (presentation g)
  /\ content_layouts g' = content_layouts g
  /\ current_layout_index g' = current_layout_index g
  /\ match r with
     | Ok title_slide =>
         slides (presentation g') = slides (presentation g) ++ [title_slide]
         /\ slide_layouts (presentation g) !! 0 = Some (slide_layout title_slide)
     | Raise _ =>
         slides (presentation g') = slides (presentation g)
         \/ exists title_slide,
              slides (presentation g') = slides (presentation g) ++ [title_slide]
              /\ slide_layouts (presentation g) !! 0 = Some (slide_layout title_slide)
     end
  /\ (slide_layouts (presentation g) <> [] ->
      (forall layout, add_slide_raises env layout = false) ->
      (forall shape, text_frame_raises env shape = false) ->
      exists title_slide, r = Ok title_slide).
Proof.
  unfold create_title_slide. unfold bind at 1. unfold get at 1.
  unfold bind at 1. rewrite index_run.
  destruct (slide_layouts (presentation g) !! 0) as [title_layout|] eqn:Hfirst.
  2:{ intros [= <- <-]. repeat split; [now left|].
      intros Hne. destruct (slide_layouts (presentation g)); [congruence|discriminate]. }
  unfold bind at 1. unfold add_slide.
  destruct (add_slide_raises env title_layout) eqn:Hadd.
  { unfold raise. intros [= <- <-]. repeat split; [now left|].
    intros _ Hquiet. rewrite Hquiet in Hadd. discriminate. }
  unfold bind at 1. unfold modify at 1. unfold ret at 1.
  set (g1 := set_slides (slides (presentation g) ++ [new_slide title_layout]) g).
  unfold bind at 1.
  match goal with |- context [write_optional env ?t ?target (new_slide title_layout) g1] =>
    destruct (write_optional env t target (new_slide title_layout) g1) as [r1 g2] eqn:Hw1 end.
  apply (write_optional_spec _ _ _ _ _ (slides (presentation g))) in Hw1
    as (Hl1 & Hcl1 & Hci1 & Hs1 & Hok1); [|reflexivity].
  subst g1. cbn in Hl1, Hcl1, Hci1.
  destruct r1 as [slide1|e].
  2:{ intros [= <- <-]. repeat split; try assumption.
      - right. exists (new_slide title_layout). now split.
      - intros _ _ Hquiet. destruct (Hok1 Hquiet) as [? ?]. discriminate. }
  destruct Hs1 as [Hs1 Hlay1].
  intros Hw2.
  apply (write_optional_spec _ _ _ _ _ (slides (presentation g))) in Hw2
    as (Hl2 & Hcl2 & Hci2 & Hs2 & Hok2); [|assumption].
  repeat split; try congruence.
  - destruct r as [slide2|e].
    + destruct Hs2 as [Hs2 Hlay2]. split; [assumption|]. now rewrite Hlay2, Hlay1.
    + right. exists slide1. split; [assumption|]. now rewrite Hlay1.
  - intros _ _ Hquiet. exact (Hok2 Hquiet).
Qed.

Lemma clear_slides_spec env ss :
  match fst (clear_slides env ss) with
  | Ok _ => snd (clear_slides env ss) = []
  | Raise _ => True
  end
  /\ ((forall slide, drop_rel_raises env slide = false) -> clear_slides env ss = (Ok tt, [])).
Proof.
  induction ss as [|s rest [IH1 IH2]]; cbn; [now split|].
  destruct (drop_rel_raises env s) eqn:Hdrop; cbn.
  - split; [exact I|]. intros Hquiet. rewrite Hquiet in Hdrop. discriminate.
  - now split.
Qed.

Lemma content_entries_known env layouts : forall i,
  Forall (fun entry => In (snd entry) layouts) (content_entries env i layouts).
Proof.
  induction layouts as [|layout rest IH]; intros i; cbn [content_entries]; [constructor|].
  apply Forall_app. split.
  - unfold content_entry. destruct (classify _ layout); repeat constructor.
  - eapply List.Forall_impl; [|apply IH]. cbn. intros entry Hin. now right.
Qed.

Lemma default_layouts_known layouts :
  Forall (fun entry => In (snd entry) layouts) (default_layouts layouts).
Proof.
  unfold default_layouts. apply List.Forall_forall. intros [i layout] Hin.
  apply list_elem_of_In, list_elem_of_omap in Hin as (j & _ & Hj).
  destruct (0 <? j); [|discriminate].
  destruct (layouts !! j) as [layout'|] eqn:Hl; [|discriminate].
  injection Hj as <- <-. cbn. eapply lookup_In, Hl.
Qed.

Lemma identified_known env g : layouts_known (identified env g).
Proof.
  unfold layouts_known, identified. cbn.
  destruct (content_entries env 0 _) as [|entry entries] eqn:Hentries.
  - apply default_layouts_known.
  - rewrite <- Hentries. apply content_entries_known.
Qed.

(** Once the presentation is open, its catalog is the template's (or the
    built-in one), no slide is left, and the content layouts are known. *)
Lemma open_presentation_spec env template r g :
  open_presentation env template new_generator = (r, g) ->
  slide_layouts (presentation g) = catalog env template
  /\ (r = Ok tt -> slides (presentation g) = [] /\ layouts_known g)
  /\ (no_raise env -> (forall e, template <> Some (Raise e)) -> r = Ok tt).
Proof.
  unfold open_presentation. destruct template as [[p|e]|]; cbn [catalog].
  - unfold bind at 1. unfold lift, ret at 1.
    unfold bind at 1. unfold modify at 1.
    unfold bind at 1. rewrite identify_content_layouts_run.
    unfold clear_existing_slides.
    set (g2 := identified env (set_presentation p new_generator)).
    destruct (clear_slides_spec env (slides (presentation g2))) as [Hclear Htotal].
    destruct (clear_slides env (slides (presentation g2))) as [rc ss] eqn:Hc.
    intros [= <- <-]. cbn in Hclear. split; [reflexivity|split].
    + intros ->. split; [exact Hclear|].
      exact (identified_known env (set_presentation p new_generator)).
    + intros (_ & Hdrop & _) _. specialize (Htotal Hdrop). congruence.
  - unfold bind, lift, raise. intros [= <- <-]. split; [reflexivity|split].
    + discriminate.
    + intros _ Hne. now elim (Hne e).
  - unfold modify. intros [= <- <-]. split; [reflexivity|split].
    + intros _. split; [reflexivity|constructor].
    + reflexivity.
Qed.

Lemma sort_desc_nonempty l : l <> [] -> sort_desc l <> [].
Proof.
  intros Hne Hnil. apply Hne. apply Permutation_nil.
  rewrite <- Hnil. apply sort_desc_perm.
Qed.

Lemma smart_layout_total slide_data g :
  slide_layouts (presentation g) <> [] ->
  exists layout, fst (_get_smart_layout slide_data g) = Ok layout.
Proof.
  intros Hne. unfold _get_smart_layout, bind, get.
  destruct (content_layouts g) as [|entry entries] eqn:Hcl.
  - unfold _get_next_content_layout, bind, get. rewrite Hcl.
    destruct (Nat.ltb_spec 1 (length (slide_layouts (presentation g)))) as [Hlt|Hge];
      rewrite index_run.
    + destruct (lookup_lt_is_Some_2 (slide_layouts (presentation g)) 1 Hlt) as [x ->]. eauto.
    + destruct (slide_layouts (presentation g)) as [|x rest]; [congruence|]. cbn. eauto.
  - destruct (smart_layout_run slide_data g) as (pre & best & post & _ & _ & _ & Hrun).
    { rewrite Hcl. discriminate. }
    unfold _get_smart_layout, bind, get in Hrun. rewrite Hcl in Hrun.
    rewrite Hrun. cbn. eauto.
Qed.

Lemma create_content_slides_total env specs : forall g,
  slide_layouts (presentation g) <> [] ->
  (forall layout, add_slide_raises env layout = false) ->
  fst (create_content_slides env specs g) = Ok tt.
Proof.
  induction specs as [|slide_data rest IH]; intros g Hne Hquiet; [reflexivity|].
  cbn [create_content_slides]. unfold bind at 1.
  destruct (_create_content_slide env slide_data g) as [r1 g1] eqn:Hone.
  assert (Hframe : slide_layouts (presentation g1) = slide_layouts (presentation g)
                   /\ exists slide, r1 = Ok slide).
  { revert Hone. unfold _create_content_slide. unfold bind at 1.
    destruct (smart_layout_total slide_data g Hne) as [layout Hok].
    destruct (_get_smart_layout slide_data g) as [r2 g2] eqn:Hsmart.
    pose proof (smart_layout_spec _ _ _ _ Hsmart) as (Hp & _ & _).
    cbn in Hok. subst r2.
    unfold add_slide, bind, modify, ret, store_last_slide. rewrite Hquiet.
    intros [= <- <-]. cbn. rewrite Hp. eauto. }
  destruct Hframe as [Hl [slide ->]].
  apply IH; [now rewrite Hl|assumption].
Qed.

(** The whole [try] block, started on a fresh generator. *)
Lemma assemble_spec env template outline_data r g :
  assemble env template outline_data new_generator = (r, g) ->
  slide_layouts (presentation g) = catalog env template
  /\ r <> Ok false
  /\ (r = Ok true ->
      exists title_slide created,
        slides (presentation g) = title_slide :: created
        /\ catalog env template !! 0 = Some (slide_layout title_slide)
        /\ Forall2 (made_from env (catalog env template))
                   (outline_slides outline_data) created)
  /\ (no_raise env -> catalog env template <> [] -> r = Ok true).
Proof.
  unfold assemble. unfold bind at 1.
  destruct (open_presentation env template new_generator) as [r0 g0] eqn:Hopen.
  apply open_presentation_spec in Hopen as (Hl0 & Hok0 & Htotal0).
  destruct r0 as [[]|e].
  2:{ intros [= <- <-]. repeat split; try assumption; try discriminate.
      intros Hquiet Hne. exfalso.
      assert (Hr : Raise e = Ok tt); [|discriminate].
      apply Htotal0; [assumption|]. intros e' ->. now apply Hne. }
  destruct (Hok0 eq_refl) as [Hs0 Hk0].
  unfold bind at 1.
  destruct (create_title_slide env outline_data g0) as [r1 g1] eqn:Htitle.
  apply create_title_slide_spec in Htitle as (Hl1 & Hcl1 & _ & Hs1 & Htotal1).
  destruct r1 as [title_slide|e].
  2:{ intros [= <- <-]. repeat split; try congruence.
      intros (Hadd & _ & Htext) Hne.
      destruct Htotal1 as [? ?]; try assumption; [congruence|discriminate]. }
  destruct Hs1 as [Hs1 Hfirst]. rewrite Hs0 in Hs1. cbn in Hs1.
  unfold bind at 1.
  destruct (create_content_slides env (outline_slides outline_data) g1) as [r2 g2] eqn:Hcontent.
  pose proof (create_content_slides_total env (outline_slides outline_data) g1) as Htotal2.
  rewrite Hcontent in Htotal2. cbn in Htotal2.
  apply create_content_slides_spec in Hcontent as (Hl2 & _ & created & Hs2 & _ & Hmade).
  2:{ unfold layouts_known. rewrite Hl1, Hcl1. exact Hk0. }
  destruct r2 as [[]|e]; unfold ret; intros [= <- <-].
  - split; [congruence|]. split; [discriminate|]. split; [|reflexivity].
    intros _. exists title_slide, created. rewrite Hs2, Hs1.
    repeat split; [congruence|]. rewrite <- Hl0, <- Hl1. now apply Hmade.
  - split; [congruence|]. split; [discriminate|]. split; [discriminate|].
    intros (Hadd & _ & _) Hne. exfalso.
    assert (Hr : Raise e = Ok tt); [|discriminate].
    apply Htotal2; [congruence|assumption].
Qed.

Lemma create_presentation_run env template outline_data :
  create_presentation env template outline_data new_generator
  = match assemble env template outline_data new_generator with
    | (Ok b, g) => (Ok b, g)
    | (Raise _, g) => (Ok false, g)
    end.
Proof.
  unfold create_presentation, try_except.
  now destruct (assemble env template outline_data new_generator) as [[b|e] g].
Qed.

(** C3 (as the code has it).  Whenever [create_presentation] succeeds,
    with or without a template, the first slide of the document is the
    title slide and it is bound to layout 0 of the catalog, whatever the
    classification of the layouts. *)
Theorem title_slide_bound_to_layout_0 env template outline_data g :
  create_presentation env template outline_data new_generator = (Ok true, g) ->
  exists title_slide rest,
    slides (presentation g) = title_slide :: rest
    /\ slide_layouts (presentation g) !! 0 = Some (slide_layout title_slide).
Proof.
  rewrite create_presentation_run.
  destruct (assemble env template outline_data new_generator) as [r g0] eqn:Hrun.
  apply assemble_spec in Hrun as (Hl & _ & Hok & _).
  destruct r as [b|e]; [|discriminate]. intros [= -> ->].
  destruct (Hok eq_refl) as (title_slide & created & Hs & Hfirst & _).
  exists title_slide, created. now rewrite Hl.
Qed.

Lemma title_slide_bound_to_layout_0_witness :
  create_presentation Sample.published
    (Some (Ok (mkPresentation [Sample.title_slide; Sample.title_and_content] [])))
    (mkOutline (Some "Report") []) new_generator
  = (Ok true,
     mkGen (mkPresentation
              [Sample.title_slide; Sample.title_and_content]
              [mkSlide Sample.title_slide
                 [mkShape (Some 0) "Title 1" (Some ["Report"]) None;
                  mkShape (Some 1) "Subtitle 2" (Some ["Generated on January 01, 2026"]) None]
                 None])
           [(1, Sample.title_and_content)] 0)
  /\ exists title_slide rest,
       [mkSlide Sample.title_slide
          [mkShape (Some 0) "Title 1" (Some ["Report"]) None;
           mkShape (Some 1) "Subtitle 2" (Some ["Generated on January 01, 2026"]) None]
          None]
       = title_slide :: rest
       /\ [Sample.title_slide; Sample.title_and_content] !! 0
          = Some (slide_layout title_slide).
Proof.
  split; [reflexivity|].
  exact (title_slide_bound_to_layout_0 Sample.published
           (Some (Ok (mkPresentation [Sample.title_slide; Sample.title_and_content] [])))
           (mkOutline (Some "Report") []) _ eq_refl).
Defined.

(** C3 as stated fails: with the layouts "Blank", "Title Slide" the first
    layout classified Title is layout 1, and the title slide is bound to
    layout 0, "Blank". *)
Lemma title_slide_ignores_classification :
  let layouts := [Sample.blank; Sample.title_slide] in
  let run := create_presentation Sample.published (Some (Ok (mkPresentation layouts [])))
                                 (mkOutline (Some "Report") []) new_generator in
  fst run = Ok true
  /\ slide_layout <$> head (slides (presentation (snd run))) = Some Sample.blank
  /\ classify (probe_answer Sample.published Sample.blank) Sample.blank = Content
  /\ first_title_layout_or_first layouts = Some Sample.title_slide
  /\ slide_layout <$> head (slides (presentation (snd run)))
     <> first_title_layout_or_first layouts.
Proof. repeat split. discriminate. Qed.

(** C6.  With a loaded template the layout catalog of the generator is
    the template's, whatever happens.  When [create_presentation]
    succeeds, the slides of the document are the title slide, bound to
    layout 0, followed by one slide per slide spec, each made by the
    assembler from a layout of the catalog: none of the template's slides
    is left and the count is one plus the number of slide specs.  It
    succeeds whenever the catalog is not empty and no library call
    raises. *)
Theorem assembly_replaces_template_slides env p outline_data r g :
  create_presentation env (Some (Ok p)) outline_data new_generator = (r, g) ->
  slide_layouts (presentation g) = slide_layouts p
  /\ (r = Ok true ->
      length (slides (presentation g)) = 1 + length (outline_slides outline_data)
      /\ exists title_slide created,
           slides (presentation g) = title_slide :: created
           /\ slide_layouts p !! 0 = Some (slide_layout title_slide)
           /\ Forall2 (made_from env (slide_layouts p))
                      (outline_slides outline_data) created)
  /\ (no_raise env -> slide_layouts p <> [] -> r = Ok true).
Proof.
  rewrite create_presentation_run.
  destruct (assemble env (Some (Ok p)) outline_data new_generator) as [r0 g0] eqn:Hrun.
  apply assemble_spec in Hrun as (Hl & Hnot & Hok & Htotal). cbn [catalog] in *.
  destruct r0 as [b|e]; intros [= <- <-].
  - split; [assumption|]. split.
    + intros Hr. destruct (Hok Hr) as (title_slide & created & Hs & Hfirst & Hmade).
      split; [|now exists title_slide, created].
      rewrite Hs. cbn. f_equal. symmetry. eapply Forall2_length, Hmade.
    + assumption.
  - split; [assumption|]. split; [discriminate|].
    intros Hquiet Hne. specialize (Htotal Hquiet Hne). discriminate.
Qed.

Lemma assembly_replaces_template_slides_witness :
  let p := mkPresentation
             [Sample.title_slide; Sample.title_and_content; Sample.comparison]
             [new_slide Sample.comparison; new_slide Sample.comparison;
              new_slide Sample.title_slide; new_slide Sample.title_slide;
              new_slide Sample.title_and_content] in
  let outline_data := mkOutline (Some "Report")
                                [mkSlideSpec (Some "Intro") ["P1"; "P2"] "";
                                 mkSlideSpec (Some "X vs Y") ["a"; "b"] "notes"] in
  let run := create_presentation Sample.published (Some (Ok p)) outline_data new_generator in
  fst run = Ok true
  /\ slide_layouts (presentation (snd run)) = slide_layouts p
  /\ length (slides (presentation (snd run))) = 3.
Proof.
  cbv zeta. split; [reflexivity|].
  match goal with |- context [create_presentation ?e ?t ?o ?g0] =>
    destruct (assembly_replaces_template_slides e
                (mkPresentation
                   [Sample.title_slide; Sample.title_and_content; Sample.comparison]
                   [new_slide Sample.comparison; new_slide Sample.comparison;
                    new_slide Sample.title_slide; new_slide Sample.title_slide;
                    new_slide Sample.title_and_content])
                o (fst (create_presentation e t o g0)) (snd (create_presentation e t o g0)))
      as (Hl & Hok & _)
  end.
  - reflexivity.
  - split; [exact Hl|]. exact (proj1 (Hok eq_refl)).
Defined.

(** C5.  When the classification loop finds no content layout in a
    template with at least two layouts, the content layouts become the
    layouts at the indices 1 to min(3, number of layouts) - 1, in order:
    a non-empty set without layout 0.  With a template of exactly one
    layout: when the loop does not admit that layout the content layouts
    stay empty; [_get_next_content_layout] then returns the layout and
    changes nothing; the run succeeds whenever the library does not
    raise; and every slide of a successfully created document, the title
    slide and each content slide, is bound to that layout. *)
Theorem degraded_fallback env p :
  (Forall (fun layout => classify (probe_answer env layout) layout <> Content)
          (slide_layouts p) ->
   2 <= length (slide_layouts p) ->
   forall cl ci,
     let fallback :=
       content_layouts (snd (_identify_content_layouts env (mkGen p cl ci))) in
     fallback <> []
     /\ map fst fallback = seq 1 (Nat.min 3 (length (slide_layouts p)) - 1)
     /\ Forall (fun entry => slide_layouts p !! fst entry = Some (snd entry)) fallback)
  /\ (forall layout,
        slide_layouts p = [layout] ->
        (forall cl ci,
           classify (probe_answer env layout) layout <> Content ->
           content_layouts (snd (_identify_content_layouts env (mkGen p cl ci))) = [])
        /\ (forall g,
              slide_layouts (presentation g) = [layout] ->
              content_layouts g = [] ->
              _get_next_content_layout g = (Ok layout, g))
        /\ (forall outline_data,
              no_raise env ->
              fst (create_presentation env (Some (Ok p)) outline_data new_generator)
              = Ok true)
        /\ (forall outline_data g,
              create_presentation env (Some (Ok p)) outline_data new_generator
              = (Ok true, g) ->
              length (slides (presentation g)) = 1 + length (outline_slides outline_data)
              /\ Forall (fun slide => slide_layout slide = layout)
                        (slides (presentation g)))).
Proof.
  split.
  - intros Hnone Hlen cl ci fallback. subst fallback.
    rewrite identify_content_layouts_run. unfold identified. cbn.
    rewrite (content_entries_nil env (slide_layouts p) 0 Hnone).
    destruct (slide_layouts p) as [|l0 [|l1 [|l2 rest]]]; cbn in Hlen; try lia.
    + rewrite default_layouts_two. repeat split; [discriminate|repeat constructor].
    + rewrite default_layouts_three.
      replace (Nat.min 3 (length (l0 :: l1 :: l2 :: rest))) with 3 by (cbn; lia).
      repeat split; [discriminate|repeat constructor].
  - intros layout Hone. split; [|split; [|split]].
    + intros cl ci Hnot. rewrite identify_content_layouts_run. unfold identified. cbn.
      rewrite Hone. cbn [content_entries]. unfold content_entry.
      destruct (classify (probe_answer env layout) layout); try reflexivity.
      now elim Hnot.
    + intros g Hg Hcl. unfold _get_next_content_layout, bind, get.
      rewrite Hcl, Hg. reflexivity.
    + intros outline_data Hquiet. rewrite create_presentation_run.
      destruct (assemble env (Some (Ok p)) outline_data new_generator) as [r g0] eqn:Hrun.
      apply assemble_spec in Hrun as (_ & _ & _ & Htotal). cbn [catalog] in Htotal.
      rewrite Htotal; [reflexivity|assumption|]. rewrite Hone. discriminate.
    + intros outline_data g. rewrite create_presentation_run.
      destruct (assemble env (Some (Ok p)) outline_data new_generator) as [r g0] eqn:Hrun.
      apply assemble_spec in Hrun as (_ & _ & Hok & _). cbn [catalog] in Hok.
      destruct r as [b|e]; [|discriminate]. intros [= -> ->].
      destruct (Hok eq_refl) as (title_slide & created & -> & Hfirst & Hmade).
      rewrite Hone in Hfirst, Hmade. injection Hfirst as Hfirst.
      split.
      * cbn. f_equal. symmetry. eapply Forall2_length, Hmade.
      * constructor; [congruence|].
        clear -Hmade. induction Hmade as [|slide_data slide specs slides' Hm _ IH];
          constructor; [|assumption].
        destruct Hm as (layout' & [<-|[]] & ->). apply fill_slide_layout.
Qed.

Lemma degraded_fallback_witness :
  (let p := mkPresentation
              [Sample.title_slide; Sample.title_banner; Sample.title_only;
               Sample.title_banner] [] in
   Forall (fun layout => classify (probe_answer Sample.published layout) layout <> Content)
          (slide_layouts p)
   /\ 2 <= length (slide_layouts p)
   /\ map fst (content_layouts (snd (_identify_content_layouts Sample.published (mkGen p [] 0))))
      = [1; 2])
  /\ (let p := mkPresentation [Sample.title_slide] [] in
      let outline_data :=
        mkOutline None [mkSlideSpec (Some "Intro") ["P1"; "P2"] "";
                        mkSlideSpec (Some "Plan") ["P3"] ""] in
      let run := create_presentation Sample.published (Some (Ok p)) outline_data
                                     new_generator in
      slide_layouts p = [Sample.title_slide]
      /\ no_raise Sample.published
      /\ classify (probe_answer Sample.published Sample.title_slide) Sample.title_slide
         <> Content
      /\ content_layouts (snd run) = []
      /\ fst run = Ok true
      /\ length (slides (presentation (snd run))) = 3
      /\ Forall (fun slide => slide_layout slide = Sample.title_slide)
                (slides (presentation (snd run)))).
Proof.
  cbv zeta. split.
  - assert (Hnone : Forall (fun layout =>
                              classify (probe_answer Sample.published layout) layout <> Content)
                           [Sample.title_slide; Sample.title_banner; Sample.title_only;
                            Sample.title_banner])
      by (repeat constructor; discriminate).
    assert (Hlen : 2 <= length [Sample.title_slide; Sample.title_banner; Sample.title_only;
                               Sample.title_banner]) by (cbn; lia).
    split; [exact Hnone|]. split; [exact Hlen|].
    exact (proj1 (proj2 (proj1 (degraded_fallback Sample.published
                                  (mkPresentation
                                     [Sample.title_slide; Sample.title_banner;
                                      Sample.title_only; Sample.title_banner] []))
                               Hnone Hlen [] 0))).
  - assert (Hquiet : no_raise Sample.published) by (repeat split).
    destruct (proj2 (degraded_fallback Sample.published
                       (mkPresentation [Sample.title_slide] []))
                    Sample.title_slide eq_refl) as (_ & _ & Htotal & Hbound).
    split; [reflexivity|]. split; [exact Hquiet|]. split; [discriminate|].
    split; [reflexivity|]. split; [exact (Htotal _ Hquiet)|].
    match goal with |- context [create_presentation ?e ?t ?o ?g0] =>
      exact (Hbound o (snd (create_presentation e t o g0)) eq_refl)
    end.
Defined.

(** ** Two complete runs *)

(** Without a template the built-in layouts are used, no content layout is
    catalogued and every content slide takes layout 1. *)
Example run_without_template :
  create_presentation Sample.published None
    (mkOutline (Some "Report") [mkSlideSpec (Some "Intro") ["P1"; "P2"] ""])
    new_generator
  = (Ok true,
     mkGen (mkPresentation
              Sample.builtin
              [mkSlide Sample.title_slide
                 [mkShape (Some 0) "Title 1" (Some ["Report"]) None;
                  mkShape (Some 1) "Subtitle 2" (Some ["Generated on January 01, 2026"]) None]
                 None;
               mkSlide Sample.title_and_content
                 [mkShape (Some 0) "Title 1" (Some ["Intro"]) None;
                  mkShape (Some 1) "Content Placeholder 2" (Some ["P1"; "P2"]) None]
                 None])
           [] 0).
Proof. reflexivity. Qed.

(** * Further properties of the generator *)

(** ** Rotation *)

Lemma set_current_layout_index_same g :
  set_current_layout_index (current_layout_index g) g = g.
Proof. now destruct g. Qed.

Lemma next_content_layout_run g entry :
  content_layouts g !! current_layout_index g = Some entry ->
  _get_next_content_layout g
  = (Ok (snd entry),
     set_current_layout_index
       ((current_layout_index g + 1) mod length (content_layouts g)) g).
Proof.
  intros Hl. unfold _get_next_content_layout. unfold bind at 1. unfold get.
  destruct (content_layouts g) as [|e es] eqn:Hcl; [discriminate|].
  unfold bind. rewrite index_run, Hl. reflexivity.
Qed.

(** X1.  With the cursor inside a non-empty catalog, [n] successive calls
    of [_get_next_content_layout] return the content layouts in catalog
    order starting at the cursor and wrapping around, move the cursor by
    [n] modulo the size of the catalog and change nothing else; after as
    many calls as there are content layouts the generator is as it was. *)
Theorem rotation_visits_in_order n : forall g,
  current_layout_index g < length (content_layouts g) ->
  exists ls,
    rotations n g
    = (Ok ls,
       set_current_layout_index
         ((current_layout_index g + n) mod length (content_layouts g)) g)
    /\ length ls = n
    /\ (forall j, j < n ->
          ls !! j
          = snd <$> content_layouts g
                      !! ((current_layout_index g + j) mod length (content_layouts g)))
    /\ (n = length (content_layouts g) -> snd (rotations n g) = g).
Proof.
  induction n as [|n IH]; intros g Hc.
  - exists []. cbn [rotations]. unfold ret.
    rewrite Nat.add_0_r, Nat.mod_small, set_current_layout_index_same by assumption.
    split; [reflexivity|]. split; [reflexivity|]. split; [intros j Hj; lia|].
    intros Hk. rewrite <- Hk in Hc. lia.
  - destruct (lookup_lt_is_Some_2 _ _ Hc) as [entry Hentry].
    set (K := length (content_layouts g)) in *.
    set (c := current_layout_index g) in *.
    set (g1 := set_current_layout_index ((c + 1) mod K) g).
    assert (HK : K <> 0) by lia.
    destruct (IH g1) as (ls & Hrun & Hlen & Hnth & _).
    { cbn. fold K. now apply Nat.mod_upper_bound. }
    cbn [g1 set_current_layout_index current_layout_index content_layouts] in Hrun, Hnth.
    fold K in Hrun, Hnth.
    assert (Hstate : set_current_layout_index (((c + 1) mod K + n) mod K) g1
                     = set_current_layout_index ((c + S n) mod K) g).
    { unfold g1, set_current_layout_index. cbn. f_equal.
      rewrite Nat.Div0.add_mod_idemp_l. f_equal. lia. }
    assert (Hfull : rotations (S n) g
                    = (Ok (snd entry :: ls),
                       set_current_layout_index ((c + S n) mod K) g)).
    { cbn [rotations]. unfold bind at 1.
      rewrite (next_content_layout_run g entry Hentry). fold K c g1.
      unfold bind. rewrite Hrun. unfold ret. now rewrite Hstate. }
    rewrite Hfull.
    exists (snd entry :: ls).
    split; [reflexivity|]. split; [cbn; now rewrite Hlen|]. split.
    + intros [|j] Hj.
      * cbn [lookup list_lookup]. rewrite Nat.add_0_r, Nat.mod_small by assumption.
        fold c in Hentry. now rewrite Hentry.
      * cbn [lookup list_lookup]. rewrite Hnth by lia.
        rewrite Nat.Div0.add_mod_idemp_l. do 3 f_equal. lia.
    + intros Hk. cbn [snd]. rewrite Hk.
      replace ((c + K) mod K) with c.
      * apply set_current_layout_index_same.
      * rewrite <- Nat.Div0.add_mod_idemp_r, Nat.Div0.mod_same, Nat.add_0_r.
        symmetry. now apply Nat.mod_small.
Qed.

Lemma rotation_visits_in_order_witness :
  let g := mkGen (mkPresentation Sample.builtin [])
                 [(1, Sample.title_and_content); (3, Sample.two_content);
                  (4, Sample.comparison)] 1 in
  current_layout_index g < length (content_layouts g)
  /\ exists ls, rotations 3 g = (Ok ls, g)
                /\ ls !! 0 = Some Sample.two_content
                /\ ls !! 2 = Some Sample.title_and_content.
Proof.
  intros g. split; [cbn; lia|].
  destruct (rotation_visits_in_order 3 g) as (ls & Hrun & _ & Hnth & _); [cbn; lia|].
  exists ls. split; [exact Hrun|].
  split; [exact (Hnth 0 ltac:(lia))|exact (Hnth 2 ltac:(lia))].
Defined.

(** ** Selection inside a run *)

Lemma smart_layout_pure slide_data g : snd (_get_smart_layout slide_data g) = g.
Proof.
  destruct (content_layouts g) as [|entry entries] eqn:Hcl.
  - unfold _get_smart_layout, bind, get. rewrite Hcl.
    unfold _get_next_content_layout, bind, get. rewrite Hcl.
    destruct (1 <? _); rewrite index_run;
      match goal with |- context [?l !! ?i] => destruct (l !! i) end; reflexivity.
  - destruct (smart_layout_run slide_data g) as (pre & best & post & _ & _ & _ & ->);
      [rewrite Hcl; discriminate|reflexivity].
Qed.

Lemma create_content_slide_cursor env slide_data g :
  current_layout_index (snd (_create_content_slide env slide_data g))
  = current_layout_index g.
Proof.
  unfold _create_content_slide. unfold bind at 1.
  pose proof (smart_layout_pure slide_data g) as Hpure.
  destruct (_get_smart_layout slide_data g) as [[layout|e] g1]; cbn in Hpure; subst g1;
    [|reflexivity].
  unfold add_slide, bind, raise, modify, ret, store_last_slide.
  now destruct (add_slide_raises env layout).
Qed.

Lemma create_content_slides_cursor env specs : forall g,
  current_layout_index (snd (create_content_slides env specs g)) = current_layout_index g.
Proof.
  induction specs as [|slide_data rest IH]; intros g; [reflexivity|].
  cbn [create_content_slides]. unfold bind at 1.
  pose proof (create_content_slide_cursor env slide_data g) as Hone.
  destruct (_create_content_slide env slide_data g) as [[slide|e] g1]; cbn in Hone.
  - now rewrite IH.
  - exact Hone.
Qed.

Lemma open_presentation_cursor env template g :
  current_layout_index (snd (open_presentation env template g)) = current_layout_index g.
Proof.
  unfold open_presentation. destruct template as [[p|e]|]; [| |reflexivity].
  - unfold bind at 1. unfold lift, ret at 1.
    unfold bind at 1. unfold modify at 1.
    unfold bind at 1. rewrite identify_content_layouts_run.
    unfold clear_existing_slides.
    now destruct (clear_slides env _).
  - reflexivity.
Qed.

(** X2.  Choosing the layout of a content slide never changes the
    generator, and over a whole run of [create_presentation], whatever the
    template, the outline and the failures of the library, the rotation
    cursor ends where it started. *)
Theorem selection_never_rotates env template outline_data slide_data g :
  snd (_get_smart_layout slide_data g) = g
  /\ current_layout_index (snd (create_presentation env template outline_data g))
     = current_layout_index g.
Proof.
  split; [apply smart_layout_pure|].
  assert (Hassemble : current_layout_index (snd (assemble env template outline_data g))
                      = current_layout_index g).
  { unfold assemble. unfold bind at 1.
    pose proof (open_presentation_cursor env template g) as Hopen.
    destruct (open_presentation env template g) as [[[]|e] g0]; cbn in Hopen;
      [|exact Hopen].
    unfold bind at 1.
    destruct (create_title_slide env outline_data g0) as [r1 g1] eqn:Htitle.
    apply create_title_slide_spec in Htitle as (_ & _ & Hcursor & _).
    destruct r1 as [title_slide|e]; [|cbn; congruence].
    unfold bind at 1.
    pose proof (create_content_slides_cursor env (outline_slides outline_data) g1) as Hcontent.
    destruct (create_content_slides env (outline_slides outline_data) g1) as [[[]|e] g2];
      cbn in *; congruence. }
  unfold create_presentation, try_except.
  now destruct (assemble env template outline_data g) as [[b|e] g'].
Qed.

(** ** The content layouts after classification *)

Lemma content_entries_indexed env layouts : forall i,
  Forall (fun entry => i <= fst entry /\ layouts !! (fst entry - i) = Some (snd entry))
         (content_entries env i layouts)
  /\ StronglySorted lt (map fst (content_entries env i layouts)).
Proof.
  induction layouts as [|layout rest IH]; intros i; cbn [content_entries].
  { split; constructor. }
  destruct (IH (S i)) as [Hall Hsorted].
  assert (Hrest : Forall (fun entry => i <= fst entry
                                       /\ (layout :: rest) !! (fst entry - i) = Some (snd entry))
                         (content_entries env (S i) rest)).
  { eapply List.Forall_impl; [|exact Hall]. cbn beta. intros [j l] [Hle Hl]. cbn [fst snd] in *.
    split; [lia|]. replace (j - i) with (S (j - S i)) by lia. exact Hl. }
  unfold content_entry. destruct (classify _ layout); cbn [app]; try (now split).
  split.
  - constructor; [|exact Hrest]. cbn [fst snd]. split; [lia|]. now rewrite Nat.sub_diag.
  - cbn [map fst]. constructor; [exact Hsorted|].
    apply List.Forall_map. eapply List.Forall_impl; [|exact Hall].
    cbn beta. intros [j l] [Hle _]. cbn [fst] in *. lia.
Qed.

Lemma default_layouts_indexed layouts : indexed_in layouts (default_layouts layouts).
Proof.
  destruct layouts as [|l0 [|l1 [|l2 rest]]].
  - split; constructor.
  - split; constructor.
  - rewrite default_layouts_two. split; repeat constructor.
  - rewrite default_layouts_three. split; repeat constructor.
Qed.

(** X3.  After [_identify_content_layouts], whatever the generator held
    before, every content layout is recorded with its own position in the
    catalog of the presentation, and the entries are in strictly
    increasing order of position, so that no layout position occurs
    twice. *)
Theorem content_layouts_indexed env g :
  indexed_in (slide_layouts (presentation (snd (_identify_content_layouts env g))))
             (content_layouts (snd (_identify_content_layouts env g))).
Proof.
  rewrite identify_content_layouts_run.
  cbn [snd identified presentation content_layouts slide_layouts].
  destruct (content_entries env 0 (slide_layouts (presentation g))) as [|entry entries] eqn:He.
  - apply default_layouts_indexed.
  - rewrite <- He.
    destruct (content_entries_indexed env (slide_layouts (presentation g)) 0) as [Hall Hsorted].
    split; [|exact Hsorted].
    eapply List.Forall_impl; [|exact Hall]. cbn beta. intros [j l] [_ Hl].
    cbn [fst snd] in *. now rewrite Nat.sub_0_r in Hl.
Qed.

(** ** Layouts whose name says nothing *)

Lemma prefix_append a b : forall s,
  String.prefix (String.append a b) s = true -> String.prefix a s = true.
Proof.
  induction a as [|c a IH]; intros s; [now destruct s|].
  destruct s as [|d s]; cbn; [discriminate|].
  destruct (ascii_dec c d); [apply IH|discriminate].
Qed.

Lemma contains_append a b : forall s,
  PyStr.contains (String.append a b) s = true -> PyStr.contains a s = true.
Proof.
  induction s as [|d s IH].
  - cbn [PyStr.contains]. rewrite !orb_false_r. apply prefix_append.
  - cbn [PyStr.contains]. intros H. apply orb_true_iff in H as [H|H]; apply orb_true_iff.
    + left. revert H. apply prefix_append.
    + right. now apply IH.
Qed.

Lemma classify_without_title_word probe layout :
  PyStr.any_in title_keywords (PyStr.lower (layout_name layout)) = false ->
  classify probe layout = Content.
Proof.
  intros Hnone. unfold classify. rewrite Hnone. cbn [negb].
  assert (Htitle : PyStr.contains "title" (PyStr.lower (layout_name layout)) = false).
  { unfold PyStr.any_in, title_keywords in Hnone. cbn [existsb] in Hnone.
    now apply orb_false_iff in Hnone as [Ht _]. }
  assert (Honly : PyStr.any_in title_only_keywords (PyStr.lower (layout_name layout)) = false).
  { unfold PyStr.any_in, title_only_keywords. cbn [existsb].
    rewrite orb_false_r. apply orb_false_iff. split.
    - destruct (PyStr.contains "title slide" _) eqn:H; [|reflexivity].
      apply (contains_append "title" " slide") in H. congruence.
    - destruct (PyStr.contains "title only" _) eqn:H; [|reflexivity].
      apply (contains_append "title" " only") in H. congruence. }
  rewrite Honly.
  destruct (PyStr.any_in content_keywords _); [reflexivity|]. now destruct probe.
Qed.

Lemma content_entries_In env layouts : forall i k layout,
  layouts !! k = Some layout ->
  classify (probe_answer env layout) layout = Content ->
  In (i + k, layout) (content_entries env i layouts).
Proof.
  induction layouts as [|l rest IH]; intros i k layout Hl Hc; [discriminate|].
  cbn [content_entries]. apply in_or_app. destruct k as [|k]; cbn in Hl.
  - injection Hl as ->. left. unfold content_entry. rewrite Hc, Nat.add_0_r. now left.
  - right. replace (i + S k) with (S i + k) by lia. now apply IH.
Qed.

(** X4.  A layout of the template whose lower-cased name contains neither
    "title" nor "section" is always among the content layouts after
    [_identify_content_layouts], under its own position, whatever its
    placeholders and whatever the probe answered or left behind. *)
Theorem layout_without_title_word_is_content env g i layout :
  slide_layouts (presentation g) !! i = Some layout ->
  PyStr.any_in title_keywords (PyStr.lower (layout_name layout)) = false ->
  In (i, layout) (content_layouts (snd (_identify_content_layouts env g))).
Proof.
  intros Hl Hname. rewrite identify_content_layouts_run.
  cbn [snd identified content_layouts].
  pose proof (content_entries_In env _ 0 i layout Hl
                (classify_without_title_word _ layout Hname)) as Hin.
  cbn [Nat.add] in Hin.
  now destruct (content_entries env 0 (slide_layouts (presentation g))).
Qed.

Lemma layout_without_title_word_is_content_witness :
  PyStr.any_in title_keywords (PyStr.lower (layout_name Sample.quote)) = false
  /\ In (1, Sample.quote)
        (content_layouts
           (snd (_identify_content_layouts Sample.sticky
                   (Sample.generator_for
                      (mkPresentation [Sample.title_slide; Sample.quote] []))))).
Proof.
  split; [reflexivity|].
  apply (layout_without_title_word_is_content Sample.sticky
           (Sample.generator_for (mkPresentation [Sample.title_slide; Sample.quote] []))
           1 Sample.quote); reflexivity.
Defined.

(** ** Runs without a template *)

Lemma smart_layout_no_catalog slide_data g :
  content_layouts g = [] ->
  fst (_get_smart_layout slide_data g)
  = match standard_layout (slide_layouts (presentation g)) with
    | Some layout => Ok layout
    | None => Raise IndexError
    end.
Proof.
  intros Hcl. unfold _get_smart_layout, bind, get. rewrite Hcl.
  unfold _get_next_content_layout, bind, get. rewrite Hcl. unfold standard_layout.
  destruct (1 <? _); rewrite index_run;
    match goal with |- context [?l !! ?i] => destruct (l !! i) end; reflexivity.
Qed.

Lemma create_content_slide_layout env slide_data g slide g' :
  _create_content_slide env slide_data g = (Ok slide, g') ->
  fst (_get_smart_layout slide_data g) = Ok (slide_layout slide).
Proof.
  unfold _create_content_slide. unfold bind at 1.
  destruct (_get_smart_layout slide_data g) as [[layout|e] g1]; [|discriminate].
  unfold add_slide, bind, raise, modify, ret, store_last_slide.
  destruct (add_slide_raises env layout); [discriminate|].
  intros [= <- _]. cbn [fst]. now rewrite fill_slide_layout.
Qed.

Lemma create_content_slides_standard env specs : forall g g',
  content_layouts g = [] ->
  create_content_slides env specs g = (Ok tt, g') ->
  content_layouts g' = []
  /\ exists created,
       slides (presentation g') = slides (presentation g) ++ created
       /\ length created = length specs
       /\ Forall (fun slide => standard_layout (slide_layouts (presentation g))
                               = Some (slide_layout slide)) created.
Proof.
  induction specs as [|slide_data rest IH]; intros g g' Hcl; cbn [create_content_slides].
  - intros [= <-]. split; [assumption|]. exists []. rewrite app_nil_r. repeat split. constructor.
  - unfold bind at 1.
    destruct (_create_content_slide env slide_data g) as [[slide|e] g1] eqn:Hone;
      [|discriminate].
    intros Hrest.
    pose proof (create_content_slide_layout _ _ _ _ _ Hone) as Hlayout.
    rewrite (smart_layout_no_catalog slide_data g Hcl) in Hlayout.
    apply create_content_slide_spec in Hone as (Hl1 & Hcl1 & Hs1 & _).
    2:{ unfold layouts_known. rewrite Hcl. constructor. }
    apply IH in Hrest as (Hcl' & created & Hs & Hlen & Hall); [|congruence].
    split; [assumption|]. exists (slide :: created).
    rewrite Hs, Hs1, <- app_assoc. repeat split.
    + cbn. now rewrite Hlen.
    + constructor; [|now rewrite <- Hl1].
      revert Hlayout.
      destruct (standard_layout (slide_layouts (presentation g))); congruence.
Qed.

(** The [try] block without a template, up to the content slides. *)
Lemma assemble_without_template env outline_data g :
  assemble env None outline_data new_generator = (Ok true, g) ->
  exists title_slide g2,
    slide_layouts (presentation g2) = builtin_layouts env
    /\ content_layouts g2 = []
    /\ slides (presentation g2) = [title_slide]
    /\ create_content_slides env (outline_slides outline_data) g2 = (Ok tt, g).
Proof.
  unfold assemble. unfold bind at 1. unfold open_presentation, modify.
  set (g1 := set_presentation (mkPresentation (builtin_layouts env) []) new_generator).
  unfold bind at 1.
  destruct (create_title_slide env outline_data g1) as [[title_slide|e] g2] eqn:Htitle;
    [|discriminate].
  apply create_title_slide_spec in Htitle as (Hl2 & Hcl2 & _ & [Hs2 _] & _).
  unfold bind at 1.
  destruct (create_content_slides env (outline_slides outline_data) g2) as [[[]|e] g3]
    eqn:Hcontent; [|discriminate].
  unfold ret. intros [= <-]. now exists title_slide, g2.
Qed.

(** X5.  Without a template no layout is classified: after a successful
    run the content layouts are still empty, the document is the title
    slide followed by one slide per entry of the outline, and every one of
    these content slides is bound to the same layout, layout 1 of the
    built-in catalog (layout 0 when the catalog has one layout only),
    whatever its title and points. *)
Theorem no_template_uses_standard_layout env outline_data g :
  create_presentation env None outline_data new_generator = (Ok true, g) ->
  content_layouts g = []
  /\ exists title_slide created,
       slides (presentation g) = title_slide :: created
       /\ length created = length (outline_slides outline_data)
       /\ Forall (fun slide => standard_layout (builtin_layouts env)
                               = Some (slide_layout slide)) created.
Proof.
  rewrite create_presentation_run.
  destruct (assemble env None outline_data new_generator) as [[b|e] g0] eqn:Hrun;
    [|discriminate].
  intros [= -> ->].
  apply assemble_without_template in Hrun as (title_slide & g2 & Hl & Hcl & Hs & Hcontent).
  apply create_content_slides_standard in Hcontent as (Hcl' & created & Hs' & Hlen & Hall);
    [|assumption].
  split; [assumption|]. exists title_slide, created.
  rewrite Hs', Hs. repeat split; [assumption|]. now rewrite Hl in Hall.
Qed.

Lemma no_template_uses_standard_layout_witness :
  let outline_data :=
    mkOutline (Some "Report")
              [mkSlideSpec (Some "Cats vs Dogs") ["A"; "B"] "";
               mkSlideSpec (Some "Conclusion") ["C"] ""] in
  let g := snd (create_presentation Sample.published None outline_data new_generator) in
  create_presentation Sample.published None outline_data new_generator = (Ok true, g)
  /\ standard_layout (builtin_layouts Sample.published) = Some Sample.title_and_content
  /\ content_layouts g = [].
Proof.
  intros outline_data g. split; [reflexivity|]. split; [reflexivity|].
  exact (proj1 (no_template_uses_standard_layout Sample.published outline_data g eq_refl)).
Defined.

(** ** When a run succeeds *)

(** X6.  With a library whose slide creation, slide removal and text
    writes do not raise, [create_presentation] returns [True] exactly when
    the catalog it works with has at least one layout: the layouts of the
    loaded template, or the built-in ones without a template.  A template
    that cannot be loaded, or that has no layout, gives [False]. *)
Theorem success_iff_catalog env template outline_data :
  no_raise env ->
  fst (create_presentation env template outline_data new_generator)
  = Ok (match catalog env template with [] => false | _ :: _ => true end).
Proof.
  intros Hquiet. rewrite create_presentation_run.
  destruct (assemble env template outline_data new_generator) as [r g] eqn:Hrun.
  apply assemble_spec in Hrun as (_ & Hnot_false & Hok & Htotal).
  destruct (catalog env template) as [|layout layouts] eqn:Hcat.
  - destruct r as [[|]|e]; cbn; try reflexivity.
    destruct (Hok eq_refl) as (title_slide & created & _ & Hfirst & _). discriminate.
  - rewrite Htotal; [reflexivity|assumption|discriminate].
Qed.

Lemma success_iff_catalog_witness :
  no_raise Sample.published
  /\ fst (create_presentation Sample.published (Some (Raise LibraryError))
            (mkOutline (Some "Report") []) new_generator) = Ok false
  /\ fst (create_presentation Sample.published
            (Some (Ok (mkPresentation [Sample.blank] [new_slide Sample.blank])))
            (mkOutline (Some "Report") []) new_generator) = Ok true.
Proof.
  assert (Hquiet : no_raise Sample.published) by (repeat split).
  split; [exact Hquiet|]. split.
  - exact (success_iff_catalog Sample.published (Some (Raise LibraryError))
             (mkOutline (Some "Report") []) Hquiet).
  - exact (success_iff_catalog Sample.published
             (Some (Ok (mkPresentation [Sample.blank] [new_slide Sample.blank])))
             (mkOutline (Some "Report") []) Hquiet).
Defined.

(** ** What filling a slide keeps *)

Lemma same_identity_with_text_frame ps shape : same_identity shape (with_text_frame ps shape).
Proof. now repeat split. Qed.

Lemma retitled_same_identity t before after :
  retitled t before after -> same_identity before after.
Proof.
  intros [->|[_ ->]]; [now repeat split|apply same_identity_with_text_frame].
Qed.

Lemma Forall2_same_identity_refl shs : Forall2 same_identity shs shs.
Proof. induction shs; constructor; [now repeat split|assumption]. Qed.

Lemma Forall2_same_identity_insert shs k shape ps :
  shs !! k = Some shape ->
  Forall2 same_identity shs (<[k := with_text_frame ps shape]> shs).
Proof.
  intros Hl. rewrite <- (list_insert_id shs k shape Hl) at 1.
  apply Forall2_insert; [apply Forall2_same_identity_refl|].
  apply same_identity_with_text_frame.
Qed.

Lemma same_identity_trans a b c :
  same_identity a b -> same_identity b c -> same_identity a c.
Proof. intros (? & ? & ?) (? & ? & ?). repeat split; congruence. Qed.

(** X7.  Filling a content slide removes no shape and reorders none: the
    shapes the layout gave the slide are all still there, in their order,
    each with its placeholder index, name and box, and the slide keeps its
    layout.  The only shape ever added is the text box of "Method 4", at
    the end, not a placeholder, with the name the library gave it and the
    box of "Method 4": it holds the bullet-prefixed points when that
    method took the body, and it can be left on the slide, for a slide
    with points, when no region took the body. *)
Theorem fill_slide_keeps_shapes env slide_data slide :
  let titled :=
    mkSlide (slide_layout slide) (fst (set_title env slide_data (shapes slide)))
            (notes slide) in
  let result := fill_slide env slide_data slide in
  slide_layout (fst result) = slide_layout slide
  /\ exists kept extra,
       shapes (fst result) = kept ++ extra
       /\ Forall2 same_identity (shapes slide) kept
       /\ match body_region (snd result) with
          | ViaNewTextBox =>
              extra = [with_text_frame (written bullet (points slide_data))
                                       (new_textbox env titled)]
          | NoRegion =>
              extra = []
              \/ (points slide_data <> []
                  /\ exists ps, extra = [with_text_frame ps (new_textbox env titled)])
          | ViaPlaceholder _ _ | ViaClearedTextFrame _ | ViaAppendedTextFrame _ =>
              extra = []
          end.
Proof.
  intros titled result. subst result. split; [apply fill_slide_layout|].
  rewrite fill_slide_unfold. cbv zeta. fold titled. cbn [fst snd body_region].
  rewrite add_notes_shapes. cbn [shapes].
  assert (Htitled : Forall2 same_identity (shapes slide) (shapes titled)).
  { eapply Forall2_impl; [apply set_title_retitled|]. apply retitled_same_identity. }
  destruct (points slide_data) as [|point rest] eqn:Hp.
  { exists (shapes titled), []. cbn [fst snd]. rewrite app_nil_r.
    split; [reflexivity|]. split; [assumption|now left]. }
  destruct (add_content env slide_data titled) as [[shs' added] region] eqn:Hadd.
  apply add_content_regions in Hadd; [|rewrite Hp; discriminate].
  rewrite Hp in Hadd. cbn [fst snd] in *.
  destruct region as [strategy k|k|k| |].
  - destruct Hadd as (_ & _ & shape & Hl & _ & ->).
    eexists _, []. rewrite app_nil_r. split; [reflexivity|]. split; [|reflexivity].
    eapply Forall2_trans; [apply same_identity_trans|exact Htitled|].
    now apply Forall2_same_identity_insert.
  - destruct Hadd as (_ & shape & ps & Hl & _ & _ & ->).
    eexists _, []. rewrite app_nil_r. split; [reflexivity|]. split; [|reflexivity].
    eapply Forall2_trans; [apply same_identity_trans|exact Htitled|].
    now apply Forall2_same_identity_insert.
  - destruct Hadd as (_ & shape & ps & Hl & _ & _ & ->).
    eexists _, []. rewrite app_nil_r. split; [reflexivity|]. split; [|reflexivity].
    eapply Forall2_trans; [apply same_identity_trans|exact Htitled|].
    now apply Forall2_same_identity_insert.
  - destruct Hadd as (_ & _ & _ & _ & ->).
    eexists _, _. split; [reflexivity|]. now split.
  - destruct Hadd as (_ & [[-> _]|(-> & _ & _ & Hwrite)]).
    + eexists _, []. rewrite app_nil_r. split; [reflexivity|]. split; [assumption|now left].
    + eexists _, _. split; [reflexivity|]. split; [assumption|]. right.
      split; [discriminate|]. now exists [EmptyString].
Qed.

(** A slide of a layout with a title placeholder only, written by a
    library in which a write into a shape that is not a placeholder
    raises: the text box is created and stays, as created, and the body
    is lost. *)
Example textbox_left_when_write_raises :
  let env :=
    mkEnv (fun _ => false) (fun _ => false) (fun shape => negb (is_placeholder shape)) false
          (fun _ => false) numbered_textbox (fun _ => false) Sample.builtin
          "January 01, 2026" in
  let result := fill_slide env (mkSlideSpec (Some "Motto") ["A"] "") (new_slide Sample.quote) in
  body_region (snd result) = NoRegion
  /\ content_added (snd result) = false
  /\ shapes (fst result)
     = [mkShape (Some 0) "Title 1" (Some ["Motto"]) None;
        mkShape None "TextBox 2" (Some [EmptyString])
                (Some (Inches 1, Inches 2, Inches 8, Inches 4))].
Proof. repeat split. Qed.

(** ** The title under the body *)

Lemma add_textbox_keeps env slide_data slide k shape :
  shapes slide !! k = Some shape ->
  fst (fst (match add_textbox_with_points env (points slide_data) slide with
            | (shs', true) => (shs', true, ViaNewTextBox)
            | (shs', false) => (shs', false, NoRegion)
            end)) !! k = Some shape.
Proof.
  intros Hl. unfold add_textbox_with_points.
  assert (Hmore : forall extra, (shapes slide ++ extra) !! k = Some shape).
  { intros extra. rewrite lookup_app_l; [assumption|]. eapply lookup_lt_Some, Hl. }
  destruct (textbox_import_raises env); [assumption|].
  destruct (add_textbox_raises env slide); [assumption|].
  cbv zeta. destruct (text_frame_raises env _); cbn [fst TextFrame.clear]; apply Hmore.
Qed.

(** What the body chain never writes to: a shape that no strategy can
    pick as content placeholder and that "Method 3" skips. *)
Lemma add_content_keeps env slide_data slide k shape :
  shapes slide !! k = Some shape ->
  idx_positive shape = false ->
  (forall ps, text_frame shape = Some ps ->
              PyStr.strip (TextFrame.text ps) = PyStr.strip (title_or_empty slide_data)) ->
  points slide_data <> [] ->
  fst (fst (add_content env slide_data slide)) !! k = Some shape.
Proof.
  intros Hl Hidx Htext Hpts. unfold add_content.
  destruct (find_content_placeholder (shapes slide)) as [[strategy [j found]]|] eqn:Hfind.
  - apply find_content_placeholder_Some in Hfind as (_ & Hj & Hpos & _).
    assert (Hne : j <> k) by (intros ->; congruence).
    destruct (write_placeholder env (points slide_data) found) as [shape'|].
    { cbn [fst]. now rewrite list_lookup_insert_ne. }
    destruct (alternative_text_frame env _ (points slide_data) (shapes slide))
      as [[[shs3 pos] cleared]|] eqn:Halt.
    + apply alternative_text_frame_Some in Halt as (other & ps & Hpos' & Htf & Hdiff & Hw);
        [|assumption].
      assert (Hne' : pos <> k).
      { intros ->. apply Hdiff, Htext. congruence. }
      cbn [fst].
      destruct cleared; destruct Hw as [_ ->]; now rewrite list_lookup_insert_ne.
    + now apply add_textbox_keeps.
  - destruct (alternative_text_frame env _ (points slide_data) (shapes slide))
      as [[[shs3 pos] cleared]|] eqn:Halt.
    + apply alternative_text_frame_Some in Halt as (other & ps & Hpos' & Htf & Hdiff & Hw);
        [|assumption].
      assert (Hne' : pos <> k).
      { intros ->. apply Hdiff, Htext. congruence. }
      cbn [fst].
      destruct cleared; destruct Hw as [_ ->]; now rewrite list_lookup_insert_ne.
    + now apply add_textbox_keeps.
Qed.

(** X8.  When the outline entry has a title without escaped character
    (a control character other than tab, line feed and vertical tab) and
    the slide has a title placeholder (a placeholder with [idx == 0])
    with a text frame whose write does not raise, the title is reported
    as set and, after the body has been written by whichever method, the
    first title placeholder still reads back as exactly the title: no
    body method writes into it. *)
Theorem title_survives_body env slide_data slide t k shape :
  title slide_data = Some t ->
  TextFrame.unescaped t = true ->
  find_first is_title_placeholder (shapes slide) = Some (k, shape) ->
  has_text_frame shape = true ->
  text_frame_raises env shape = false ->
  title_set (snd (fill_slide env slide_data slide)) = true
  /\ exists ps,
       shapes (fst (fill_slide env slide_data slide)) !! k ≫= text_frame = Some ps
       /\ TextFrame.text ps = t.
Proof.
  intros Ht Hplain Hfind Hframe Hquiet.
  rewrite fill_slide_unfold. cbv zeta. cbn [fst snd title_set].
  rewrite add_notes_shapes. cbn [shapes].
  assert (Htitled : set_title env slide_data (shapes slide)
                    = (<[k := with_text_frame (TextFrame.set_text t) shape]> (shapes slide),
                       true)).
  { unfold set_title, title_method1, title_or_default, write_text.
    now rewrite Ht, Hfind, Hframe, Hquiet. }
  rewrite Htitled. cbn [fst snd]. split; [reflexivity|].
  exists (TextFrame.set_text t). split; [|now apply text_set_text].
  apply find_first_Some in Hfind as [Hl Htitle].
  assert (Hk : <[k := with_text_frame (TextFrame.set_text t) shape]> (shapes slide) !! k
               = Some (with_text_frame (TextFrame.set_text t) shape)).
  { apply list_lookup_insert_eq. eapply lookup_lt_Some, Hl. }
  destruct (points slide_data) as [|point rest] eqn:Hp.
  { cbn [fst]. now rewrite Hk. }
  rewrite (add_content_keeps env slide_data _ k
             (with_text_frame (TextFrame.set_text t) shape)).
  - reflexivity.
  - exact Hk.
  - unfold idx_positive, is_title_placeholder, ph_idx_is in *. cbn [with_text_frame ph_idx].
    destruct (ph_idx shape) as [i|]; [|reflexivity].
    apply Nat.eqb_eq in Htitle as <-. reflexivity.
  - cbn [with_text_frame text_frame]. intros ps [= <-].
    rewrite text_set_text by assumption. unfold title_or_empty. now rewrite Ht.
  - rewrite Hp. discriminate.
Qed.

Lemma title_survives_body_witness :
  let slide_data := mkSlideSpec (Some "Motto") ["A"; "B"] "" in
  title slide_data = Some "Motto"
  /\ TextFrame.unescaped "Motto" = true
  /\ find_first is_title_placeholder (shapes (new_slide Sample.quote))
     = Some (0, Sample.placeholder 0 "Title 1")
  /\ exists ps,
       shapes (fst (fill_slide Sample.calm slide_data (new_slide Sample.quote))) !! 0
         ≫= text_frame = Some ps
       /\ TextFrame.text ps = "Motto".
Proof.
  intros slide_data. split; [reflexivity|]. split; [reflexivity|]. split; [reflexivity|].
  exact (proj2 (title_survives_body Sample.calm slide_data (new_slide Sample.quote)
                  "Motto" 0 (Sample.placeholder 0 "Title 1")
                  eq_refl eq_refl eq_refl eq_refl eq_refl)).
Defined.

(** A title with a carriage return is stored with the escape of that
    character, so the title guard of "Method 3" lets the title
    placeholder through and the point is appended into it. *)
Example escaped_title_takes_the_body :
  let cr := String (ascii_of_nat 13) EmptyString in
  let slide_data := mkSlideSpec (Some (String.append "Goals" cr)) ["x"] "" in
  let result := fill_slide Sample.published slide_data (new_slide Sample.quote) in
  body_region (snd result) = ViaAppendedTextFrame 0
  /\ shapes (fst result) !! 0 ≫= text_frame = Some ["Goals_x000D_"; "• x"].
Proof. repeat split. Qed.

(** ** The body, for any points *)

Lemma body_resolved_when_textbox_succeeds_witness :
  let slide_data := mkSlideSpec (Some "Photo") ["A"; "B"] "" in
  points slide_data <> []
  /\ textbox_import_raises Sample.calm = false
  /\ content_added (snd (fill_slide Sample.calm slide_data (new_slide Sample.blank))) = true
  /\ logged (snd (fill_slide Sample.calm slide_data (new_slide Sample.blank)))
     = ContentAddedInfo.
Proof.
  intros slide_data. split; [discriminate|]. split; [reflexivity|].
  destruct (body_resolved_when_textbox_succeeds Sample.calm slide_data
              (new_slide Sample.blank))
    as (Hadded & Hlogged & _); [discriminate|reflexivity|reflexivity|reflexivity|].
  split; [exact Hadded|exact Hlogged].
Defined.




(** * The outline generator *)

(** ** Slices and strips *)

Lemma length_append a b :
  String.length (String.append a b) = String.length a + String.length b.
Proof. induction a as [|c a IH]; cbn; [reflexivity|]. now rewrite IH. Qed.

Lemma append_assoc a b c :
  String.append (String.append a b) c = String.append a (String.append b c).
Proof. induction a as [|d a IH]; cbn; [reflexivity|]. now rewrite IH. Qed.

Lemma prefix_append_self p s : String.prefix p (String.append p s) = true.
Proof.
  induction p as [|c p IH]; cbn; [now destruct s|].
  destruct (ascii_dec c c); [assumption|congruence].
Qed.

Lemma substring_whole s : substring 0 (String.length s) s = s.
Proof. induction s as [|c s IH]; cbn; [reflexivity|]. now rewrite IH. Qed.

Lemma substring_skip p : forall s m,
  substring (String.length p) m (String.append p s) = substring 0 m s.
Proof. induction p as [|c p IH]; intros s m; cbn; [reflexivity|apply IH]. Qed.

Lemma substring_take a : forall b,
  substring 0 (String.length a) (String.append a b) = a.
Proof. induction a as [|c a IH]; intros b; cbn; [now destruct b|]. now rewrite IH. Qed.

Lemma slice_from_append p s :
  PyStr.slice_from (String.length p) (String.append p s) = s.
Proof.
  unfold PyStr.slice_from. rewrite length_append.
  replace (String.length p + String.length s - String.length p) with (String.length s) by lia.
  now rewrite substring_skip, substring_whole.
Qed.

Lemma slice_to_minus_append s q :
  PyStr.slice_to_minus (String.length q) (String.append s q) = s.
Proof.
  unfold PyStr.slice_to_minus. rewrite length_append.
  replace (String.length s + String.length q - String.length q) with (String.length s) by lia.
  apply substring_take.
Qed.

Lemma endswith_append s q : PyStr.endswith q (String.append s q) = true.
Proof.
  unfold PyStr.endswith. rewrite length_append. apply andb_true_iff. split.
  - apply Nat.leb_le. lia.
  - replace (String.length s + String.length q - String.length q) with (String.length s)
      by lia.
    rewrite substring_skip, substring_whole. apply String.eqb_refl.
Qed.

Lemma lstrip_idempotent s : PyStr.lstrip (PyStr.lstrip s) = PyStr.lstrip s.
Proof.
  induction s as [|c s IH]; [reflexivity|]. cbn [PyStr.lstrip].
  destruct (PyStr.is_space c) eqn:Hc; [assumption|]. cbn [PyStr.lstrip]. now rewrite Hc.
Qed.

Lemma rstrip_nil_lstrip s : PyStr.rstrip s = EmptyString -> PyStr.lstrip s = EmptyString.
Proof.
  induction s as [|c s IH]; [reflexivity|]. cbn [PyStr.rstrip PyStr.lstrip].
  destruct (PyStr.rstrip s); [|discriminate].
  destruct (PyStr.is_space c); [intros _; now apply IH|discriminate].
Qed.

Lemma strip_nil_lstrip s : PyStr.strip s = EmptyString -> PyStr.lstrip s = EmptyString.
Proof.
  unfold PyStr.strip. intros H. apply rstrip_nil_lstrip in H.
  now rewrite lstrip_idempotent in H.
Qed.

Lemma lstrip_nil_rstrip s : PyStr.lstrip s = EmptyString -> PyStr.rstrip s = EmptyString.
Proof.
  induction s as [|c s IH]; [reflexivity|]. cbn [PyStr.rstrip PyStr.lstrip].
  destruct (PyStr.is_space c); [|discriminate]. intros H. now rewrite IH.
Qed.

Lemma lstrip_blank_append blank s :
  PyStr.lstrip blank = EmptyString ->
  PyStr.lstrip (String.append blank s) = PyStr.lstrip s.
Proof.
  induction blank as [|c blank IH]; [reflexivity|]. cbn [PyStr.lstrip String.append].
  destruct (PyStr.is_space c); [exact IH|discriminate].
Qed.

Lemma rstrip_append_blank s blank :
  PyStr.rstrip blank = EmptyString ->
  PyStr.rstrip (String.append s blank) = PyStr.rstrip s.
Proof.
  intros H. induction s as [|c s IH]; cbn [PyStr.rstrip String.append]; [assumption|].
  now rewrite IH.
Qed.

Lemma rstrip_nonspace_end s c :
  PyStr.is_space c = false ->
  PyStr.rstrip (String.append s (String c EmptyString)) = String.append s (String c EmptyString).
Proof.
  intros Hc. induction s as [|d s IH]; cbn [PyStr.rstrip String.append].
  - now rewrite Hc.
  - rewrite IH. now destruct s.
Qed.

(** ** The answer of the provider *)

(** X11.  An answer that consists of a fenced block, the opening fence
    tagged json, with only white space before and after it, is handed to
    [json.loads] as exactly the text between the fences, whatever that
    text is. *)
Theorem fenced_answer_is_unwrapped before body after :
  PyStr.strip before = EmptyString ->
  PyStr.strip after = EmptyString ->
  LLM.clean_content
    (String.append before
       (String.append "```json" (String.append body (String.append "```" after))))
  = body.
Proof.
  intros Hbefore Hafter.
  apply strip_nil_lstrip in Hbefore. apply strip_nil_lstrip in Hafter.
  set (fenced := String.append "```json" (String.append body "```")).
  assert (Hshape : String.append "```json" (String.append body (String.append "```" after))
                   = String.append fenced after).
  { unfold fenced. now rewrite !append_assoc. }
  assert (Hend : fenced = String.append (String.append "```json" (String.append body "``"))
                                        (String "`" EmptyString)).
  { unfold fenced. now rewrite !append_assoc. }
  assert (Hstrip : PyStr.strip (String.append before (String.append fenced after)) = fenced).
  { unfold PyStr.strip. rewrite lstrip_blank_append by assumption.
    replace (PyStr.lstrip (String.append fenced after)) with (String.append fenced after)
      by reflexivity.
    rewrite rstrip_append_blank by now apply lstrip_nil_rstrip.
    rewrite Hend. now apply rstrip_nonspace_end. }
  unfold LLM.clean_content. rewrite Hshape, Hstrip.
  unfold fenced, PyStr.startswith. rewrite prefix_append_self.
  change 7 with (String.length "```json"). rewrite slice_from_append.
  rewrite endswith_append.
  change 3 with (String.length "```"). apply slice_to_minus_append.
Qed.

Lemma fenced_answer_is_unwrapped_witness :
  PyStr.strip " " = EmptyString
  /\ LLM.clean_content
       (String.append " "
          (String.append "```json" (String.append "{}" (String.append "```" " "))))
     = "{}".
Proof.
  split; [reflexivity|].
  exact (fenced_answer_is_unwrapped " " "{}" " " eq_refl eq_refl).
Defined.

(** * The route [/generate] *)

Lemma validate_Continue inputs inputs' :
  Route.validate inputs = Route.Continue inputs' ->
  inputs' = inputs
  /\ Route.text inputs <> EmptyString
  /\ In (Route.provider inputs) Route.providers
  /\ Route.api_key inputs <> EmptyString.
Proof.
  unfold Route.validate.
  destruct (String.eqb_spec (Route.text inputs) EmptyString) as [|Htext]; [discriminate|].
  destruct (String.eqb (Route.provider inputs) EmptyString); [discriminate|].
  cbn [orb].
  destruct (existsb (String.eqb (Route.provider inputs)) Route.providers) eqn:Hin;
    [|discriminate].
  cbn [negb].
  destruct (String.eqb_spec (Route.api_key inputs) EmptyString) as [|Hkey]; [discriminate|].
  intros [= <-]. repeat split; try assumption.
  apply existsb_exists in Hin as (p & Hp & Heq). apply String.eqb_eq in Heq. now subst.
Qed.

(** X12.  Inputs that pass the validation of the route have a non-empty
    text, a non-empty API key and one of the three provider names; the
    orchestrator built from them keeps that provider name, and its
    provider dispatch never ends in the [ValueError] of the unsupported
    provider, whatever the services answer. *)
Theorem validated_provider_is_dispatched inputs inputs' svc prompt :
  Route.validate inputs = Route.Continue inputs' ->
  inputs' = inputs
  /\ Route.text inputs <> EmptyString
  /\ Route.api_key inputs <> EmptyString
  /\ In (Route.provider inputs) ["openai"; "anthropic"; "groq"]
  /\ LLM.provider (LLM.init (Route.provider inputs) (Route.api_key inputs))
     = Route.provider inputs
  /\ forall message,
       LLM.completion svc (LLM.init (Route.provider inputs) (Route.api_key inputs)) prompt
       <> LLM.Threw (LLM.ValueError message).
Proof.
  intros Hvalid. apply validate_Continue in Hvalid as (-> & Htext & Hin & Hkey).
  repeat split; try assumption.
  - destruct Hin as [<-|[<-|[<-|[]]]]; reflexivity.
  - intros message. unfold LLM.completion, LLM.init. cbn [LLM.provider LLM.api_key].
    destruct Hin as [<-|[<-|[<-|[]]]]; cbn [PyStr.lower]; cbn.
    + destruct (openai_chat svc _ _ _); discriminate.
    + destruct (anthropic_messages svc _ _ _); discriminate.
    + destruct (groq_chat svc _ _ _); discriminate.
Qed.

Lemma validated_provider_is_dispatched_witness :
  let inputs := Route.mkInputs "Quarterly results" "groq" "key" "" false None in
  Route.validate inputs = Route.Continue inputs
  /\ LLM.provider (LLM.init (Route.provider inputs) (Route.api_key inputs)) = "groq".
Proof.
  intros inputs. split; [reflexivity|].
  destruct (validated_provider_is_dispatched inputs inputs
              (mkServices (fun _ _ _ => None) (fun _ _ _ => None) (fun _ _ _ => None)
                          (fun _ => None))
              EmptyString eq_refl) as (_ & _ & _ & _ & Hprovider & _).
  exact Hprovider.
Defined.

(** X13.  A failure on the side of the language model never fails the
    request.  When the request is read and validated and the [try] block
    of the orchestrator raises (the provider call fails or its answer
    does not parse), then, with a library that does not raise, a catalog
    with at least one layout and a deck that can be stored and sent, the
    response is the attachment: a deck with the layouts of the catalog,
    the title slide, and one content slide for each of the three fallback
    slides, made from a layout of the catalog. *)
Theorem llm_failure_still_gives_a_deck host env request inputs e :
  Route.read_request host request = Route.Continue inputs ->
  Route.validate inputs = Route.Continue inputs ->
  LLM.requested_outline (Route.services host)
    (LLM.init (Route.provider inputs) (Route.api_key inputs))
    (Route.text inputs) (Route.guidance inputs) (Route.include_notes inputs)
  = LLM.Threw e ->
  no_raise env ->
  catalog env (Route.template inputs) <> [] ->
  (forall deck, Route.send_deck_raises host deck = false) ->
  exists title_slide created,
    Route.generate_presentation host env request
    = Route.Attachment
        (String.concat "" ["presentation_"; Route.timestamp host; ".pptx"])
        (mkPresentation (catalog env (Route.template inputs)) (title_slide :: created))
    /\ Forall2 (made_from env (catalog env (Route.template inputs)))
               (LLM.fallback_slides (Route.include_notes inputs)) created.
Proof.
  intros Hread Hvalid Hllm Hquiet Hcatalog Hsend.
  unfold Route.generate_presentation. rewrite Hread, Hvalid.
  unfold Route.respond, LLM.generate_outline_with_notes. rewrite Hllm.
  rewrite create_presentation_run.
  destruct (assemble env (Route.template inputs)
              (LLM.fallback_outline (Route.include_notes inputs)) new_generator)
    as [r g] eqn:Hrun.
  apply assemble_spec in Hrun as (Hl & _ & Hok & Htotal).
  rewrite (Htotal Hquiet Hcatalog) in *.
  destruct (Hok eq_refl) as (title_slide & created & Hs & _ & Hmade).
  exists title_slide, created. split; [|exact Hmade].
  cbn [negb]. rewrite Hsend. f_equal.
  destruct (presentation g) as [layouts ss]. cbn in Hl, Hs. now subst.
Qed.

Lemma llm_failure_still_gives_a_deck_witness :
  let host :=
    Route.mkHost (mkServices (fun _ _ _ => None) (fun _ _ _ => None) (fun _ _ _ => None)
                             (fun _ => None))
                 (fun _ => false) (fun _ => false) "20260101_120000" in
  let request :=
    Route.mkRequest (Some "application/json") [] []
      (Some (Route.JDict [("text", Route.JString " Quarterly results ");
                          ("provider", Route.JString "OpenAI");
                          ("api_key", Route.JString "key")])) in
  no_raise Sample.published
  /\ exists title_slide created,
       Route.generate_presentation host Sample.published request
       = Route.Attachment "presentation_20260101_120000.pptx"
           (mkPresentation Sample.builtin (title_slide :: created))
       /\ length created = 3.
Proof.
  intros host request.
  assert (Hquiet : no_raise Sample.published) by (repeat split).
  split; [exact Hquiet|].
  destruct (llm_failure_still_gives_a_deck host Sample.published request
              (Route.mkInputs "Quarterly results" "openai" "key" "" false None)
              LLM.CallError eq_refl eq_refl eq_refl Hquiet)
    as (title_slide & created & Hresponse & Hmade); [discriminate|reflexivity|].
  exists title_slide, created. split; [exact Hresponse|].
  symmetry. exact (Forall2_length _ _ _ Hmade).
Defined.

Lemma read_json_no_template request inputs :
  Route.read_json request = Route.Continue inputs -> Route.template inputs = None.
Proof.
  unfold Route.read_json.
  destruct (Route.json request) as [data|]; [|discriminate].
  destruct (negb (Route.truthy data)); [discriminate|].
  destruct data as [| | | | |items]; try discriminate.
  destruct (Route.stripped_field items "text"); [|discriminate].
  destruct (Route.stripped_field items "provider"); [|discriminate].
  destruct (Route.stripped_field items "api_key"); [|discriminate].
  destruct (Route.stripped_field items "guidance"); [|discriminate].
  now intros [= <-].
Qed.

Lemma read_json_Return request response :
  Route.read_json request = Route.Return response ->
  exists status error, response = Route.JsonError status error.
Proof.
  unfold Route.read_json.
  destruct (Route.json request) as [data|]; [|discriminate].
  destruct (negb (Route.truthy data)); [intros [= <-]; eauto|].
  destruct data as [| | | | |items]; try discriminate.
  destruct (Route.stripped_field items "text"); [|discriminate].
  destruct (Route.stripped_field items "provider"); [|discriminate].
  destruct (Route.stripped_field items "api_key"); [|discriminate].
  destruct (Route.stripped_field items "guidance"); discriminate.
Qed.

Lemma validate_Return inputs response :
  Route.validate inputs = Route.Return response ->
  exists status error, response = Route.JsonError status error.
Proof.
  unfold Route.validate.
  destruct (String.eqb (Route.text inputs) EmptyString); [intros [= <-]; eauto|].
  destruct (_ || _); [intros [= <-]; eauto|].
  destruct (String.eqb (Route.api_key inputs) EmptyString); [intros [= <-]; eauto|].
  discriminate.
Qed.

(** X14.  A request that is not form data cannot bring a template: when
    it is answered with a deck, the deck has the layouts of the built-in
    template, and all its content slides are bound to one layout, layout
    1 of that template (layout 0 when it has one layout only). *)
Theorem json_request_gets_builtin_layouts host env request name deck :
  (forall value, Route.content_type request = Some value ->
                 PyStr.contains "multipart/form-data" value = false) ->
  Route.generate_presentation host env request = Route.Attachment name deck ->
  slide_layouts deck = builtin_layouts env
  /\ exists title_slide created,
       slides deck = title_slide :: created
       /\ Forall (fun slide => standard_layout (builtin_layouts env)
                               = Some (slide_layout slide)) created.
Proof.
  intros Hjson. unfold Route.generate_presentation.
  assert (Hread : Route.read_request host request = Route.read_json request).
  { unfold Route.read_request. destruct (Route.content_type request) as [value|];
      [|reflexivity]. now rewrite (Hjson value eq_refl). }
  rewrite Hread.
  destruct (Route.read_json request) as [inputs|response|] eqn:Hinputs; [| |discriminate].
  2:{ apply read_json_Return in Hinputs as (status & error & ->). discriminate. }
  apply read_json_no_template in Hinputs.
  destruct (Route.validate inputs) as [inputs'|response|] eqn:Hvalid; [| |discriminate].
  2:{ apply validate_Return in Hvalid as (status & error & ->). discriminate. }
  apply validate_Continue in Hvalid as (-> & _).
  unfold Route.respond. rewrite Hinputs.
  match goal with |- context [create_presentation env None ?o new_generator] =>
    destruct (create_presentation env None o new_generator) as [[success|e] g] eqn:Hrun
  end; [|discriminate].
  destruct success; cbn [negb]; [|discriminate].
  destruct (Route.send_deck_raises host (presentation g)); [discriminate|].
  intros [= _ <-].
  rewrite create_presentation_run in Hrun.
  destruct (assemble env None _ new_generator) as [[b|e] g0] eqn:Hassemble;
    [|discriminate].
  injection Hrun as -> ->.
  apply assemble_without_template in Hassemble
    as (title_slide & g2 & Hl & Hcl & Hs & Hcontent).
  pose proof Hcontent as Hframe.
  apply create_content_slides_spec in Hframe as (Hl' & _);
    [|unfold layouts_known; rewrite Hcl; constructor].
  apply create_content_slides_standard in Hcontent as (_ & created & Hs' & _ & Hall);
    [|assumption].
  split; [now rewrite Hl', Hl|].
  exists title_slide, created. rewrite Hs', Hs. split; [reflexivity|]. now rewrite Hl in Hall.
Qed.

Lemma json_request_gets_builtin_layouts_witness :
  let host :=
    Route.mkHost (mkServices (fun _ _ _ => None) (fun _ _ _ => None)
                             (fun _ _ _ => Some "```json{}```")
                             (fun _ => Some (mkOutline (Some "Plan")
                                               [mkSlideSpec (Some "A vs B") ["x"] ""])))
                 (fun _ => false) (fun _ => false) "20260101_120000" in
  let request :=
    Route.mkRequest None [] []
      (Some (Route.JDict [("text", Route.JString "Plan"); ("provider", Route.JString "groq");
                          ("api_key", Route.JString "key")])) in
  exists name deck,
    Route.generate_presentation host Sample.published request = Route.Attachment name deck
    /\ slide_layouts deck = Sample.builtin.
Proof.
  intros host request. eexists _, _. split; [reflexivity|].
  refine (proj1 (json_request_gets_builtin_layouts host Sample.published request _ _ _ eq_refl)).
  discriminate.
Defined.

(** * The route [/test-template] *)

Lemma analyse_layout_run placeholder_type env i layout g :
  Route.analyse_layout placeholder_type env i layout g
  = if instantiable env layout
    then (Ok (Route.mkLayoutInfo i (layout_name layout)
                (map (Route.placeholder_info placeholder_type)
                     (Route.placeholders (layout_shapes layout)))),
          g)
    else (Raise LibraryError,
          if add_slide_raises env layout then g
          else set_slides (slides (presentation g) ++ [new_slide layout]) g).
Proof.
  unfold Route.analyse_layout, instantiable, add_slide, bind, raise.
  destruct (add_slide_raises env layout); [reflexivity|]. cbn [negb andb].
  unfold modify, ret, drop_last_slide, bind, get, raise. cbn.
  rewrite last_snoc.
  destruct (drop_rel_raises env (new_slide layout)); cbn; [reflexivity|].
  rewrite removelast_last. f_equal.
  destruct g as [[ls ss] cl ci]. reflexivity.
Qed.

Lemma analyse_from_run placeholder_type env layouts : forall i g,
  exists g',
    Route.analyse_from placeholder_type env i layouts g
    = (if forallb (instantiable env) layouts
       then Ok (reported_layouts placeholder_type i layouts)
       else Raise LibraryError,
       g')
    /\ (forallb (instantiable env) layouts = true -> g' = g).
Proof.
  induction layouts as [|layout rest IH]; intros i g; [now exists g|].
  cbn [Route.analyse_from forallb reported_layouts]. unfold bind at 1.
  rewrite analyse_layout_run.
  destruct (instantiable env layout); cbn [andb]; [|eexists; split; [reflexivity|discriminate]].
  unfold bind. destruct (IH (S i) g) as (g' & -> & Hsame).
  exists g'. now destruct (forallb (instantiable env) rest).
Qed.

Lemma insert_by_idx_perm placeholder l :
  Permutation (Route.insert_by_idx placeholder l) (placeholder :: l).
Proof.
  induction l as [|other l IH]; cbn [Route.insert_by_idx]; [reflexivity|].
  destruct (fst other <? fst placeholder); [|reflexivity].
  rewrite IH. apply perm_swap.
Qed.

Lemma sort_by_idx_perm l : Permutation (Route.sort_by_idx l) l.
Proof.
  induction l as [|placeholder l IH]; cbn [Route.sort_by_idx]; [reflexivity|].
  rewrite insert_by_idx_perm. now constructor.
Qed.

Lemma insert_by_idx_sorted placeholder l :
  StronglySorted le (map fst l) ->
  StronglySorted le (map fst (Route.insert_by_idx placeholder l)).
Proof.
  induction l as [|other l IH]; cbn [Route.insert_by_idx map]; intros Hsorted.
  { repeat constructor. }
  inversion Hsorted as [|? ? Hrest Hall]; subst.
  destruct (Nat.ltb_spec (fst other) (fst placeholder)) as [Hlt|Hge]; cbn [map].
  - constructor; [now apply IH|].
    apply List.Forall_map.
    assert (Hperm := insert_by_idx_perm placeholder l).
    apply List.Forall_forall. intros x Hx.
    apply (Permutation_in _ Hperm) in Hx as [<-|Hx]; [lia|].
    rewrite List.Forall_map, List.Forall_forall in Hall. now apply Hall.
  - constructor; [assumption|].
    constructor; [assumption|].
    eapply List.Forall_impl; [|exact Hall]. cbn. intros; lia.
Qed.

Lemma sort_by_idx_sorted l : StronglySorted le (map fst (Route.sort_by_idx l)).
Proof.
  induction l as [|placeholder l IH]; cbn [Route.sort_by_idx]; [constructor|].
  now apply insert_by_idx_sorted.
Qed.

(** X15.  For an uploaded template that is stored and opens, the analysis
    succeeds exactly when a slide of every layout can be created and
    removed again.  It then reports one entry per layout, in order, with
    the layout's position, its name and its placeholders, the number of
    layouts, and as existing slides the number of slides the template
    came with: no temporary slide is left or counted.  Otherwise the
    response is the failure response.  The placeholders of an entry are
    those of the layout, each once, in increasing order of [idx]. *)
Theorem template_analysis_report host placeholder_type env request template_file loaded :
  Route.lookup_key "template" (Route.files request) = Some template_file ->
  Route.filename template_file <> EmptyString ->
  Route.store_upload_raises host template_file = false ->
  Route.opened template_file = Ok loaded ->
  Route.test_template host placeholder_type env request
  = (if forallb (instantiable env) (slide_layouts loaded)
     then Route.Report (Route.filename template_file)
                       (length (slide_layouts loaded)) (length (slides loaded))
                       (reported_layouts placeholder_type 0 (slide_layouts loaded))
     else Route.Failed LibraryError)
  /\ Forall2 (fun layout info =>
                Route.info_layout_name info = layout_name layout
                /\ StronglySorted le (map Route.info_idx (Route.info_placeholders info))
                /\ Permutation
                     (Route.info_placeholders info)
                     (map (Route.placeholder_info placeholder_type)
                          (omap Route.indexed_placeholder (layout_shapes layout))))
             (slide_layouts loaded)
             (reported_layouts placeholder_type 0 (slide_layouts loaded)).
Proof.
  intros Hfile Hname Hstore Hopen. split.
  - unfold Route.test_template.
    rewrite Hfile, Hstore, Hopen.
    destruct (Route.filename template_file) as [|c name]; [congruence|].
    destruct (analyse_from_run placeholder_type env (slide_layouts loaded) 0
                (mkGen loaded [] 0)) as (g & -> & Hsame).
    destruct (forallb (instantiable env) (slide_layouts loaded)); [|reflexivity].
    now rewrite (Hsame eq_refl).
  - generalize 0. induction (slide_layouts loaded) as [|layout rest IH]; intros i;
      cbn [reported_layouts]; constructor; [|apply IH].
    cbn [Route.info_layout_name Route.info_placeholders]. split; [reflexivity|]. split.
    + rewrite map_map. cbn [Route.placeholder_info Route.info_idx].
      apply sort_by_idx_sorted.
    + apply Permutation_map. apply sort_by_idx_perm.
Qed.

Lemma template_analysis_report_witness :
  let caption :=
    mkLayout "Caption"
             [Sample.placeholder 0 "Title 1"; Sample.placeholder 2 "Text Placeholder 3";
              Sample.placeholder 1 "Picture Placeholder 2"] in
  let template_file :=
    Route.mkFileStorage "deck.pptx"
      (Ok (mkPresentation [caption; Sample.blank] [new_slide Sample.blank])) in
  let request := Route.mkRequest (Some "multipart/form-data") [] [("template", template_file)]
                                 None in
  let host :=
    Route.mkHost (mkServices (fun _ _ _ => None) (fun _ _ _ => None) (fun _ _ _ => None)
                             (fun _ => None))
                 (fun _ => false) (fun _ => false) "20260101_120000" in
  Route.filename template_file <> EmptyString
  /\ Route.test_template host (fun _ => "BODY (2)") Sample.published request
     = Route.Report "deck.pptx" 2 1
         [Route.mkLayoutInfo 0 "Caption"
            [Route.mkPlaceholderInfo 0 "Title 1" "BODY (2)";
             Route.mkPlaceholderInfo 1 "Picture Placeholder 2" "BODY (2)";
             Route.mkPlaceholderInfo 2 "Text Placeholder 3" "BODY (2)"];
          Route.mkLayoutInfo 1 "Blank" []]
  /\ Route.test_template host (fun _ => "BODY (2)") Sample.sticky request
     = Route.Failed LibraryError.
Proof.
  intros caption template_file request host. split; [discriminate|]. split.
  - exact (proj1 (template_analysis_report host (fun _ => "BODY (2)") Sample.published
                    request template_file _ eq_refl ltac:(discriminate) eq_refl eq_refl)).
  - exact (proj1 (template_analysis_report host (fun _ => "BODY (2)") Sample.sticky request
                    template_file _ eq_refl ltac:(discriminate) eq_refl eq_refl)).
Defined.

(** * Further properties of the deck *)

(** ** The text of the title slide *)

Lemma find_last_Some {A} (p : A -> bool) l : forall k x,
  find_last p l = Some (k, x) -> l !! k = Some x /\ p x = true.
Proof.
  induction l as [|y l IH]; intros k x; cbn [find_last]; [discriminate|].
  destruct (find_last p l) as [[k' x']|].
  - intros [= <- <-]. now apply IH.
  - destruct (p y) eqn:Hp; [|discriminate]. intros [= <- <-]. now split.
Qed.

Lemma find_last_or_first {A} (p : A -> bool) l :
  match find_last p l with
  | Some found => Some found
  | None => find_first p l
  end = find_last p l.
Proof.
  destruct (find_last p l) as [found|] eqn:Hlast; [reflexivity|].
  induction l as [|y l IH]; [reflexivity|]. cbn [find_last find_first] in *.
  destruct (find_last p l) as [[k x]|]; [discriminate|].
  destruct (p y); [discriminate|]. now rewrite IH.
Qed.

Lemma write_optional_Ok env t target slide g slide' g' :
  write_optional env t target slide g = (Ok slide', g') ->
  match target with
  | None => slide' = slide
  | Some (k, shape) =>
      exists shape',
        write_text env t shape = Ok shape'
        /\ shapes slide' = <[k := shape']> (shapes slide)
  end.
Proof.
  unfold write_optional. destruct target as [[k shape]|]; [|now intros [= <-]].
  unfold bind at 1. unfold lift.
  destruct (write_text env t shape) as [shape'|e]; [|discriminate].
  unfold ret, bind, store_last_slide, modify. intros [= <- _]. now exists shape'.
Qed.

Lemma write_text_Ok_frame env t shape shape' :
  write_text env t shape = Ok shape' ->
  has_text_frame shape = true ->
  shape' = with_text_frame (TextFrame.set_text t) shape.
Proof.
  unfold write_text. intros Hw Hframe. rewrite Hframe in Hw.
  destruct (text_frame_raises env shape); [discriminate|]. now injection Hw as <-.
Qed.

(** X16.  When the title slide is created, it has as many shapes as
    layout 0 gives it.  If that layout has a placeholder with [idx == 0]
    and a text frame, the last such placeholder holds the title of the
    outline (or "Generated Presentation" when the outline has none) as
    the library stores it, and reads back as exactly that title when the
    title has no escaped character.  If it has a placeholder with
    [idx == 1] and a text frame, the last such placeholder holds
    "Generated on " followed by the date in the same way. *)
Theorem title_slide_text env outline_data g title_slide g' :
  create_title_slide env outline_data g = (Ok title_slide, g') ->
  exists layout,
    slide_layouts (presentation g) !! 0 = Some layout
    /\ length (shapes title_slide) = length (layout_shapes layout)
    /\ (forall k shape,
          find_last is_title_placeholder (layout_shapes layout) = Some (k, shape) ->
          has_text_frame shape = true ->
          shapes title_slide !! k ≫= text_frame
          = Some (TextFrame.set_text (outline_title_or_default outline_data))
          /\ (TextFrame.unescaped (outline_title_or_default outline_data) = true ->
              TextFrame.text (TextFrame.set_text (outline_title_or_default outline_data))
              = outline_title_or_default outline_data))
    /\ (forall k shape,
          find_last (ph_idx_is (fun i => i =? 1)) (layout_shapes layout) = Some (k, shape) ->
          has_text_frame shape = true ->
          shapes title_slide !! k ≫= text_frame
          = Some (TextFrame.set_text (String.append "Generated on " (today env)))
          /\ (TextFrame.unescaped (today env) = true ->
              TextFrame.text (TextFrame.set_text (String.append "Generated on " (today env)))
              = String.append "Generated on " (today env))).
Proof.
  unfold create_title_slide. unfold bind at 1. unfold get at 1.
  unfold bind at 1. rewrite index_run.
  destruct (slide_layouts (presentation g) !! 0) as [layout|] eqn:Hfirst; [|discriminate].
  unfold bind at 1. unfold add_slide.
  destruct (add_slide_raises env layout); [discriminate|].
  unfold bind at 1. unfold modify at 1. unfold ret at 1.
  cbn [new_slide shapes]. rewrite find_last_or_first.
  set (g1 := set_slides _ g). unfold bind at 1.
  destruct (write_optional env _ _ (new_slide layout) g1) as [[slide1|e] g2] eqn:Hw1;
    [|discriminate].
  intros Hw2. apply write_optional_Ok in Hw1. apply write_optional_Ok in Hw2.
  exists layout. split; [reflexivity|].
  assert (Hdate : TextFrame.unescaped (today env) = true ->
                  TextFrame.text (TextFrame.set_text (String.append "Generated on " (today env)))
                  = String.append "Generated on " (today env)).
  { intros Hplain. apply text_set_text. cbn. exact Hplain. }
  destruct (find_last is_title_placeholder (layout_shapes layout)) as [[k1 s1]|] eqn:Ht;
    destruct (find_last (ph_idx_is (fun i => i =? 1)) (layout_shapes layout))
      as [[k2 s2]|] eqn:Hs.
  - destruct Hw1 as (s1' & Hs1' & Hshapes1). destruct Hw2 as (s2' & Hs2' & Hshapes2).
    cbn [new_slide shapes] in Hshapes1. rewrite Hshapes2, Hshapes1.
    apply find_last_Some in Ht as [Hl1 Hp1]. apply find_last_Some in Hs as [Hl2 Hp2].
    assert (Hne : k2 <> k1).
    { intros ->. unfold is_title_placeholder, ph_idx_is in *.
      replace s2 with s1 in * by congruence.
      destruct (ph_idx s1) as [i|]; [|discriminate].
      apply Nat.eqb_eq in Hp1, Hp2. lia. }
    split; [now rewrite !length_insert|]. split.
    + intros k shape [= <- <-] Hframe. split; [|apply text_set_text].
      rewrite list_lookup_insert_ne by assumption.
      rewrite list_lookup_insert_eq by (eapply lookup_lt_Some, Hl1).
      now rewrite (write_text_Ok_frame _ _ _ _ Hs1' Hframe).
    + intros k shape [= <- <-] Hframe. split; [|exact Hdate].
      rewrite list_lookup_insert_eq
        by (rewrite length_insert; eapply lookup_lt_Some, Hl2).
      now rewrite (write_text_Ok_frame _ _ _ _ Hs2' Hframe).
  - destruct Hw1 as (s1' & Hs1' & Hshapes1). subst title_slide.
    cbn [new_slide shapes] in Hshapes1. rewrite Hshapes1.
    apply find_last_Some in Ht as [Hl1 Hp1].
    split; [now rewrite length_insert|]. split; [|discriminate].
    intros k shape [= <- <-] Hframe. split; [|apply text_set_text].
    rewrite list_lookup_insert_eq by (eapply lookup_lt_Some, Hl1).
    now rewrite (write_text_Ok_frame _ _ _ _ Hs1' Hframe).
  - subst slide1. destruct Hw2 as (s2' & Hs2' & Hshapes2).
    cbn [new_slide shapes] in Hshapes2. rewrite Hshapes2.
    apply find_last_Some in Hs as [Hl2 Hp2].
    split; [now rewrite length_insert|]. split; [discriminate|].
    intros k shape [= <- <-] Hframe. split; [|exact Hdate].
    rewrite list_lookup_insert_eq by (eapply lookup_lt_Some, Hl2).
    now rewrite (write_text_Ok_frame _ _ _ _ Hs2' Hframe).
  - subst slide1 title_slide. split; [reflexivity|]. split; discriminate.
Qed.

Lemma title_slide_text_witness :
  let g := Sample.generator_for (mkPresentation Sample.builtin []) in
  let run := create_title_slide Sample.published (mkOutline None []) g in
  exists title_slide,
    fst run = Ok title_slide
    /\ find_last is_title_placeholder (layout_shapes Sample.title_slide)
       = Some (0, Sample.placeholder 0 "Title 1")
    /\ shapes title_slide !! 0 ≫= text_frame = Some ["Generated Presentation"]
    /\ shapes title_slide !! 1 ≫= text_frame = Some ["Generated on January 01, 2026"].
Proof.
  intros g run.
  destruct run as [[title_slide|e] g'] eqn:Hrun; [|discriminate].
  exists title_slide. split; [reflexivity|]. split; [reflexivity|].
  destruct (title_slide_text Sample.published (mkOutline None []) g title_slide g' Hrun)
    as (layout & Hfirst & _ & Htitle & Hdate).
  injection Hfirst as <-.
  split.
  - exact (proj1 (Htitle 0 (Sample.placeholder 0 "Title 1") eq_refl eq_refl)).
  - exact (proj1 (Hdate 1 (Sample.placeholder 1 "Subtitle 2") eq_refl eq_refl)).
Defined.

(** ** Title-only layouts among the content layouts *)

Lemma content_entries_content env layouts : forall i,
  Forall (fun entry => classify (probe_answer env (snd entry)) (snd entry) = Content)
         (content_entries env i layouts).
Proof.
  induction layouts as [|layout rest IH]; intros i; cbn [content_entries]; [constructor|].
  apply Forall_app. split; [|apply IH].
  unfold content_entry.
  destruct (classify (probe_answer env layout) layout) eqn:Hc; repeat constructor.
  exact Hc.
Qed.

Lemma content_entries_nil_inv env layouts : forall i,
  content_entries env i layouts = [] ->
  Forall (fun layout => classify (probe_answer env layout) layout <> Content) layouts.
Proof.
  induction layouts as [|layout rest IH]; intros i; cbn [content_entries]; [constructor|].
  intros Hnil. apply app_eq_nil in Hnil as [Hone Hrest].
  constructor; [|now apply (IH (S i))].
  unfold content_entry in Hone.
  destruct (classify (probe_answer env layout) layout); try discriminate.
Qed.

(** X17.  A layout whose lower-cased name contains "title slide" or
    "title only" is never admitted by the classification loop.  It is
    among the content layouts after [_identify_content_layouts] only by
    default: then the loop admitted no layout of the template at all, and
    the layout is the one at position 1 or 2. *)
Theorem title_only_layout_is_content_only_by_default env g i layout :
  PyStr.any_in title_only_keywords (PyStr.lower (layout_name layout)) = true ->
  In (i, layout) (content_layouts (snd (_identify_content_layouts env g))) ->
  Forall (fun other => classify (probe_answer env other) other <> Content)
         (slide_layouts (presentation g))
  /\ (i = 1 \/ i = 2)
  /\ slide_layouts (presentation g) !! i = Some layout.
Proof.
  intros Hname. rewrite identify_content_layouts_run.
  cbn [snd identified content_layouts].
  destruct (content_entries env 0 (slide_layouts (presentation g))) as [|entry entries]
    eqn:He.
  - intros Hin. split; [now apply content_entries_nil_inv in He|].
    destruct (default_layouts_indexed (slide_layouts (presentation g))) as [Hall _].
    rewrite List.Forall_forall in Hall. specialize (Hall _ Hin). cbn [fst snd] in Hall.
    split; [|exact Hall].
    revert Hin. destruct (slide_layouts (presentation g)) as [|l0 [|l1 [|l2 rest]]].
    + intros [].
    + intros [].
    + rewrite default_layouts_two. intros [[= <- _]|[]]. now left.
    + rewrite default_layouts_three. intros [[= <- _]|[[= <- _]|[]]]; [now left|now right].
  - rewrite <- He. intros Hin. exfalso.
    pose proof (content_entries_content env (slide_layouts (presentation g)) 0) as Hall.
    rewrite List.Forall_forall in Hall. specialize (Hall _ Hin). cbn [snd] in Hall.
    unfold classify in Hall. rewrite Hname in Hall. discriminate.
Qed.

Lemma title_only_layout_is_content_only_by_default_witness :
  let g := Sample.generator_for
             (mkPresentation [Sample.title_slide; Sample.title_only; Sample.title_banner] []) in
  PyStr.any_in title_only_keywords (PyStr.lower (layout_name Sample.title_only)) = true
  /\ In (1, Sample.title_only)
        (content_layouts (snd (_identify_content_layouts Sample.published g)))
  /\ Forall (fun other => classify (probe_answer Sample.published other) other <> Content)
            (slide_layouts (presentation g)).
Proof.
  intros g. split; [reflexivity|].
  assert (Hin : In (1, Sample.title_only)
                   (content_layouts (snd (_identify_content_layouts Sample.published g))))
    by (now left).
  split; [exact Hin|].
  exact (proj1 (title_only_layout_is_content_only_by_default Sample.published g 1
                  Sample.title_only eq_refl Hin)).
Defined.

(** ** Slides for which no rule fires *)

(** X18.  When no rule of the selector fires for a slide, that is, every
    content layout gets the default priority 1, the selector returns the
    first content layout and leaves the generator unchanged: all such
    slides of a deck are bound to the same layout. *)
Theorem default_priority_gives_first_layout slide_data g i layout rest :
  content_layouts g = (i, layout) :: rest ->
  Forall (fun entry =>
            priority (PyStr.lower (title_or_empty slide_data)) (length (points slide_data))
                     (PyStr.lower (layout_name (snd entry))) = 1)
         (content_layouts g) ->
  _get_smart_layout slide_data g = (Ok layout, g).
Proof.
  intros Hcl Hdefault.
  destruct (smart_layout_run slide_data g) as (pre & best & post & Hsuit & Hpre & _ & ->).
  { rewrite Hcl. discriminate. }
  assert (Hone : Forall (fun c => cand_priority c = 1)
                        (suitable_layouts slide_data (content_layouts g))).
  { unfold suitable_layouts. apply List.Forall_map.
    eapply List.Forall_impl; [|exact Hdefault]. now intros [j l]. }
  rewrite Hsuit in Hone. apply Forall_app in Hone as [Hpre1 Hbest].
  inversion Hbest as [|? ? Hbest1 _]; subst.
  destruct pre as [|c pre].
  - rewrite Hcl in Hsuit. cbn in Hsuit. injection Hsuit as <- _. reflexivity.
  - inversion Hpre as [|? ? Hlt _]; subst. inversion Hpre1 as [|? ? Hc _]; subst. lia.
Qed.

Lemma default_priority_gives_first_layout_witness :
  let g := mkGen (mkPresentation Sample.builtin [])
                 [(1, Sample.title_and_content); (7, Sample.content_with_caption)] 0 in
  let slide_data := mkSlideSpec (Some "Roadmap") ["A"; "B"; "C"] "" in
  content_layouts g = [(1, Sample.title_and_content); (7, Sample.content_with_caption)]
  /\ _get_smart_layout slide_data g = (Ok Sample.title_and_content, g).
Proof.
  intros g slide_data. split; [reflexivity|].
  apply (default_priority_gives_first_layout slide_data g 1 Sample.title_and_content
           [(7, Sample.content_with_caption)] eq_refl).
  repeat constructor.
Defined.
